(** * Orchestration core of the autonomous software engineer

    A shallow embedding of the task planner ([src/core/task_planner.py]),
    the retry decorator and plan executor ([src/core/autonomous_engine.py])
    and the persistence of the memory manager
    ([src/core/memory_manager.py]), with the properties of their
    specification.

    Conventions.  A Python [dict] is an association list in insertion
    order with unique keys.  The wall clock, the string hash and the task
    handlers are inputs of the functions that consult them.  Python
    [float]s are binary64 primitive floats. *)

From Stdlib Require Import List String Ascii ZArith Lia Bool Arith PeanoNat.
From Stdlib Require Import Decimal DecimalString DecimalNat DecimalZ.
From Stdlib Require Import Floats Uint63.
From Stdlib Require Import Sorted Permutation.
Import ListNotations.

#[local] Set Warnings "-register-all".

Local Open Scope string_scope.
Local Open Scope list_scope.

(** ** Python values *)

(** The values a field annotated [Any] can hold.  [PyOpaque] stands for
    every object that [json] cannot encode (a [set], a [datetime], an
    instance of a user class); its argument is only a label. *)
Inductive pyval : Type :=
| PyNone
| PyBool (b : bool)
| PyInt (z : Z)
| PyFloat (f : float)
| PyStr (s : string)
| PyList (l : list pyval)
| PyTuple (l : list pyval)
| PyDict (d : list (pyval * pyval))
| PyOpaque (label : string).

(** ** Dictionaries with string keys *)

Section Dict.
Context {V : Type}.

(** [d.get(k)] *)
Fixpoint dict_get (k : string) (d : list (string * V)) : option V :=
  match d with
  | [] => None
  | (k', v) :: d' => if String.eqb k k' then Some v else dict_get k d'
  end.

(** [k in d] *)
Definition dict_mem (k : string) (d : list (string * V)) : bool :=
  match dict_get k d with Some _ => true | None => false end.

(** [d[k] = v]: an existing key keeps its position, a new key goes last. *)
Fixpoint dict_set (k : string) (v : V) (d : list (string * V))
  : list (string * V) :=
  match d with
  | [] => [(k, v)]
  | (k', v') :: d' =>
      if String.eqb k k' then (k', v) :: d' else (k', v') :: dict_set k v d'
  end.

(** [del d[k]] *)
Fixpoint dict_del (k : string) (d : list (string * V)) : list (string * V) :=
  match d with
  | [] => []
  | (k', v') :: d' =>
      if String.eqb k k' then d' else (k', v') :: dict_del k d'
  end.

(** [d.values()] *)
Definition dict_values (d : list (string * V)) : list V := map snd d.

(** [d.keys()] *)
Definition dict_keys (d : list (string * V)) : list string := map fst d.
End Dict.

(** ** Numbers *)

(** [int] to [float].  Exact below [2^53]; the only integers converted
    this way are list lengths. *)
Definition float_of_int (z : Z) : float := PrimFloat.of_uint63 (Uint63.of_Z z).

(** [float(2 ** a)] as the multiplication [x * (2 ** a)] performs it: the
    conversion raises [OverflowError] from [2 ** 1024] on. *)
Definition float_of_pow2 (a : nat) : option float :=
  if (Z.of_nat a <? 1024)%Z then Some (Z.ldexp PrimFloat.one (Z.of_nat a)) else None.

(** The integer nearest to [num / den], ties to even ([0 < den]). *)
Definition round_half_even (num den : Z) : Z :=
  let q := (num / den)%Z in
  let r := (num mod den)%Z in
  match (2 * r ?= den)%Z with
  | Lt => q
  | Gt => (q + 1)%Z
  | Eq => if Z.even q then q else (q + 1)%Z
  end.

(** The builtin [round(x, 2)]: the exact value of [x] is rounded to two
    decimals, ties to even, and the decimal [n / 100] obtained is read
    back as the nearest float.  Exact for [|x| < 2^45], which covers the
    percentages it is applied to; NaN, infinities, zeros and integral
    floats from [2^52] on are returned unchanged, as Python does. *)
Definition py_round2 (x : float) : float :=
  match Prim2SF x with
  | S754_finite sgn m e =>
      if (0 <=? e)%Z then x
      else
        let n := round_half_even (Z.pos m * 100) (2 ^ (- e)) in
        let r := PrimFloat.div (float_of_int n) (float_of_int 100) in
        if sgn then PrimFloat.opp r else r
  | _ => x
  end.

(** The builtin [min(a, b)] on floats: [b] if [b < a], otherwise [a]. *)
Definition py_min (a b : float) : float :=
  if PrimFloat.ltb b a then b else a.

(** ** Strings *)

(** [s.lower()] on ASCII text. *)
Definition lower_ascii (c : ascii) : ascii :=
  let n := nat_of_ascii c in
  if ((65 <=? n) && (n <=? 90))%nat then ascii_of_nat (n + 32) else c.

Fixpoint lower (s : string) : string :=
  match s with
  | EmptyString => EmptyString
  | String c s' => String (lower_ascii c) (lower s')
  end.

(** [s.replace(" ", "_")] *)
Fixpoint replace_space (s : string) : string :=
  match s with
  | EmptyString => EmptyString
  | String c s' =>
      String (if Ascii.eqb c " "%char then "_"%char else c) (replace_space s')
  end.

(** [n] copies of the character ["0"]. *)
Fixpoint zeros (n : nat) : string :=
  match n with
  | O => EmptyString
  | S n' => String "0"%char (zeros n')
  end.

(** [f"{n:04d}"]: decimal digits, padded with zeros on the left to width
    four. *)
Definition format_04d (n : nat) : string :=
  let s := NilEmpty.string_of_uint (Nat.to_uint n) in
  zeros (4 - String.length s) ++ s.

(** ** The task planner *)

Module TaskPlanner.

Inductive TaskStatus : Type :=
| PENDING | IN_PROGRESS | COMPLETED | FAILED | BLOCKED.

Inductive TaskPriority : Type :=
| LOW | MEDIUM | HIGH | CRITICAL.

(** [priority.value] *)
Definition priority_value (p : TaskPriority) : string :=
  match p with
  | LOW => "low"
  | MEDIUM => "medium"
  | HIGH => "high"
  | CRITICAL => "critical"
  end.

Definition status_eqb (a b : TaskStatus) : bool :=
  match a, b with
  | PENDING, PENDING | IN_PROGRESS, IN_PROGRESS | COMPLETED, COMPLETED
  | FAILED, FAILED | BLOCKED, BLOCKED => true
  | _, _ => false
  end.

Record Task : Type := mkTask {
  id : string;
  title : string;
  description : string;
  status : TaskStatus;
  priority : TaskPriority;
  dependencies : list string;
  task_type : string;
  estimated_time : option Z;
  actual_time : option Z;
  created_at : option string;
  completed_at : option string;
  metadata : option (list (string * pyval))
}.

Definition set_status (s : TaskStatus) (t : Task) : Task :=
  mkTask (id t) (title t) (description t) s (priority t) (dependencies t)
         (task_type t) (estimated_time t) (actual_time t) (created_at t)
         (completed_at t) (metadata t).

Definition set_actual_time (a : option Z) (t : Task) : Task :=
  mkTask (id t) (title t) (description t) (status t) (priority t)
         (dependencies t) (task_type t) (estimated_time t) a (created_at t)
         (completed_at t) (metadata t).

Definition set_completed_at (c : option string) (t : Task) : Task :=
  mkTask (id t) (title t) (description t) (status t) (priority t)
         (dependencies t) (task_type t) (estimated_time t) (actual_time t)
         (created_at t) c (metadata t).

Definition set_metadata (m : option (list (string * pyval))) (t : Task)
  : Task :=
  mkTask (id t) (title t) (description t) (status t) (priority t)
         (dependencies t) (task_type t) (estimated_time t) (actual_time t)
         (created_at t) (completed_at t) m.

(** The planner object: [self.tasks] and [self.task_counter]. *)
Record planner : Type := mkPlanner {
  tasks : list (string * Task);
  task_counter : nat
}.

(** [TaskPlanner()] *)
Definition init : planner := mkPlanner [] 0.

(** [f"task_{n:04d}"] *)
Definition task_id_of (n : nat) : string := "task_" ++ format_04d n.

(** [create_task]; [now] is the value of [_get_timestamp()]. *)
Definition create_task (now : string) (title description : string)
    (priority : TaskPriority) (dependencies : option (list string))
    (task_type : string) (estimated_time : option Z)
    (metadata : option (list (string * pyval))) (p : planner)
  : string * planner :=
  let task_id := task_id_of (task_counter p) in
  let task :=
    mkTask task_id title description PENDING priority
           (match dependencies with Some (d :: ds) => d :: ds | _ => [] end)
           task_type estimated_time None (Some now) None metadata in
  (task_id, mkPlanner (dict_set task_id task (tasks p)) (S (task_counter p))).

(** The [phases] table of [plan_from_requirement]. *)
Definition phases : list (string * string * TaskPriority) :=
  [ ("Requirements Analysis", "Analyze and clarify the requirements", HIGH);
    ("Architecture Design", "Design the system architecture", HIGH);
    ("Database Design", "Design database schema and models", MEDIUM);
    ("Backend Development", "Implement backend API and logic", HIGH);
    ("Frontend Development", "Implement user interface", MEDIUM);
    ("Testing", "Write and run tests", MEDIUM);
    ("Documentation", "Create user and technical documentation", LOW);
    ("Deployment", "Deploy the application", HIGH) ].

(** [[previous_task_id] if previous_task_id else []]: [None] and the
    empty string are false. *)
Definition depends_on (previous_task_id : option string) : list string :=
  match previous_task_id with
  | Some (String c s) => [String c s]
  | _ => []
  end.

(** The body of the [for] loop of [plan_from_requirement], over the
    remaining phases; [clock] gives the timestamp of each creation by
    the counter of the task created. *)
Fixpoint plan_loop (clock : nat -> string) (requirement : string)
    (ph : list (string * string * TaskPriority))
    (previous_task_id : option string) (task_ids : list string)
    (p : planner) : list string * planner :=
  match ph with
  | [] => (task_ids, p)
  | (title, description, priority) :: ph' =>
      let dependencies := depends_on previous_task_id in
      let task_type := replace_space (lower title) in
      let '(task_id, p') :=
        create_task (clock (task_counter p)) title
                    (description ++ " for: " ++ requirement) priority
                    (Some dependencies) task_type (Some 60%Z) None p in
      plan_loop clock requirement ph' (Some task_id)
                (task_ids ++ [task_id]) p'
  end.

Definition plan_from_requirement (clock : nat -> string)
    (requirement : string) (p : planner) : list string * planner :=
  plan_loop clock requirement phases None [] p.

(** [_are_dependencies_completed] *)
Fixpoint _are_dependencies_completed (p : planner)
    (dependencies : list string) : bool :=
  match dependencies with
  | [] => true
  | dep_id :: rest =>
      match dict_get dep_id (tasks p) with
      | None => false
      | Some t =>
          if status_eqb (status t) COMPLETED
          then _are_dependencies_completed p rest
          else false
      end
  end.

(** [sorted(l, key=lambda t: t.priority.value, reverse=True)]: the keys
    are the strings of the enumeration, compared as strings; the sort
    is stable, also with [reverse=True]. *)
Fixpoint insert_desc (x : Task) (l : list Task) : list Task :=
  match l with
  | [] => [x]
  | y :: l' =>
      if String.ltb (priority_value (priority x))
                    (priority_value (priority y))
      then y :: insert_desc x l'
      else x :: y :: l'
  end.

Definition sorted_by_priority_value_desc (l : list Task) : list Task :=
  fold_right insert_desc [] l.

(** [get_ready_tasks] *)
Definition get_ready_tasks (p : planner) : list Task :=
  sorted_by_priority_value_desc
    (filter (fun t => status_eqb (status t) PENDING
                      && _are_dependencies_completed p (dependencies t))
            (dict_values (tasks p))).

(** [start_task] *)
Definition start_task (task_id : string) (p : planner) : bool * planner :=
  match dict_get task_id (tasks p) with
  | None => (false, p)
  | Some task =>
      if negb (status_eqb (status task) PENDING) then (false, p)
      else if negb (_are_dependencies_completed p (dependencies task))
      then (false, p)
      else (true,
            mkPlanner (dict_set task_id (set_status IN_PROGRESS task)
                                (tasks p))
                      (task_counter p))
  end.

(** [complete_task]; [now] is the value of [_get_timestamp()]. *)
Definition complete_task (now : string) (task_id : string)
    (actual_time : option Z) (p : planner) : bool * planner :=
  match dict_get task_id (tasks p) with
  | None => (false, p)
  | Some task =>
      if negb (status_eqb (status task) IN_PROGRESS) then (false, p)
      else
        let task' :=
          set_completed_at (Some now)
            (set_actual_time actual_time (set_status COMPLETED task)) in
        (true, mkPlanner (dict_set task_id task' (tasks p)) (task_counter p))
  end.

(** [fail_task].  A task holds its metadata by value here.  In Python
    the dictionary given to [create_task] is kept as the object it is,
    and a non-empty one is written in place, so that tasks created with
    one and the same dictionary see the write together; that sharing is
    outside this model, which therefore says nothing of the metadata of
    the other tasks in that case. *)
Definition fail_task (task_id : string) (reason : string) (p : planner)
  : bool * planner :=
  match dict_get task_id (tasks p) with
  | None => (false, p)
  | Some task =>
      let m := match metadata task with
               | Some (e :: m') => e :: m'
               | _ => []
               end in
      let task' :=
        set_metadata (Some (dict_set "failure_reason" (PyStr reason) m))
                     (set_status FAILED task) in
      (true, mkPlanner (dict_set task_id task' (tasks p)) (task_counter p))
  end.

(** [sum(1 for t in self.tasks.values() if t.status == s)] *)
Definition count_status (s : TaskStatus) (p : planner) : nat :=
  List.length (filter (fun t => status_eqb (status t) s)
                      (dict_values (tasks p))).

(** [_get_overall_status] *)
Definition _get_overall_status (completed failed total : nat) : string :=
  if (0 <? failed)%nat then "has_issues"
  else if (completed =? total)%nat then "completed"
  else if (0 <? completed)%nat then "in_progress"
  else "not_started".

(** [get_task_progress] *)
Definition get_task_progress (p : planner) : list (string * pyval) :=
  let total_tasks := List.length (tasks p) in
  if (total_tasks =? 0)%nat then
    [("progress", PyInt 0); ("status", PyStr "No tasks")]
  else
    let completed := count_status COMPLETED p in
    let in_progress := count_status IN_PROGRESS p in
    let failed := count_status FAILED p in
    let pending := count_status PENDING p in
    let progress :=
      PrimFloat.mul
        (PrimFloat.div (float_of_int (Z.of_nat completed))
                       (float_of_int (Z.of_nat total_tasks)))
        (float_of_int 100) in
    [ ("total_tasks", PyInt (Z.of_nat total_tasks));
      ("completed", PyInt (Z.of_nat completed));
      ("in_progress", PyInt (Z.of_nat in_progress));
      ("failed", PyInt (Z.of_nat failed));
      ("pending", PyInt (Z.of_nat pending));
      ("progress_percentage", PyFloat (py_round2 progress));
      ("status", PyStr (_get_overall_status completed failed total_tasks)) ].

(** The identifiers in use were all issued by the counter: what
    [create_task] maintains, from [TaskPlanner()] on. *)
Definition planner_wf (p : planner) : Prop :=
  forall k, In k (dict_keys (tasks p)) ->
    exists n, k = task_id_of n /\ n < task_counter p.

(** The dependency lists of a chain: each identifier after the one
    before it, the first after [previous_task_id]. *)
Fixpoint chain_from (previous_task_id : option string) (ids : list string)
  : list (list string) :=
  match ids with
  | [] => []
  | i :: ids' => depends_on previous_task_id :: chain_from (Some i) ids'
  end.

(** [get_task_by_id] *)
Definition get_task_by_id (task_id : string) (p : planner) : option Task :=
  dict_get task_id (tasks p).

(** [get_all_tasks] *)
Definition get_all_tasks (p : planner) : list Task := dict_values (tasks p).

(** [clear_completed_tasks] *)
Definition clear_completed_tasks (p : planner) : planner :=
  let completed_ids :=
    map fst (filter (fun kt => status_eqb (status (snd kt)) COMPLETED)
                    (tasks p)) in
  mkPlanner (fold_left (fun d k => dict_del k d) completed_ids (tasks p))
            (task_counter p).

End TaskPlanner.


(** ** The documented progress percentage *)

(** The percentage as the specification words it,
    [round(100*completed/total, 2)]: the product is formed first, on
    integers, and divided once. *)
Definition documented_percentage (completed total : nat) : float :=
  py_round2 (PrimFloat.div (float_of_int (100 * Z.of_nat completed))
                           (float_of_int (Z.of_nat total))).

(** The percentage as [get_task_progress] computes it,
    [round((completed / total_tasks) * 100, 2)]: the quotient is formed
    first and then scaled. *)
Definition computed_percentage (completed total : nat) : float :=
  py_round2 (PrimFloat.mul
               (PrimFloat.div (float_of_int (Z.of_nat completed))
                              (float_of_int (Z.of_nat total)))
               (float_of_int 100)).

(** A planner built through its operations: [n] independent tasks, of
    which those listed in [done] have been started and completed. *)
Fixpoint create_tasks (n : nat) (p : TaskPlanner.planner)
  : TaskPlanner.planner :=
  match n with
  | O => p
  | S n' =>
      create_tasks n'
        (snd (TaskPlanner.create_task "t" "Task" "d" TaskPlanner.MEDIUM None
                                      "generic" None None p))
  end.

Definition run_to_completion (done : list string) (p : TaskPlanner.planner)
  : TaskPlanner.planner :=
  fold_left
    (fun q task_id =>
       snd (TaskPlanner.complete_task "t" task_id None
              (snd (TaskPlanner.start_task task_id q))))
    done p.

(** 160 tasks, the first 23 of them completed. *)
Definition planner_23_of_160 : TaskPlanner.planner :=
  run_to_completion (map TaskPlanner.task_id_of (seq 0 23))
                    (create_tasks 160 TaskPlanner.init).

(** Two independent tasks, the first HIGH, the second MEDIUM. *)
Definition planner_high_then_medium : TaskPlanner.planner :=
  snd (TaskPlanner.create_task "t1" "Second" "d" TaskPlanner.MEDIUM None
         "generic" None None
         (snd (TaskPlanner.create_task "t0" "First" "d" TaskPlanner.HIGH None
                 "generic" None None TaskPlanner.init))).

(** The rank the sort of [get_ready_tasks] gives a priority: the place of
    its value in the order of strings. *)
Definition value_rank (p : TaskPlanner.TaskPriority) : nat :=
  match p with
  | TaskPlanner.CRITICAL => 0
  | TaskPlanner.HIGH => 1
  | TaskPlanner.LOW => 2
  | TaskPlanner.MEDIUM => 3
  end.

(** ** Sequences of calls on a planner *)

(** A call of one of the methods of [TaskPlanner] that change it, with
    its arguments and the timestamps it reads. *)
Inductive planner_call : Type :=
| CallCreate (now title description : string)
    (priority : TaskPlanner.TaskPriority) (dependencies : option (list string))
    (task_type : string) (estimated_time : option Z)
    (metadata : option (list (string * pyval)))
| CallPlan (clock : nat -> string) (requirement : string)
| CallStart (task_id : string)
| CallComplete (now task_id : string) (actual_time : option Z)
| CallFail (task_id reason : string)
| CallClear.

(** The planner after a call. *)
Definition run_call (c : planner_call) (p : TaskPlanner.planner)
  : TaskPlanner.planner :=
  match c with
  | CallCreate now ti de pr deps ty est md =>
      snd (TaskPlanner.create_task now ti de pr deps ty est md p)
  | CallPlan clock requirement =>
      snd (TaskPlanner.plan_from_requirement clock requirement p)
  | CallStart task_id => snd (TaskPlanner.start_task task_id p)
  | CallComplete now task_id actual_time =>
      snd (TaskPlanner.complete_task now task_id actual_time p)
  | CallFail task_id reason => snd (TaskPlanner.fail_task task_id reason p)
  | CallClear => TaskPlanner.clear_completed_tasks p
  end.

(** The planner after a sequence of calls. *)
Definition run_calls (cs : list planner_call) (p : TaskPlanner.planner)
  : TaskPlanner.planner :=
  fold_left (fun q c => run_call c q) cs p.

(** What every planner built by calls satisfies: its identifiers were
    issued by its counter, no identifier is stored twice, every task is
    stored under its own identifier, and no task is BLOCKED. *)
Definition planner_ok (p : TaskPlanner.planner) : Prop :=
  TaskPlanner.planner_wf p
  /\ NoDup (dict_keys (TaskPlanner.tasks p))
  /\ Forall (fun kt => TaskPlanner.id (snd kt) = fst kt
                       /\ TaskPlanner.status (snd kt) <> TaskPlanner.BLOCKED)
            (TaskPlanner.tasks p).

(** The fields of a task that no method assigns after its creation. *)
Definition same_identity (a b : TaskPlanner.Task) : Prop :=
  TaskPlanner.id a = TaskPlanner.id b
  /\ TaskPlanner.title a = TaskPlanner.title b
  /\ TaskPlanner.description a = TaskPlanner.description b
  /\ TaskPlanner.priority a = TaskPlanner.priority b
  /\ TaskPlanner.dependencies a = TaskPlanner.dependencies b
  /\ TaskPlanner.task_type a = TaskPlanner.task_type b
  /\ TaskPlanner.estimated_time a = TaskPlanner.estimated_time b
  /\ TaskPlanner.created_at a = TaskPlanner.created_at b.

(** Two tasks that differ at most in their metadata. *)
Definition same_but_metadata (a b : TaskPlanner.Task) : Prop :=
  same_identity a b
  /\ TaskPlanner.status a = TaskPlanner.status b
  /\ TaskPlanner.actual_time a = TaskPlanner.actual_time b
  /\ TaskPlanner.completed_at a = TaskPlanner.completed_at b.

(** The moves of the status of a task that the methods make. *)
Definition status_step (a b : TaskPlanner.TaskStatus) : Prop :=
  a = b
  \/ (a = TaskPlanner.PENDING /\ b = TaskPlanner.IN_PROGRESS)
  \/ (a = TaskPlanner.IN_PROGRESS /\ b = TaskPlanner.COMPLETED)
  \/ b = TaskPlanner.FAILED.

(** [priority == pr] *)
Definition priority_eqb (a b : TaskPlanner.TaskPriority) : bool :=
  match a, b with
  | TaskPlanner.LOW, TaskPlanner.LOW
  | TaskPlanner.MEDIUM, TaskPlanner.MEDIUM
  | TaskPlanner.HIGH, TaskPlanner.HIGH
  | TaskPlanner.CRITICAL, TaskPlanner.CRITICAL => true
  | _, _ => false
  end.

(** The ready tasks in the order in which the planner stores them, as
    [get_ready_tasks] collects them before it sorts. *)
Definition ready_in_creation_order (p : TaskPlanner.planner)
  : list TaskPlanner.Task :=
  filter (fun t =>
            TaskPlanner.status_eqb (TaskPlanner.status t) TaskPlanner.PENDING
            && TaskPlanner._are_dependencies_completed
                 p (TaskPlanner.dependencies t))
         (dict_values (TaskPlanner.tasks p)).

(** ** Exceptions *)

(** The exceptions that reach the code modelled here, all subclasses of
    [Exception]: the three the interpreter itself raises in it, and
    [Raised x] for an error [x] of an operation under retry or of an
    external capability. *)
Inductive exn (X : Type) : Type :=
| OverflowError
| TypeError
| KeyError (key : string)
| Raised (x : X).

Arguments OverflowError {X}.
Arguments TypeError {X}.
Arguments KeyError {X} key.
Arguments Raised {X} x.

(** ** The retry decorator *)

Module Retry.

(** What the wrapper does besides returning: it awaits the wrapped
    function and it awaits [asyncio.sleep(delay)]. *)
Inductive event : Type :=
| Invoked
| Slept (delay : float).

Section Wrapper.
Context {X St A : Type}.
Variables (max_retries : nat) (base_delay max_delay : float).

(** The wrapped coroutine: it acts on a state and returns ([inr]) or
    raises ([inl]). *)
Variable func : St -> (exn X + A) * St.

(** The [for attempt in range(max_retries)] loop of [wrapper], with
    [remaining] iterations to go, followed by the
    [raise last_exception] after it. *)
Fixpoint attempts (remaining attempt : nat)
    (last_exception : option (exn X)) (s : St)
  : (exn X + A) * St * list event :=
  match remaining with
  | O =>
      (inl (match last_exception with Some e => e | None => TypeError end),
       s, [])
  | S remaining' =>
      match func s with
      | (inr a, s') => (inr a, s', [Invoked])
      | (inl e, s') =>
          if (attempt =? max_retries - 1)%nat then (inl e, s', [Invoked])
          else
            match float_of_pow2 attempt with
            | None => (inl OverflowError, s', [Invoked])
            | Some pow =>
                let delay :=
                  py_min (PrimFloat.mul base_delay pow) max_delay in
                let '(r, s'', evs) :=
                  attempts remaining' (S attempt) (Some e) s' in
                (r, s'', Invoked :: Slept delay :: evs)
            end
      end
  end.

(** [retry_with_backoff(max_retries, base_delay, max_delay)(func)] *)
Definition retry_with_backoff (s : St) : (exn X + A) * St * list event :=
  attempts max_retries 0 None s.
End Wrapper.

(** The number of times the wrapped function was awaited. *)
Fixpoint invocations (evs : list event) : nat :=
  match evs with
  | [] => 0
  | Invoked :: evs' => S (invocations evs')
  | Slept _ :: evs' => invocations evs'
  end.

(** The state after [k] awaits of the wrapped function. *)
Fixpoint state_after {X St A} (func : St -> (exn X + A) * St) (k : nat)
    (s : St) : St :=
  match k with
  | O => s
  | S k' => state_after func k' (snd (func s))
  end.

(** The outcome of attempt [k], counted from 1. *)
Definition attempt_outcome {X St A} (func : St -> (exn X + A) * St)
    (k : nat) (s : St) : exn X + A :=
  fst (func (state_after func (k - 1) s)).

(** The wrapped function raises at each of its first [n] awaits from
    [s]: what exhausts a budget of [n] attempts. *)
Definition fails_through {X St A} (func : St -> (exn X + A) * St)
    (n : nat) (s : St) : Prop :=
  forall k, 1 <= k <= n -> exists e, attempt_outcome func k s = inl e.

(** The wrapped function raises whenever it is awaited. *)
Definition always_fails {X St A} (func : St -> (exn X + A) * St) : Prop :=
  forall s, exists e, fst (func s) = inl e.

(** An operation that always fails: its state counts the awaits, and
    the error of an await carries its number. *)
Definition failing_op (n : nat) : (exn nat + unit) * nat :=
  (inl (Raised n), S n).

(** [min(base_delay * 2^(k-2), max_delay)] *)
Definition backoff_delay (base_delay max_delay : float) (k : nat) : float :=
  py_min (PrimFloat.mul base_delay (Z.ldexp PrimFloat.one (Z.of_nat (k - 2))))
         max_delay.

(** The events of [n] failed attempts: the first, then for each attempt
    [k] from 2 to [n] the sleep that precedes it and the attempt. *)
Definition failing_trace (base_delay max_delay : float) (n : nat)
  : list event :=
  match n with
  | O => []
  | S n' =>
      Invoked ::
      flat_map (fun k => [Slept (backoff_delay base_delay max_delay k);
                          Invoked])
               (seq 2 n')
  end.

(** The delay slept immediately before the [k]-th await of the wrapped
    function (counted from 1), when there is one; [prev] is the sleep
    just seen. *)
Fixpoint delay_before_from (prev : option float) (k : nat)
    (evs : list event) : option float :=
  match evs with
  | [] => None
  | Invoked :: evs' =>
      match k with
      | O => None
      | 1 => prev
      | S k' => delay_before_from None k' evs'
      end
  | Slept d :: evs' => delay_before_from (Some d) k evs'
  end.

Definition delay_before (k : nat) (evs : list event) : option float :=
  delay_before_from None k evs.

End Retry.

(** ** Counting what a retried call did *)

(** The number of sleeps among the events of a call. *)
Fixpoint sleeps (evs : list Retry.event) : nat :=
  match evs with
  | [] => 0
  | Retry.Slept _ :: evs' => S (sleeps evs')
  | Retry.Invoked :: evs' => sleeps evs'
  end.

(** The delays slept, in order. *)
Fixpoint delays (evs : list Retry.event) : list float :=
  match evs with
  | [] => []
  | Retry.Slept d :: evs' => d :: delays evs'
  | Retry.Invoked :: evs' => delays evs'
  end.

(** [x != x], which holds of NaN only. *)
Definition is_nan (x : float) : bool := negb (PrimFloat.eqb x x).

(** An operation that fails twice and then returns the number of the
    await that succeeded. *)
Definition third_time_lucky (n : nat) : (exn nat + nat) * nat :=
  if (n <? 2)%nat then (inl (Raised n), S n) else (inr n, S n).

(** ** The engine: task execution and plan execution *)

Module Engine.
Import TaskPlanner.

(** The handlers [_execute_task] chooses from. *)
Inductive category : Type :=
| Backend | Frontend | Database | Testing | Deployment | Generic.

(** [needle in hay] *)
Fixpoint contains (needle hay : string) : bool :=
  String.prefix needle hay
  || match hay with
     | EmptyString => false
     | String _ hay' => contains needle hay'
     end.

(** The [if]/[elif] chain of [_execute_task] over [task.title.lower()]. *)
Definition classify (title : string) : category :=
  let t := lower title in
  if contains "backend" t then Backend
  else if contains "frontend" t then Frontend
  else if contains "database" t then Database
  else if contains "testing" t then Testing
  else if contains "deployment" t then Deployment
  else Generic.

(** The lines [_execute_development_plan] writes to the log inside its
    loop. *)
Inductive log_event : Type :=
| LogExecuting (title : string)
| LogFailedToStart (task_id : string)
| LogTaskCompleted (title : string)
| LogTaskFailed (title : string)
| LogCriticalStop.

(** The [plan] dictionary built by [_plan_development]. *)
Record plan : Type := mkPlan {
  ai_generated_plan : string;
  plan_tasks : list string;
  plan_requirement : string
}.

(** The result dictionaries of [build_application].  Of the summary
    the model keeps the generated text and the task progress. *)
Inductive build_result : Type :=
| BuildResult (success : bool) (requirement : string) (pl : plan)
    (ai_generated_summary : string) (task_progress : list (string * pyval))
| BuildError (error : string) (requirement : string).

(** How the loop over the tasks of a plan ends: it runs to its end, it
    is left by the [return False] after a critical failure, or an
    exception leaves it. *)
Inductive loop_exit (X : Type) : Type :=
| Finished
| Stopped
| Propagated (e : exn X).

Arguments Finished {X}.
Arguments Stopped {X}.
Arguments Propagated {X} e.

(** The two retry policies of the engine, as decorators of an arbitrary
    coroutine: [@retry_with_backoff(max_retries=3, base_delay=2.0)] and
    [@retry_with_backoff(max_retries=2, base_delay=1.0)], with
    [max_delay] at its default. *)
Definition build_retry {X St A} (func : St -> (exn X + A) * St)
  : St -> (exn X + A) * St * list Retry.event :=
  Retry.retry_with_backoff 3 2%float 60%float func.

Definition task_retry {X St A} (func : St -> (exn X + A) * St)
  : St -> (exn X + A) * St * list Retry.event :=
  Retry.retry_with_backoff 2 1%float 60%float func.

Section Executor.
Context {X W : Type}.

(** The engine outside its planner is a state [W]: the memory
    manager, the files, the progress record and its observers, the
    generation capability.  The six task handlers act on it and
    return a truth value or raise. *)
Variable handler : category -> Task -> W -> (exn X + bool) * W.

(** [_update_progress] stores the event and runs the observers; it
    catches what they raise and returns. *)
Variable _update_progress : string -> Z -> string -> string -> W -> W.

(** [llm_client.generate_response] *)
Variable generate_response : string -> W -> (exn X + string) * W.

(** [memory_manager.add_conversation] *)
Variable add_conversation : string -> string -> W -> W.

(** [str(e)], the clock, and the two prompt templates. *)
Variable str_of_exn : exn X -> string.
Variable timestamp : W -> string.
Variable plan_prompt : string -> string.
Variable summary_prompt : string.

(** The engine: its planner, the rest of its state, its log. *)
Record state : Type := mkState {
  task_planner : planner;
  world : W;
  log : list log_event
}.

Definition add_log (ev : log_event) (st : state) : state :=
  mkState (task_planner st) (world st) (log st ++ [ev]).

(** The body of [_execute_task], under its decorator. *)
Definition _execute_task_body (task : Task) (w : W)
  : (exn X + bool) * W :=
  let w1 :=
    _update_progress (title task) 0 "executing"
                     ("Starting " ++ task_type task ++ " task") w in
  match handler (classify (title task)) task w1 with
  | (inr b, w2) => (inr b, w2)
  | (inl e, w2) =>
      (inr false,
       _update_progress (title task) 0 "failed"
                        ("Task failed: " ++ str_of_exn e) w2)
  end.

(** [_execute_task] as decorated. *)
Definition _execute_task_retried (task : Task) (w : W)
  : (exn X + bool) * W * list Retry.event :=
  task_retry (_execute_task_body task) w.

Definition _execute_task (task : Task) (w : W) : (exn X + bool) * W :=
  fst (_execute_task_retried task w).

(** The [for task_id in tasks] loop of [_execute_development_plan]. *)
Fixpoint run_tasks (task_ids : list string) (st : state)
  : loop_exit X * state :=
  match task_ids with
  | [] => (Finished, st)
  | task_id :: rest =>
      match get_task_by_id task_id (task_planner st) with
      | None => run_tasks rest st
      | Some task =>
          let st1 := add_log (LogExecuting (title task)) st in
          match start_task task_id (task_planner st1) with
          | (false, _) => run_tasks rest (add_log (LogFailedToStart task_id) st1)
          | (true, p1) =>
              (* [task] is the object [start_task] has just updated *)
              let task := set_status IN_PROGRESS task in
              match _execute_task task (world st1) with
              | (inl e, w2) => (Propagated e, mkState p1 w2 (log st1))
              | (inr true, w2) =>
                  let p2 :=
                    snd (complete_task (timestamp w2) task_id None p1) in
                  run_tasks rest
                    (add_log (LogTaskCompleted (title task))
                             (mkState p2 w2 (log st1)))
              | (inr false, w2) =>
                  let p2 :=
                    snd (fail_task task_id "Task execution failed" p1) in
                  let st2 :=
                    add_log (LogTaskFailed (title task))
                            (mkState p2 w2 (log st1)) in
                  match priority task with
                  | HIGH | CRITICAL => (Stopped, add_log LogCriticalStop st2)
                  | _ => run_tasks rest st2
                  end
              end
          end
      end
  end.

(** [_execute_development_plan] *)
Definition _execute_development_plan (pl : plan) (st : state)
  : (exn X + bool) * state :=
  match plan_tasks pl with
  | [] => (inr false, st)
  | tasks =>
      match run_tasks tasks st with
      | (Propagated e, st') => (inl e, st')
      | (Stopped, st') => (inr false, st')
      | (Finished, st') =>
          let progress := get_task_progress (task_planner st') in
          match dict_get "failed" progress with
          | Some (PyInt failed) =>
              if (failed =? 0)%Z then
                match dict_get "completed" progress with
                | Some (PyInt completed) => (inr (0 <? completed)%Z, st')
                | _ => (inl (KeyError "completed"), st')
                end
              else (inr false, st')
          | _ => (inl (KeyError "failed"), st')
          end
      end
  end.

(** [_plan_development] *)
Definition _plan_development (requirement : string) (st : state)
  : (exn X + plan) * state :=
  match generate_response (plan_prompt requirement) (world st) with
  | (inl e, w1) => (inl e, mkState (task_planner st) w1 (log st))
  | (inr plan_response, w1) =>
      let '(task_ids, p1) :=
        plan_from_requirement (fun _ => timestamp w1) requirement
                              (task_planner st) in
      let n := NilEmpty.string_of_uint (Nat.to_uint (List.length task_ids)) in
      let w2 :=
        add_conversation "assistant"
          ("Development plan created with " ++ n ++ " tasks") w1 in
      (inr (mkPlan plan_response task_ids requirement),
       mkState p1 w2 (log st))
  end.

(** The [try] block of [build_application]. *)
Definition build_steps (requirement : string) (st : state)
  : (exn X + build_result) * state :=
  let st0 :=
    mkState (task_planner st)
            (add_conversation "user" requirement (world st)) (log st) in
  match _plan_development requirement st0 with
  | (inl e, st1) => (inl e, st1)
  | (inr pl, st1) =>
      match _execute_development_plan pl st1 with
      | (inl e, st2) => (inl e, st2)
      | (inr success, st2) =>
          match generate_response summary_prompt (world st2) with
          | (inl e, w3) =>
              (inl e, mkState (task_planner st2) w3 (log st2))
          | (inr summary, w3) =>
              (inr (BuildResult success requirement pl summary
                      (get_task_progress (task_planner st2))),
               mkState (task_planner st2) w3 (log st2))
          end
      end
  end.

(** The body of [build_application], under its decorator: what the
    [try] block raises becomes an error result. *)
Definition build_application_body (requirement : string) (st : state)
  : (exn X + build_result) * state :=
  let st0 :=
    mkState (task_planner st)
            (_update_progress "Initialization" 0 "starting"
               "Beginning application build process" (world st))
            (log st) in
  match build_steps requirement st0 with
  | (inr result, st1) => (inr result, st1)
  | (inl e, st1) => (inr (BuildError (str_of_exn e) requirement), st1)
  end.

(** [build_application] as decorated. *)
Definition build_application (requirement : string) (st : state)
  : (exn X + build_result) * state * list Retry.event :=
  build_retry (build_application_body requirement) st.
End Executor.

End Engine.

(** ** An engine to run the executor on *)

(** The handlers of a world that is a counter of handler calls: the
    handler of a task titled ["Testing"] returns false, the others
    return true. *)
Definition counting_handler (c : Engine.category) (t : TaskPlanner.Task)
    (w : nat) : (exn unit + bool) * nat :=
  match c with
  | Engine.Testing => (inr false, S w)
  | _ => (inr true, S w)
  end.

(** A planner with two independent tasks: ["Testing"] at the given
    priority, then ["Documentation"]. *)
Definition planner_testing_first (pr : TaskPlanner.TaskPriority)
  : TaskPlanner.planner :=
  snd (TaskPlanner.create_task "t1" "Documentation" "d" TaskPlanner.LOW None
         "documentation" None None
         (snd (TaskPlanner.create_task "t0" "Testing" "d" pr None
                 "testing" None None TaskPlanner.init))).

Definition engine_testing_first (pr : TaskPlanner.TaskPriority)
  : Engine.state (W := nat) :=
  Engine.mkState (planner_testing_first pr) 0 [].

(** ** Chains of tasks in a planner *)

(** The entries [new] are stored in [p] as a chain after
    [previous_task_id]: PENDING tasks under distinct, non-empty
    identifiers, each depending on the one before it. *)
Definition chain_in (p : TaskPlanner.planner)
    (previous_task_id : option string)
    (new : list (string * TaskPlanner.Task)) : Prop :=
  NoDup (dict_keys new)
  /\ (forall k T, In (k, T) new ->
        dict_get k (TaskPlanner.tasks p) = Some T)
  /\ Forall (fun kt => TaskPlanner.status (snd kt) = TaskPlanner.PENDING
                       /\ fst kt <> "") new
  /\ map (fun kt => TaskPlanner.dependencies (snd kt)) new
     = TaskPlanner.chain_from previous_task_id (dict_keys new).

(** The titles of the phases of a plan, in order. *)
Definition phase_titles : list string :=
  map (fun x => fst (fst x)) TaskPlanner.phases.

(** The log of tasks that ran to completion, and of tasks that could not
    be started. *)
Definition log_completed (new : list (string * TaskPlanner.Task))
  : list Engine.log_event :=
  flat_map (fun kt => [Engine.LogExecuting (TaskPlanner.title (snd kt));
                       Engine.LogTaskCompleted (TaskPlanner.title (snd kt))])
           new.

Definition log_not_started (new : list (string * TaskPlanner.Task))
  : list Engine.log_event :=
  flat_map (fun kt => [Engine.LogExecuting (TaskPlanner.title (snd kt));
                       Engine.LogFailedToStart (fst kt)])
           new.

(** Handlers over a world that counts their calls: the handler of a task
    with the given title returns false, the others return true. *)
Definition handler_failing_at (bad : string) (c : Engine.category)
    (t : TaskPlanner.Task) (w : nat) : (exn unit + bool) * nat :=
  (inr (negb (String.eqb (TaskPlanner.title t) bad)), S w).

(** The task a chain continues from, when there is one, is COMPLETED,
    has a non-empty identifier and is not itself in the chain. *)
Definition previous_completed (p : TaskPlanner.planner)
    (previous_task_id : option string)
    (new : list (string * TaskPlanner.Task)) : Prop :=
  match previous_task_id with
  | None => True
  | Some k0 =>
      k0 <> "" /\ ~ In k0 (dict_keys new)
      /\ exists T0, dict_get k0 (TaskPlanner.tasks p) = Some T0
                    /\ TaskPlanner.status T0 = TaskPlanner.COMPLETED
  end.

(** The identifier a chain ends with, after [previous_task_id]. *)
Definition last_key (previous_task_id : option string)
    (new : list (string * TaskPlanner.Task)) : option string :=
  fold_left (fun _ kt => Some (fst kt)) new previous_task_id.

(** ** An engine whose work always fails *)







(** ** The memory manager: the snapshot and its file *)

Module Memory.



(** [str(z)] *)
Definition str_of_int (z : Z) : string := NilZero.string_of_int (Z.to_int z).

(** [s[-n:]] *)
Definition last_chars (n : nat) (s : string) : string :=
  substring (String.length s - n) n s.

(** [d[k] = v] for a string [k] in a dictionary of Python values: only
    a string key can be equal to [k]. *)
Fixpoint pydict_set (k : string) (v : pyval) (d : list (pyval * pyval))
  : list (pyval * pyval) :=
  match d with
  | [] => [(PyStr k, v)]
  | (PyStr k', v') :: d' =>
      if String.eqb k k' then (PyStr k', v) :: d'
      else (PyStr k', v') :: pydict_set k v d'
  | kv :: d' => kv :: pydict_set k v d'
  end.

(** [d.get(k, default)] for a string [k]. *)
Fixpoint pydict_get (k : string) (default : pyval) (d : list (pyval * pyval))
  : pyval :=
  match d with
  | [] => default
  | (PyStr k', v) :: d' =>
      if String.eqb k k' then v else pydict_get k default d'
  | _ :: d' => pydict_get k default d'
  end.

Section Codec.
(** [repr] of a float, which [json] uses for a float key. *)
Variable float_repr : float -> string.

(** [sys.get_int_max_str_digits()]: the longest decimal text an
    integer is converted to, 4300 digits unless configured; [0] stands
    for no limit, as in Python (and for the versions without one). *)
Variable max_str_digits : nat.



End Codec.


(** The four persisted attributes of the manager.  They are Python
    values: [_load_memory] stores what the file holds. *)
Record store : Type := mkStore {
  conversation_history : pyval;
  code_context : pyval;
  project_state : pyval;
  learning_memory : pyval
}.

(** The attributes as [__init__] sets them. *)
Definition empty : store :=
  mkStore (PyList []) (PyDict []) (PyDict []) (PyDict []).


Section Manager.
Variable float_repr : float -> string.

(** The two limits of the encoder: see [int_converts] and [to_json]. *)
Variable max_str_digits : nat.
Variable max_depth : nat.

(** The builtin [hash] on strings, which varies from one process to
    the next. *)
Variable py_hash : string -> Z.

(** [_calculate_checksum] *)
Definition _calculate_checksum (content : string) : string :=
  last_chars 8 (str_of_int (py_hash content)).

(** [add_conversation]; [now] is [datetime.now().isoformat()].
    [None] when the attribute is not a list and [append] raises. *)
Definition add_conversation (now role content : string)
    (metadata : option (list (pyval * pyval))) (st : store)
  : option store :=
  let entry :=
    PyDict [ (PyStr "timestamp", PyStr now);
             (PyStr "role", PyStr role);
             (PyStr "content", PyStr content);
             (PyStr "metadata",
              PyDict (match metadata with
                      | Some (kv :: m) => kv :: m
                      | _ => []
                      end)) ] in
  match conversation_history st with
  | PyList l =>
      Some (mkStore (PyList (l ++ [entry])) (code_context st)
                    (project_state st) (learning_memory st))
  | _ => None
  end.

(** [add_code_context]; [None] when the attribute is not a
    dictionary and the item assignment raises. *)
Definition add_code_context (now file_path content language : string)
    (st : store) : option store :=
  let record :=
    PyDict [ (PyStr "content", PyStr content);
             (PyStr "language", PyStr language);
             (PyStr "last_updated", PyStr now);
             (PyStr "checksum", PyStr (_calculate_checksum content)) ] in
  match code_context st with
  | PyDict d =>
      Some (mkStore (conversation_history st)
                    (PyDict (pydict_set file_path record d))
                    (project_state st) (learning_memory st))
  | _ => None
  end.

(** [update_project_state] *)
Definition update_project_state (now key : string) (value : pyval)
    (st : store) : option store :=
  let record :=
    PyDict [ (PyStr "value", value); (PyStr "last_updated", PyStr now) ] in
  match project_state st with
  | PyDict d =>
      Some (mkStore (conversation_history st) (code_context st)
                    (PyDict (pydict_set key record d))
                    (learning_memory st))
  | _ => None
  end.



End Manager.




End Memory.

(** ** Stores to save and load *)






(** An embedding of string-keyed pairs as the pairs of a dictionary. *)
Definition str_keyed (kv : string * pyval) : pyval * pyval :=
  (PyStr (fst kv), snd kv).

(** ** Sequences of calls on the memory manager *)

(** A call of one of the methods that fill the persisted attributes,
    with the timestamp it reads. *)
Inductive store_call : Type :=
| CallAddConversation (now role content : string)
    (metadata : option (list (pyval * pyval)))
| CallAddCodeContext (now file_path content language : string)
| CallUpdateProjectState (now key : string) (value : pyval).

(** The store after a call; [None] when the call raises. *)
Definition run_store_call (py_hash : string -> Z) (c : store_call)
    (st : Memory.store) : option Memory.store :=
  match c with
  | CallAddConversation now role content metadata =>
      Memory.add_conversation now role content metadata st
  | CallAddCodeContext now file_path content language =>
      Memory.add_code_context py_hash now file_path content language st
  | CallUpdateProjectState now key value =>
      Memory.update_project_state now key value st
  end.

(** The store after a sequence of calls. *)
Fixpoint run_store_calls (py_hash : string -> Z) (cs : list store_call)
    (st : Memory.store) : option Memory.store :=
  match cs with
  | [] => Some st
  | c :: cs' =>
      match run_store_call py_hash c st with
      | Some st' => run_store_calls py_hash cs' st'
      | None => None
      end
  end.



(** ** The memory manager: dependencies between files *)

Module CodeDependencies.

(** A set of paths, as a list without repetition whose order is
    immaterial. *)
Definition path_set : Type := list string.

(** [x in s] *)
Definition set_mem (x : string) (s : path_set) : bool :=
  existsb (String.eqb x) s.

(** [s.add(x)] *)
Definition set_add (x : string) (s : path_set) : path_set :=
  if set_mem x s then s else s ++ [x].

(** [s.update(xs)] *)
Definition set_update (xs : list string) (s : path_set) : path_set :=
  fold_left (fun acc x => set_add x acc) xs s.

(** [self.code_dependencies], a [defaultdict(set)]. *)
Definition deps_map : Type := list (string * path_set).

(** [defaultdict(set)] *)
Definition empty : deps_map := [].

(** [track_code_dependency]: the item access creates the entry of a
    path that has none, with the empty set. *)
Definition track_code_dependency (file_path : string)
    (dependencies : list string) (m : deps_map) : deps_map :=
  let current :=
    match dict_get file_path m with Some s => s | None => [] end in
  dict_set file_path (set_update dependencies current) m.

(** [get_related_files]; [get] creates no entry. *)
Definition get_related_files (file_path : string) (m : deps_map) : path_set :=
  let related :=
    set_update (match dict_get file_path m with Some s => s | None => [] end)
               [] in
  fold_left (fun rel entry =>
               if set_mem file_path (snd entry) then set_add (fst entry) rel
               else rel)
            m related.

(** The map after a sequence of calls of [track_code_dependency]. *)
Definition track_all (calls : list (string * list string)) (m : deps_map)
  : deps_map :=
  fold_left (fun acc c => track_code_dependency (fst c) (snd c) acc) calls m.

End CodeDependencies.

(** ** The memory manager: performance records *)

Module Performance.

(** The dictionary kept for an operation in [self.performance_metrics]. *)
Record metrics : Type := mkMetrics {
  total_calls : nat;
  total_duration : float;
  success_count : nat;
  failure_count : nat;
  avg_duration : float;
  success_rate : float
}.

(** The detailed record appended to [self.success_patterns] or
    [self.error_patterns]. *)
Record pattern : Type := mkPattern {
  timestamp : string;
  operation : string;
  duration : float;
  success : bool;
  metadata : list (pyval * pyval)
}.

(** The three attributes [record_performance_metric] writes. *)
Record perf : Type := mkPerf {
  performance_metrics : list (string * metrics);
  error_patterns : list pattern;
  success_patterns : list pattern
}.

(** The attributes as [__init__] sets them. *)
Definition empty : perf := mkPerf [] [] [].

(** The entry created for an operation seen for the first time. *)
Definition fresh_metrics : metrics :=
  mkMetrics 0 PrimFloat.zero 0 0 PrimFloat.zero PrimFloat.zero.

(** [record_performance_metric]; [now] is [datetime.now().isoformat()].
    The quotients are those of Python: a float by an integer, and two
    integers by true division (exact below [2^53]). *)
Definition record_performance_metric (now op : string) (dur : float)
    (ok : bool) (md : option (list (pyval * pyval))) (st : perf) : perf :=
  let m := match dict_get op (performance_metrics st) with
           | Some m => m
           | None => fresh_metrics
           end in
  let calls := S (total_calls m) in
  let total := PrimFloat.add (total_duration m) dur in
  let successes := if ok then S (success_count m) else success_count m in
  let failures := if ok then failure_count m else S (failure_count m) in
  let m' :=
    mkMetrics calls total successes failures
              (PrimFloat.div total (float_of_int (Z.of_nat calls)))
              (PrimFloat.div (float_of_int (Z.of_nat successes))
                             (float_of_int (Z.of_nat calls))) in
  let record :=
    mkPattern now op dur ok
              (match md with Some (kv :: m0) => kv :: m0 | _ => [] end) in
  mkPerf (dict_set op m' (performance_metrics st))
         (if ok then error_patterns st else error_patterns st ++ [record])
         (if ok then success_patterns st ++ [record] else success_patterns st).

(** [l[-10:]] *)
Definition last_ten {A : Type} (l : list A) : list A :=
  skipn (List.length l - 10) l.

(** The two shapes of the result of [get_performance_insights]: the
    entry of an operation, [None] standing for the empty dictionary
    returned when there is none, or the overall report. *)
Inductive insights : Type :=
| ForOperation (m : option metrics)
| Overall (overall_metrics : list (string * metrics)) (total_operations : nat)
    (recent_errors recent_successes : list pattern).

(** [get_performance_insights]: [if operation] is false for [None] and
    for the empty string. *)
Definition get_performance_insights (op : option string) (st : perf)
  : insights :=
  match op with
  | Some (String c s) =>
      ForOperation (dict_get (String c s) (performance_metrics st))
  | _ =>
      Overall (performance_metrics st)
              (List.length (performance_metrics st))
              (last_ten (error_patterns st))
              (last_ten (success_patterns st))
  end.

(** A call of [record_performance_metric] with its arguments. *)
Record call : Type := mkCall {
  call_now : string;
  call_operation : string;
  call_duration : float;
  call_success : bool;
  call_metadata : option (list (pyval * pyval))
}.

(** The attributes after a sequence of calls. *)
Definition record_all (cs : list call) (st : perf) : perf :=
  fold_left (fun acc c =>
               record_performance_metric (call_now c) (call_operation c)
                 (call_duration c) (call_success c) (call_metadata c) acc)
            cs st.

(** The number of records of an operation in a list of patterns. *)
Definition count_for (op : string) (l : list pattern) : nat :=
  List.length (filter (fun r => String.eqb (operation r) op) l).

(** What holds of the attributes after any calls. *)
Definition perf_ok (n : nat) (st : perf) : Prop :=
  NoDup (dict_keys (performance_metrics st))
  /\ List.length (error_patterns st) + List.length (success_patterns st) = n
  /\ Forall (fun r => success r = false) (error_patterns st)
  /\ Forall (fun r => success r = true) (success_patterns st)
  /\ (forall op,
        match dict_get op (performance_metrics st) with
        | Some m =>
            1 <= total_calls m
            /\ total_calls m = success_count m + failure_count m
            /\ success_count m = count_for op (success_patterns st)
            /\ failure_count m = count_for op (error_patterns st)
        | None =>
            count_for op (success_patterns st) = 0
            /\ count_for op (error_patterns st) = 0
        end).

End Performance.

(** ** The memory manager: the semantic index *)

Module Semantic.

(** What a list of [self.semantic_index] holds: the dictionary that
    [add_semantic_context] appends under the key, or the key itself,
    appended under ["tag:" + tag] for each tag. *)
Inductive item : Type :=
| Entry (content hash timestamp : string) (tags : list string)
| KeyRef (key : string).

(** [self.semantic_index], a [defaultdict(list)]. *)
Definition index : Type := list (string * list item).

(** The attribute as [__init__] sets it. *)
Definition empty : index := [].

(** [self.semantic_index[k].append(x)]: a missing key is created with
    the empty list first. *)
Definition append (k : string) (x : item) (ix : index) : index :=
  match dict_get k ix with
  | Some l => dict_set k (l ++ [x]) ix
  | None => dict_set k [x] ix
  end.

(** An element of the list [get_semantic_context] returns. *)
Record scored : Type := mkScored {
  key : string;
  content : string;
  score : nat;
  timestamp : string;
  tags : list string
}.

(** [l.sort(key=lambda x: x["score"], reverse=True)]: stable, also
    with [reverse=True]. *)
Fixpoint insert_by_score (x : scored) (l : list scored) : list scored :=
  match l with
  | [] => [x]
  | y :: l' =>
      if (score x <? score y)%nat then y :: insert_by_score x l'
      else x :: y :: l'
  end.

Definition sort_by_score (l : list scored) : list scored :=
  fold_right insert_by_score [] l.

(** [l[:limit]]: a negative [limit] leaves out the last [- limit]
    elements. *)
Definition slice_to {A : Type} (limit : Z) (l : list A) : list A :=
  if (0 <=? limit)%Z then firstn (Z.to_nat limit) l
  else firstn (List.length l - Z.to_nat (- limit)) l.

Section Index.
(** [hashlib.md5(s.encode()).hexdigest()], [str.lower] and
    [str.split], the library functions the two methods call. *)
Variable md5_hex : string -> string.
Variable py_lower : string -> string.
Variable py_split : string -> list string.

(** [add_semantic_context]; [now] is [datetime.now().isoformat()]. *)
Definition add_semantic_context (now k context : string)
    (tgs : option (list string)) (ix : index) : index :=
  let tgs' := match tgs with Some l => l | None => [] end in
  fold_left (fun acc tag => append ("tag:" ++ tag) (KeyRef k) acc) tgs'
            (append k (Entry context (md5_hex context) now tgs') ix).

(** [len(query_words.intersection(content_words))] for the two sets
    of words. *)
Definition common_words (query_words content_words : list string) : nat :=
  List.length
    (nodup string_dec
       (filter (fun w => existsb (String.eqb w) content_words) query_words)).

(** The body of the inner loop of [get_semantic_context] for one
    element of the list of [k]. *)
Definition score_item (query_words : list string) (k : string) (x : item)
  : list scored :=
  match x with
  | Entry c _ ts tgs =>
      let sc := common_words query_words (py_split (py_lower c)) in
      if (0 <? sc)%nat then [mkScored k c sc ts tgs] else []
  | KeyRef _ => []
  end.

(** [get_semantic_context] *)
Definition get_semantic_context (query : string) (limit : Z) (ix : index)
  : list scored :=
  let query_words := py_split (py_lower query) in
  let scored_contexts :=
    flat_map (fun kv =>
                if String.prefix "tag:" (fst kv) then []
                else flat_map (score_item query_words (fst kv)) (snd kv))
             ix in
  slice_to limit (sort_by_score scored_contexts).

(** A call of [add_semantic_context] with its arguments. *)
Record call : Type := mkCall {
  call_now : string;
  call_key : string;
  call_context : string;
  call_tags : option (list string)
}.

(** The index after a sequence of calls. *)
Definition add_all (cs : list call) (ix : index) : index :=
  fold_left (fun acc c =>
               add_semantic_context (call_now c) (call_key c)
                 (call_context c) (call_tags c) acc)
            cs ix.
End Index.

(** The entry a call appends under its key. *)
Definition made_by (md5_hex : string -> string) (c : call) : item :=
  Entry (call_context c) (md5_hex (call_context c)) (call_now c)
        (match call_tags c with Some l => l | None => [] end).

(** The number of entries, under all keys. *)
Definition entries (ix : index) : nat :=
  List.length
    (flat_map (fun kv => filter (fun x => match x with
                                          | Entry _ _ _ _ => true
                                          | KeyRef _ => false
                                          end) (snd kv)) ix).

(** A word-splitting function for examples: the text as one word. *)
Definition one_word (s : string) : list string :=
  match s with EmptyString => [] | _ => [s] end.

(** [self.semantic_index[k]] read without creating the key. *)
Definition items_of (k : string) (ix : index) : list item :=
  match dict_get k ix with Some l => l | None => [] end.

(** The index holds the entries of the calls [cs], each under its key,
    and no other entry. *)
Definition index_ok (md5_hex : string -> string) (cs : list call)
    (ix : index) : Prop :=
  (forall k items e, In (k, items) ix -> In e items ->
     (exists r, e = KeyRef r)
     \/ exists c, In c cs /\ k = call_key c /\ e = made_by md5_hex c)
  /\ (forall c, In c cs -> In (made_by md5_hex c) (items_of (call_key c) ix))
  /\ entries ix = List.length cs.

End Semantic.

(** ** The memory manager: the context of a query *)

Module Context.

(** The line feed. *)
Definition nl : string := String (ascii_of_nat 10) EmptyString.

(** [l[-n:]]: the last [n] elements for a positive [n], the whole
    list for [0], and [l] without its first [- n] elements for a
    negative [n]. *)
Definition slice_last {A : Type} (n : Z) (l : list A) : list A :=
  if (0 <? n)%Z then skipn (List.length l - Z.to_nat n) l
  else skipn (Z.to_nat (- n)) l.

(** The string [v[k]] of a dictionary [v]; [None] where the subscript
    raises or the value is not a string. *)
Definition str_field (k : string) (v : pyval) : option string :=
  match v with
  | PyDict d =>
      match Memory.pydict_get k PyNone d with
      | PyStr s => Some s
      | _ => None
      end
  | _ => None
  end.

(** A loop that appends what [f] gives for each element and stops at
    the first element for which [f] raises. *)
Fixpoint collect {A B : Type} (f : A -> option (list B)) (l : list A)
  : option (list B) :=
  match l with
  | [] => Some []
  | x :: l' =>
      match f x with
      | None => None
      | Some ys =>
          match collect f l' with
          | None => None
          | Some zs => Some (ys ++ zs)
          end
      end
  end.

Section Relevance.
(** [str.lower] and [str.split]. *)
Variable py_lower : string -> string.
Variable py_split : string -> list string.

(** The body of the loop over [self.code_context.items()].  With no
    keyword, [any] does not read the record. *)
Definition file_block (keywords : list string) (kv : pyval * pyval)
  : option (list string) :=
  match keywords with
  | [] => Some []
  | _ :: _ =>
      match str_field "content" (snd kv) with
      | None => None
      | Some content =>
          if existsb (fun keyword =>
                        Engine.contains keyword (py_lower content)) keywords
          then match fst kv with
               | PyStr file_path =>
                   Some [("File: " ++ file_path ++ nl ++ content)%string]
               | _ => None
               end
          else Some []
      end
  end.

(** [f"{entry['role']}: {entry['content']}"] *)
Definition conversation_line (entry : pyval) : option (list string) :=
  match str_field "role" entry, str_field "content" entry with
  | Some role, Some content => Some [(role ++ ": " ++ content)%string]
  | _, _ => None
  end.

(** The text [get_relevant_context] returns for the blocks of the
    files and the conversation entries its slice selects. *)
Definition context_text (relevant_contexts : list string)
    (recent_conversations : list pyval) : option string :=
  match recent_conversations with
  | [] => Some (String.concat (nl ++ nl)%string relevant_contexts)
  | e :: es =>
      match collect conversation_line (e :: es) with
      | None => None
      | Some lines =>
          Some (String.concat (nl ++ nl)%string
                  (relevant_contexts
                   ++ [("Recent conversations:" ++ nl
                        ++ String.concat nl lines)%string]))
      end
  end.

(** [get_relevant_context].  [None] where Python raises ([KeyError],
    [TypeError], [AttributeError]) or would format a path, a role or a
    content that is not a string, which no method of the class
    stores.  The history is a list; a tuple is sliced and read in the
    same way, and so is a string, whose characters, if the slice
    leaves any, then fail as entries. *)
Definition get_relevant_context (query : string) (max_entries : Z)
    (st : Memory.store) : option string :=
  match Memory.code_context st with
  | PyDict d =>
      match collect (file_block (py_split (py_lower query))) d with
      | None => None
      | Some relevant_contexts =>
          match Memory.conversation_history st with
          | PyList l | PyTuple l =>
              context_text relevant_contexts (slice_last max_entries l)
          | PyStr s =>
              context_text relevant_contexts
                (map (fun c => PyStr (String c EmptyString))
                     (slice_last max_entries (list_ascii_of_string s)))
          | _ => None
          end
      end
  | _ => None
  end.
End Relevance.

(** What a sequence of calls has said and stored: the role and content
    of each conversation entry, and the content last written for each
    path, the paths in the order of their first writing. *)
Record view : Type := mkView {
  convs : list (string * string);
  files : list (string * string)
}.

Definition view_step (v : view) (c : store_call) : view :=
  match c with
  | CallAddConversation _ role content _ =>
      mkView (convs v ++ [(role, content)]) (files v)
  | CallAddCodeContext _ file_path content _ =>
      mkView (convs v) (dict_set file_path content (files v))
  | CallUpdateProjectState _ _ _ => v
  end.

Definition view_of (cs : list store_call) : view :=
  fold_left view_step cs (mkView [] []).

(** The store holds what the view says. *)
Definition holds (st : Memory.store) (v : view) : Prop :=
  (exists l, Memory.conversation_history st = PyList l
             /\ Forall2 (fun e rc => str_field "role" e = Some (fst rc)
                                     /\ str_field "content" e = Some (snd rc))
                        l (convs v))
  /\ (exists d, Memory.code_context st = PyDict d
                /\ Forall2 (fun kv pc =>
                              fst kv = PyStr (fst pc)
                              /\ str_field "content" (snd kv) = Some (snd pc))
                           d (files v))
  /\ (exists d, Memory.project_state st = PyDict d).

End Context.

(** ** The memory manager: learnings and the project summary *)

Module Summary.

(** [d[k]] for a string [k] in a dictionary of Python values, [None]
    when the key is missing. *)
Fixpoint pydict_find (k : string) (d : list (pyval * pyval)) : option pyval :=
  match d with
  | [] => None
  | (PyStr k', v) :: d' => if String.eqb k k' then Some v else pydict_find k d'
  | _ :: d' => pydict_find k d'
  end.

(** [add_learning]; [now] is [datetime.now().isoformat()].  [None]
    when the attribute is not a dictionary, or holds something else
    than a list under the scenario, and the call raises. *)
Definition add_learning (now scenario solution : string) (success : bool)
    (st : Memory.store) : option Memory.store :=
  let record :=
    PyDict [ (PyStr "solution", PyStr solution);
             (PyStr "success", PyBool success);
             (PyStr "timestamp", PyStr now) ] in
  match Memory.learning_memory st with
  | PyDict d =>
      match match pydict_find scenario d with
            | None => Some []
            | Some (PyList l) => Some l
            | Some _ => None
            end with
      | Some l =>
          Some (Memory.mkStore
                  (Memory.conversation_history st) (Memory.code_context st)
                  (Memory.project_state st)
                  (PyDict (Memory.pydict_set scenario (PyList (l ++ [record]))
                                             d)))
      | None => None
      end
  | _ => None
  end.

(** The builtin [len]; [None] where it raises [TypeError]. *)
Definition py_len (v : pyval) : option nat :=
  match v with
  | PyList l | PyTuple l => Some (List.length l)
  | PyDict d => Some (List.length d)
  | PyStr s => Some (String.length s)
  | _ => None
  end.

(** The dictionary [get_project_summary] returns. *)
Record summary : Type := mkSummary {
  project_name : string;
  total_conversations : nat;
  code_files : list pyval;
  project_state : pyval;
  learning_experiences : nat;
  last_updated : string
}.

(** [get_project_summary]; [None] where [len] or [keys] raises. *)
Definition get_project_summary (now name : string) (st : Memory.store)
  : option summary :=
  match py_len (Memory.conversation_history st),
        Memory.code_context st,
        py_len (Memory.learning_memory st) with
  | Some conversations, PyDict d, Some learnings =>
      Some (mkSummary name conversations (map fst d)
                      (Memory.project_state st) learnings now)
  | _, _, _ => None
  end.

(** A call of one of the methods that fill the persisted attributes. *)
Inductive memory_call : Type :=
| Stored (c : store_call)
| CallAddLearning (now scenario solution : string) (success : bool).

Definition run_memory_call (py_hash : string -> Z) (c : memory_call)
    (st : Memory.store) : option Memory.store :=
  match c with
  | Stored c' => run_store_call py_hash c' st
  | CallAddLearning now scenario solution success =>
      add_learning now scenario solution success st
  end.

Fixpoint run_memory_calls (py_hash : string -> Z) (cs : list memory_call)
    (st : Memory.store) : option Memory.store :=
  match cs with
  | [] => Some st
  | c :: cs' =>
      match run_memory_call py_hash c st with
      | Some st' => run_memory_calls py_hash cs' st'
      | None => None
      end
  end.

(** The paths given to [add_code_context], the scenarios given to
    [add_learning] and the number of [add_conversation] calls, in a
    sequence of calls. *)
Definition paths_written (cs : list memory_call) : list string :=
  flat_map (fun c => match c with
                     | Stored (CallAddCodeContext _ file_path _ _) =>
                         [file_path]
                     | _ => []
                     end) cs.

Definition scenarios_learned (cs : list memory_call) : list string :=
  flat_map (fun c => match c with
                     | CallAddLearning _ scenario _ _ => [scenario]
                     | _ => []
                     end) cs.

Definition conversations_added (cs : list memory_call) : nat :=
  List.length
    (filter (fun c => match c with
                      | Stored (CallAddConversation _ _ _ _) => true
                      | _ => false
                      end) cs).

(** The distinct elements of a list, each at its first occurrence. *)
Definition seen_add (acc : list string) (x : string) : list string :=
  if existsb (String.eqb x) acc then acc else acc ++ [x].

Definition first_seen (l : list string) : list string :=
  fold_left seen_add l [].

(** The store after calls with the given paths, scenarios and number
    of conversations. *)
Definition holds (st : Memory.store) (n : nat) (paths scenarios : list string)
  : Prop :=
  (exists l, Memory.conversation_history st = PyList l /\ List.length l = n)
  /\ (exists d, Memory.code_context st = PyDict d
                /\ map fst d = map PyStr paths)
  /\ (exists d, Memory.project_state st = PyDict d)
  /\ (exists d, Memory.learning_memory st = PyDict d
                /\ map fst d = map PyStr scenarios
                /\ Forall (fun kv => exists l, snd kv = PyList l) d).

End Summary.
(** ** Facts about dictionaries *)

Section DictFacts.
Context {V : Type}.
Implicit Types (d : list (string * V)) (k : string) (v : V).

Lemma dict_get_set_same k v d : dict_get k (dict_set k v d) = Some v.
Proof.
  induction d as [|[k' v'] d IH]; simpl.
  - now rewrite String.eqb_refl.
  - destruct (String.eqb k k') eqn:E; simpl; rewrite E; auto.
Qed.

Lemma dict_get_set_other k k' v d :
  k' <> k -> dict_get k' (dict_set k v d) = dict_get k' d.
Proof.
  intros Hne. induction d as [|[k0 v0] d IH]; simpl.
  - apply String.eqb_neq in Hne. now rewrite Hne.
  - destruct (String.eqb k k0) eqn:E; simpl.
    + apply String.eqb_eq in E. subst k0.
      apply String.eqb_neq in Hne. now rewrite Hne.
    + destruct (String.eqb k' k0); auto.
Qed.

Lemma dict_get_In k v d : dict_get k d = Some v -> In (k, v) d.
Proof.
  induction d as [|[k' v'] d IH]; simpl; [discriminate|].
  destruct (String.eqb k k') eqn:E.
  - apply String.eqb_eq in E. intros [= ->]. subst. now left.
  - intros H. right. auto.
Qed.

Lemma dict_get_None k d : dict_get k d = None <-> ~ In k (dict_keys d).
Proof.
  induction d as [|[k' v'] d IH]; simpl.
  - tauto.
  - destruct (String.eqb k k') eqn:E.
    + apply String.eqb_eq in E. subst. split; [discriminate|]. tauto.
    + apply String.eqb_neq in E. rewrite IH. split.
      * intros H [H'|H']; [congruence | tauto].
      * tauto.
Qed.

(** Writing under a key already present keeps the order of the keys. *)
Lemma dict_keys_set_present k v d :
  dict_mem k d = true -> dict_keys (dict_set k v d) = dict_keys d.
Proof.
  unfold dict_mem. induction d as [|[k' v'] d IH]; simpl; [discriminate|].
  destruct (String.eqb k k') eqn:E; simpl; [reflexivity|].
  intros H. f_equal. auto.
Qed.

(** Writing under a new key appends the entry. *)
Lemma dict_set_fresh k v d :
  dict_get k d = None -> dict_set k v d = d ++ [(k, v)].
Proof.
  induction d as [|[k' v'] d IH]; simpl; [reflexivity|].
  destruct (String.eqb k k'); [discriminate|].
  intros H. f_equal. auto.
Qed.

Lemma dict_get_app_fresh k d d' :
  dict_get k d = None -> dict_get k (d ++ d') = dict_get k d'.
Proof.
  induction d as [|[k' v'] d IH]; simpl; [reflexivity|].
  destruct (String.eqb k k'); [discriminate | auto].
Qed.

Lemma dict_get_app_found k v d d' :
  dict_get k d = Some v -> dict_get k (d ++ d') = Some v.
Proof.
  induction d as [|[k' v'] d IH]; simpl; [discriminate|].
  destruct (String.eqb k k'); auto.
Qed.
End DictFacts.

(** ** Facts about task identifiers *)

Lemma uint_of_string_zeros n s :
  NilEmpty.uint_of_string (zeros n ++ s)
  = option_map (Nat.iter n D0) (NilEmpty.uint_of_string s).
Proof.
  induction n as [|n IH]; simpl.
  - now destruct (NilEmpty.uint_of_string s).
  - rewrite IH. now destruct (NilEmpty.uint_of_string s).
Qed.

Lemma of_uint_zeros n d : Nat.of_uint (Nat.iter n D0 d) = Nat.of_uint d.
Proof.
  induction n as [|n IH]; simpl; [reflexivity|]. exact IH.
Qed.

(** Reading a formatted counter back gives the counter. *)
Lemma format_04d_read n :
  option_map Nat.of_uint (NilEmpty.uint_of_string (format_04d n)) = Some n.
Proof.
  unfold format_04d. rewrite uint_of_string_zeros, NilEmpty.usu. simpl.
  now rewrite of_uint_zeros, DecimalNat.Unsigned.of_to.
Qed.

Lemma format_04d_inj n m : format_04d n = format_04d m -> n = m.
Proof.
  intros H. pose proof (format_04d_read n) as Hn.
  rewrite H, format_04d_read in Hn. congruence.
Qed.

Lemma task_id_of_inj n m :
  TaskPlanner.task_id_of n = TaskPlanner.task_id_of m -> n = m.
Proof.
  unfold TaskPlanner.task_id_of. simpl. intros [= H].
  now apply format_04d_inj.
Qed.

(** ** The status state machine of the planner *)

Section PlannerFacts.
Import TaskPlanner.

Lemma status_eqb_eq a b : status_eqb a b = true <-> a = b.
Proof. destruct a, b; simpl; split; congruence. Qed.

Lemma status_eqb_refl a : status_eqb a a = true.
Proof. now destruct a. Qed.

(** What [_are_dependencies_completed] decides. *)
Lemma dependencies_completed_iff p deps :
  _are_dependencies_completed p deps = true <->
  forall dep, In dep deps ->
    exists D, dict_get dep (tasks p) = Some D /\ status D = COMPLETED.
Proof.
  induction deps as [|d deps IH]; simpl.
  - split; [intros _ dep []| reflexivity].
  - destruct (dict_get d (tasks p)) as [D|] eqn:HD.
    + destruct (status_eqb (status D) COMPLETED) eqn:HS.
      * apply status_eqb_eq in HS. rewrite IH. split.
        -- intros H dep [<-|Hin]; eauto.
        -- intros H dep Hin. apply H. now right.
      * split; [discriminate|]. intros H.
        destruct (H d (or_introl eq_refl)) as (D' & HD' & HS').
        rewrite HD in HD'. injection HD' as <-.
        apply status_eqb_eq in HS'. congruence.
    + split; [discriminate|]. intros H.
      destruct (H d (or_introl eq_refl)) as (D' & HD' & _). congruence.
Qed.

Lemma dict_mem_of_get {V} k (d : list (string * V)) v :
  dict_get k d = Some v -> dict_mem k d = true.
Proof. unfold dict_mem. now intros ->. Qed.
End PlannerFacts.

Import TaskPlanner.

(** C1.  For a task [T] of the planner, [start_task] returns true exactly
    when [T] is PENDING and every identifier in its dependency list is
    that of an existing COMPLETED task.  When it returns false the
    planner is unchanged.  When it returns true [T] is IN_PROGRESS
    afterwards, nothing else of [T] has changed, and every other task is
    as before. *)
Theorem start_task_spec (p : planner) (task_id : string) (T : Task) :
  dict_get task_id (tasks p) = Some T ->
  let r := start_task task_id p in
  (fst r = true <->
     status T = PENDING /\
     forall dep, In dep (dependencies T) ->
       exists D, dict_get dep (tasks p) = Some D /\ status D = COMPLETED)
  /\ (fst r = false -> snd r = p)
  /\ (fst r = true ->
        dict_get task_id (tasks (snd r)) = Some (set_status IN_PROGRESS T)
        /\ status (set_status IN_PROGRESS T) = IN_PROGRESS
        /\ (forall k, k <> task_id ->
              dict_get k (tasks (snd r)) = dict_get k (tasks p))
        /\ dict_keys (tasks (snd r)) = dict_keys (tasks p)
        /\ task_counter (snd r) = task_counter p).
Proof.
  intros HT r. subst r. unfold start_task. rewrite HT.
  destruct (status_eqb (status T) PENDING) eqn:HS; simpl.
  - apply status_eqb_eq in HS.
    destruct (_are_dependencies_completed p (dependencies T)) eqn:HD; simpl.
    + repeat split; try congruence.
      * now apply dependencies_completed_iff.
      * apply dict_get_set_same.
      * intros k Hk. now apply dict_get_set_other.
      * apply dict_keys_set_present. eapply dict_mem_of_get; eauto.
    + repeat split; try congruence.
      intros [_ H]. apply dependencies_completed_iff in H. congruence.
  - repeat split; try congruence.
    intros [H _]. rewrite H in HS. discriminate.
Qed.

Lemma start_task_spec_witness :
  let p := snd (create_task "t0" "Design" "d" MEDIUM None "generic" None None
                            init) in
  fst (start_task "task_0000" p) = true.
Proof.
  intros p.
  assert (HT : dict_get "task_0000" (tasks p)
               = Some (mkTask "task_0000" "Design" "d" PENDING MEDIUM []
                              "generic" None None (Some "t0") None None))
    by reflexivity.
  apply (start_task_spec p "task_0000" _ HT). simpl. split; [reflexivity|].
  intros dep [].
Defined.

(** C6.  For a task [T] of the planner, [complete_task] returns true only
    when [T] is IN_PROGRESS (and then it does); the task is then
    COMPLETED with [completed_at] set to the time of the call and its
    other fields, the measured time apart, as before.  A second call on
    the task, and any call on a COMPLETED task, returns false and leaves
    the whole planner, hence [completed_at] and every other field,
    unchanged. *)
Theorem complete_task_spec (p : planner) (task_id now : string)
    (measured : option Z) (T : Task) :
  dict_get task_id (tasks p) = Some T ->
  let r := complete_task now task_id measured p in
  (fst r = true <-> status T = IN_PROGRESS)
  /\ (fst r = false -> snd r = p)
  /\ (fst r = true ->
        dict_get task_id (tasks (snd r))
        = Some (mkTask (id T) (title T) (description T) COMPLETED (priority T)
                       (dependencies T) (task_type T) (estimated_time T)
                       measured (created_at T) (Some now) (metadata T))
        /\ forall now' measured',
             complete_task now' task_id measured' (snd r) = (false, snd r))
  /\ (status T = COMPLETED ->
        forall now' measured',
          complete_task now' task_id measured' p = (false, p)).
Proof.
  intros HT r.
  assert (Hr : r = if negb (status_eqb (status T) IN_PROGRESS) then (false, p)
                   else (true,
                         mkPlanner
                           (dict_set task_id
                              (set_completed_at (Some now)
                                 (set_actual_time measured
                                    (set_status COMPLETED T))) (tasks p))
                           (task_counter p))).
  { subst r. unfold complete_task. now rewrite HT. }
  rewrite Hr. clear Hr r.
  destruct (status_eqb (status T) IN_PROGRESS) eqn:HS; simpl.
  - apply status_eqb_eq in HS.
    split; [tauto|]. split; [discriminate|]. split.
    + intros _. split; [apply dict_get_set_same|].
      intros now' measured'. unfold complete_task. simpl.
      now rewrite dict_get_set_same.
    + intros HC. congruence.
  - split; [split; [discriminate|]|].
    + intros H. rewrite H in HS. discriminate.
    + split; [reflexivity|]. split; [discriminate|].
      intros HC now' measured'. unfold complete_task. rewrite HT, HC.
      reflexivity.
Qed.

Lemma complete_task_spec_witness :
  let p0 := snd (create_task "t0" "Design" "d" MEDIUM None "generic" None None
                             init) in
  let p := snd (start_task "task_0000" p0) in
  fst (complete_task "t1" "task_0000" (Some 5%Z) p) = true.
Proof.
  intros p0 p.
  assert (HT : dict_get "task_0000" (tasks p)
               = Some (mkTask "task_0000" "Design" "d" IN_PROGRESS MEDIUM []
                              "generic" None None (Some "t0") None None))
    by reflexivity.
  apply (complete_task_spec p "task_0000" "t1" (Some 5%Z) _ HT).
  reflexivity.
Defined.

(** ** Progress *)

(** The fields of the progress report of a planner with tasks. *)
Definition progress_fields : list string :=
  ["total_tasks"; "completed"; "in_progress"; "failed"; "pending";
   "progress_percentage"].

(** The documented values of the field [status]. *)
Definition status_domain : list string :=
  ["not_started"; "has_issues"; "completed"; "in_progress"].

Lemma overall_status_in_domain c f t :
  In (_get_overall_status c f t) status_domain.
Proof.
  unfold _get_overall_status, status_domain.
  destruct (0 <? f)%nat; [simpl; tauto|].
  destruct (c =? t)%nat; [simpl; tauto|].
  destruct (0 <? c)%nat; simpl; tauto.
Qed.

(** C10.  With no task in the planner, [get_task_progress] returns the
    dictionary with the two entries [progress = 0] and
    [status = "No tasks"].  It has none of the fields [total_tasks],
    [completed], [in_progress], [failed], [pending],
    [progress_percentage], each of which is present as soon as there is a
    task, and its status is outside the documented domain, in which the
    status of a planner with tasks always lies. *)
Theorem get_task_progress_no_tasks (p : planner) :
  tasks p = [] ->
  get_task_progress p = [("progress", PyInt 0); ("status", PyStr "No tasks")]
  /\ (forall k, In k progress_fields ->
        dict_mem k (get_task_progress p) = false)
  /\ ~ In "No tasks" status_domain
  /\ (forall q, tasks q <> [] ->
        (forall k, In k progress_fields ->
           dict_mem k (get_task_progress q) = true)
        /\ exists s, dict_get "status" (get_task_progress q) = Some (PyStr s)
                     /\ In s status_domain).
Proof.
  intros Hp. unfold get_task_progress at 1 2. rewrite Hp. simpl.
  split; [reflexivity|]. split.
  - intros k Hk. unfold progress_fields in Hk. simpl in Hk.
    unfold dict_mem.
    repeat (destruct Hk as [<-|Hk]; [reflexivity|]). destruct Hk.
  - split.
    + unfold status_domain. simpl. intros H.
      repeat (destruct H as [H|H]; [discriminate|]). exact H.
    + intros q Hq. unfold get_task_progress.
      destruct (tasks q) as [|kt l] eqn:E; [congruence|].
      cbn [List.length Nat.eqb]. split.
      * intros k Hk. unfold progress_fields in Hk. simpl in Hk.
        unfold dict_mem.
        repeat (destruct Hk as [<-|Hk]; [reflexivity|]). destruct Hk.
      * eexists. split; [reflexivity|]. apply overall_status_in_domain.
Qed.

Lemma get_task_progress_no_tasks_witness :
  get_task_progress init = [("progress", PyInt 0); ("status", PyStr "No tasks")].
Proof.
  apply (get_task_progress_no_tasks init). reflexivity.
Defined.

(** C5, as stated, fails: with 23 of 160 tasks completed the planner
    reports 14.37, while [round(100*completed/total, 2)] is 14.38, as is
    the exact percentage 14.375 rounded to two decimals. *)
Lemma progress_percentage_differs :
  tasks planner_23_of_160 <> []
  /\ List.length (tasks planner_23_of_160) = 160
  /\ count_status COMPLETED planner_23_of_160 = 23
  /\ dict_get "progress_percentage" (get_task_progress planner_23_of_160)
     = Some (PyFloat (PrimFloat.div (float_of_int 1437) (float_of_int 100)))
  /\ documented_percentage 23 160
     = PrimFloat.div (float_of_int 1438) (float_of_int 100)
  /\ round_half_even (100 * 100 * 23) 160 = 1438%Z
  /\ dict_get "progress_percentage" (get_task_progress planner_23_of_160)
     <> Some (PyFloat (documented_percentage 23 160)).
Proof.
  assert (H1 : dict_get "progress_percentage"
                 (get_task_progress planner_23_of_160)
               = Some (PyFloat (PrimFloat.div (float_of_int 1437)
                                              (float_of_int 100))))
    by (vm_compute; reflexivity).
  assert (H2 : documented_percentage 23 160
               = PrimFloat.div (float_of_int 1438) (float_of_int 100))
    by (vm_compute; reflexivity).
  split; [vm_compute; discriminate|].
  split; [vm_compute; reflexivity|].
  split; [vm_compute; reflexivity|].
  split; [exact H1|]. split; [exact H2|].
  split; [vm_compute; reflexivity|].
  rewrite H1, H2. discriminate.
Qed.

(** C5, amended.  For a planner with at least one task,
    [get_task_progress] reports the counts of the tasks by status, the
    percentage [round((completed/total)*100, 2)] computed in double
    precision with the quotient formed first, and the status
    ["has_issues"] whenever a task is FAILED, however many are
    COMPLETED; ["completed"] when none is FAILED and all are COMPLETED;
    ["in_progress"] when none is FAILED and some but not all are
    COMPLETED; ["not_started"] when none is COMPLETED and none FAILED. *)
Theorem get_task_progress_spec (p : planner) :
  tasks p <> [] ->
  let total := List.length (tasks p) in
  let completed := count_status COMPLETED p in
  let failed := count_status FAILED p in
  let report := get_task_progress p in
  dict_get "total_tasks" report = Some (PyInt (Z.of_nat total))
  /\ dict_get "completed" report = Some (PyInt (Z.of_nat completed))
  /\ dict_get "failed" report = Some (PyInt (Z.of_nat failed))
  /\ dict_get "progress_percentage" report
     = Some (PyFloat (computed_percentage completed total))
  /\ exists s,
       dict_get "status" report = Some (PyStr s)
       /\ (0 < failed -> s = "has_issues")
       /\ (failed = 0 -> completed = total -> s = "completed")
       /\ (failed = 0 -> 0 < completed < total -> s = "in_progress")
       /\ (completed = 0 -> failed = 0 -> s = "not_started").
Proof.
  intros Hne total completed failed report.
  assert (Hpos : 0 < total).
  { subst total. destruct (tasks p); [congruence | simpl; lia]. }
  assert (Ht : (total =? 0)%nat = false) by (apply Nat.eqb_neq; lia).
  subst report. unfold get_task_progress. fold total. rewrite Ht.
  fold completed failed. clearbody total completed failed.
  do 4 (split; [reflexivity|]).
  exists (_get_overall_status completed failed total).
  split; [reflexivity|]. unfold _get_overall_status.
  repeat split.
  - intros Hf. apply Nat.ltb_lt in Hf. now rewrite Hf.
  - intros Hf Hc. rewrite Hf. simpl. apply Nat.eqb_eq in Hc. now rewrite Hc.
  - intros Hf [Hc1 Hc2]. rewrite Hf. simpl.
    assert (Hn : (completed =? total)%nat = false) by (apply Nat.eqb_neq; lia).
    rewrite Hn. apply Nat.ltb_lt in Hc1. now rewrite Hc1.
  - intros Hc Hf. rewrite Hf, Hc. destruct total; [lia | reflexivity].
Qed.

Lemma get_task_progress_spec_witness :
  dict_get "progress_percentage" (get_task_progress planner_23_of_160)
  = Some (PyFloat (computed_percentage
                     (count_status COMPLETED planner_23_of_160)
                     (List.length (tasks planner_23_of_160)))).
Proof.
  apply (get_task_progress_spec planner_23_of_160).
  vm_compute. discriminate.
Defined.

(** ** Ready tasks *)



Lemma priority_value_ltb a b :
  String.ltb (priority_value a) (priority_value b)
  = (value_rank a <? value_rank b)%nat.
Proof. destruct a, b; reflexivity. Qed.

Lemma insert_desc_perm x l : Permutation (insert_desc x l) (x :: l).
Proof.
  induction l as [|y l IH]; simpl; [reflexivity|].
  destruct (String.ltb _ _); [|reflexivity].
  rewrite IH. apply perm_swap.
Qed.

Lemma sorted_by_priority_value_desc_perm l :
  Permutation (sorted_by_priority_value_desc l) l.
Proof.
  induction l as [|x l IH]; simpl; [reflexivity|].
  rewrite insert_desc_perm. now constructor.
Qed.

(** The tasks [get_ready_tasks] returns are the PENDING tasks whose
    dependencies are all COMPLETED, each as often as it is stored. *)
Lemma get_ready_tasks_members p :
  Permutation (get_ready_tasks p)
    (filter (fun t => status_eqb (status t) PENDING
                      && _are_dependencies_completed p (dependencies t))
            (dict_values (tasks p))).
Proof. apply sorted_by_priority_value_desc_perm. Qed.

Lemma insert_desc_sorted x l :
  StronglySorted (fun a b => value_rank (priority b) <= value_rank (priority a)) l ->
  StronglySorted (fun a b => value_rank (priority b) <= value_rank (priority a))
                 (insert_desc x l).
Proof.
  induction 1 as [|y l Hs IH Hy]; simpl.
  - repeat constructor.
  - rewrite priority_value_ltb.
    destruct (value_rank (priority x) <? value_rank (priority y))%nat eqn:E.
    + apply Nat.ltb_lt in E. constructor; [exact IH|].
      rewrite Forall_forall. intros z Hz.
      apply (Permutation_in _ (insert_desc_perm x l)) in Hz.
      destruct Hz as [<-|Hz]; [lia|].
      rewrite Forall_forall in Hy. now apply Hy.
    + apply Nat.ltb_ge in E. constructor.
      * now constructor.
      * constructor; [exact E|].
        rewrite Forall_forall in Hy |- *. intros z Hz.
        specialize (Hy z Hz). lia.
  Qed.

(** The order of [get_ready_tasks] is that of the priority values as
    strings, descending: MEDIUM, LOW, HIGH, CRITICAL. *)
Lemma get_ready_tasks_sorted p :
  StronglySorted (fun a b => value_rank (priority b) <= value_rank (priority a))
                 (get_ready_tasks p).
Proof.
  unfold get_ready_tasks, sorted_by_priority_value_desc.
  induction (filter _ _) as [|x l IH]; simpl; [constructor|].
  now apply insert_desc_sorted.
Qed.

(** C7, on the code.  Of a HIGH task and a MEDIUM task created after it,
    both ready, [get_ready_tasks] returns the MEDIUM one first: the sort
    key is the text of the priority, and ["medium"] is greater than
    ["high"]. *)
Theorem get_ready_tasks_medium_before_high :
  map (fun t => (id t, priority t)) (get_ready_tasks planner_high_then_medium)
  = [("task_0001", MEDIUM); ("task_0000", HIGH)].
Proof. reflexivity. Qed.

(** ** Planning *)

Lemma planner_wf_init : planner_wf init.
Proof. intros k []. Qed.

Lemma planner_wf_fresh p n :
  planner_wf p -> task_counter p <= n ->
  dict_get (task_id_of n) (tasks p) = None.
Proof.
  intros Hwf Hn. apply dict_get_None. intros Hin.
  destruct (Hwf _ Hin) as (m & Hm & Hlt).
  apply task_id_of_inj in Hm. lia.
Qed.

(** On a planner whose identifiers were issued by its counter,
    [create_task] appends the new task under the next identifier. *)
Lemma create_task_fresh now ti de pr deps ty est md p :
  planner_wf p ->
  let r := create_task now ti de pr deps ty est md p in
  fst r = task_id_of (task_counter p)
  /\ tasks (snd r)
     = tasks p ++
       [(task_id_of (task_counter p),
         mkTask (task_id_of (task_counter p)) ti de PENDING pr
                (match deps with Some (d :: ds) => d :: ds | _ => [] end)
                ty est None (Some now) None md)]
  /\ task_counter (snd r) = S (task_counter p)
  /\ planner_wf (snd r).
Proof.
  intros Hwf r. subst r. unfold create_task. simpl.
  rewrite dict_set_fresh by (apply planner_wf_fresh; auto).
  repeat split.
  intros k Hin. simpl in Hin. unfold dict_keys in Hin.
  rewrite map_app in Hin. apply in_app_or in Hin.
  destruct Hin as [Hin|[<-|[]]].
  - destruct (Hwf _ Hin) as (n & -> & Hn). exists n. simpl. split; [easy|lia].
  - exists (task_counter p). simpl. split; [easy|lia].
Qed.

Lemma start_task_wf task_id p :
  planner_wf p -> planner_wf (snd (start_task task_id p)).
Proof.
  intros Hwf. unfold start_task.
  destruct (dict_get task_id (tasks p)) as [t|] eqn:E; [|exact Hwf].
  destruct (negb _); [exact Hwf|]. destruct (negb _); [exact Hwf|].
  intros k Hin. simpl in Hin.
  rewrite dict_keys_set_present in Hin by (eapply dict_mem_of_get; eauto).
  exact (Hwf _ Hin).
Qed.

Lemma complete_task_wf now task_id a p :
  planner_wf p -> planner_wf (snd (complete_task now task_id a p)).
Proof.
  intros Hwf. unfold complete_task.
  destruct (dict_get task_id (tasks p)) as [t|] eqn:E; [|exact Hwf].
  destruct (negb _); [exact Hwf|].
  intros k Hin. simpl in Hin.
  rewrite dict_keys_set_present in Hin by (eapply dict_mem_of_get; eauto).
  exact (Hwf _ Hin).
Qed.

Lemma fail_task_wf task_id reason p :
  planner_wf p -> planner_wf (snd (fail_task task_id reason p)).
Proof.
  intros Hwf. unfold fail_task.
  destruct (dict_get task_id (tasks p)) as [t|] eqn:E; [|exact Hwf].
  intros k Hin. simpl in Hin.
  rewrite dict_keys_set_present in Hin by (eapply dict_mem_of_get; eauto).
  exact (Hwf _ Hin).
Qed.

Lemma dict_del_keys {V} k (d : list (string * V)) x :
  In x (dict_keys (dict_del k d)) -> In x (dict_keys d).
Proof.
  induction d as [|[k' v'] d IH]; simpl; [tauto|].
  destruct (String.eqb k k'); simpl; tauto.
Qed.

Lemma clear_completed_tasks_wf p :
  planner_wf p -> planner_wf (clear_completed_tasks p).
Proof.
  intros Hwf k Hin. apply Hwf. unfold clear_completed_tasks in Hin.
  cbn [tasks] in Hin. revert Hin.
  generalize (map fst (filter (fun kt => status_eqb (status (snd kt)) COMPLETED)
                              (tasks p))).
  generalize (tasks p).
  intros d ks. revert d. induction ks as [|k0 ks IH]; intros d; simpl; [tauto|].
  intros Hin. apply (dict_del_keys k0). now apply IH.
Qed.

(** The loop of [plan_from_requirement] over any table of phases. *)
Lemma plan_loop_spec clock r ph :
  forall prev acc p,
    planner_wf p ->
    exists new,
      plan_loop clock r ph prev acc p
      = (acc ++ dict_keys new,
         mkPlanner (tasks p ++ new) (task_counter p + List.length ph))
      /\ dict_keys new = map task_id_of (seq (task_counter p) (List.length ph))
      /\ map (fun kt => dependencies (snd kt)) new
         = chain_from prev (dict_keys new)
      /\ map (fun kt => (title (snd kt), priority (snd kt))) new
         = map (fun x => (fst (fst x), snd x)) ph
      /\ Forall (fun kt => id (snd kt) = fst kt /\ status (snd kt) = PENDING)
                new.
Proof.
  induction ph as [|[[ti de] pr] ph IH]; intros prev acc p Hwf.
  - exists []. simpl. rewrite !app_nil_r, Nat.add_0_r.
    destruct p. repeat split. constructor.
  - cbn [plan_loop].
    pose proof (create_task_fresh (clock (task_counter p)) ti
                  (de ++ " for: " ++ r) pr (Some (depends_on prev))
                  (replace_space (lower ti)) (Some 60%Z) None p Hwf)
      as (Hid & Htasks & Hcnt & Hwf').
    destruct (create_task _ _ _ _ _ _ _ _ p) as [task_id p'] eqn:Hc.
    simpl in Hid, Htasks, Hcnt, Hwf'. subst task_id.
    destruct (IH (Some (task_id_of (task_counter p)))
                 (acc ++ [task_id_of (task_counter p)]) p' Hwf')
      as (new & Hrun & Hkeys & Hdeps & Hshape & Hall).
    match type of Htasks with _ = _ ++ [?e] => exists (e :: new) end.
    rewrite Hrun, Htasks, Hcnt.
    repeat split.
    + f_equal.
      * simpl. now rewrite <- app_assoc.
      * f_equal; [now rewrite <- app_assoc | simpl; lia].
    + simpl. f_equal. now rewrite Hkeys, Hcnt.
    + cbn [map snd dependencies dict_keys fst chain_from]. f_equal.
      * now destruct prev as [[|c s]|].
      * exact Hdeps.
    + simpl. now f_equal.
    + constructor; [now split | exact Hall].
Qed.

Lemma task_id_of_NoDup c n : NoDup (map task_id_of (seq c n)).
Proof.
  apply Finite.Injective_map_NoDup; [|apply seq_NoDup].
  intros a b. apply task_id_of_inj.
Qed.

(** In a dictionary with distinct keys every entry is found under its
    key. *)
Lemma dict_get_of_In {V} (d : list (string * V)) k v :
  NoDup (dict_keys d) -> In (k, v) d -> dict_get k d = Some v.
Proof.
  induction d as [|[k' v'] d IH]; simpl; [tauto|].
  intros Hnd [[= -> ->]|Hin].
  - now rewrite String.eqb_refl.
  - inversion Hnd as [|? ? Hnotin Hnd']; subst.
    destruct (String.eqb k k') eqn:E.
    + apply String.eqb_eq in E. subst k'. exfalso. apply Hnotin.
      change k with (fst (k, v)). now apply in_map.
    + now apply IH.
Qed.

(** C2.  On a planner whose identifiers were issued by its counter (as
    on every planner built through its operations), and for every
    requirement [r], [plan_from_requirement] appends exactly eight tasks
    and returns their identifiers in creation order: the eight that
    follow the counter.  The first task has no dependency, and every
    later one depends on the identifier returned just before it and on
    nothing else.  Each new task is PENDING and found under its
    identifier.  The identifiers, dependency lists, titles and priorities
    are the same for every other requirement [r']. *)
Theorem plan_from_requirement_chain (clock : nat -> string) (r : string)
    (p : planner) :
  planner_wf p ->
  let ids := fst (plan_from_requirement clock r p) in
  let p' := snd (plan_from_requirement clock r p) in
  List.length ids = 8
  /\ ids = map task_id_of (seq (task_counter p) 8)
  /\ NoDup ids
  /\ (forall i, In i ids -> ~ In i (dict_keys (tasks p)))
  /\ exists new,
       tasks p' = tasks p ++ new
       /\ dict_keys new = ids
       /\ map (fun kt => dependencies (snd kt)) new
          = [] :: map (fun i => [i]) (removelast ids)
       /\ (forall task_id T, In (task_id, T) new ->
             dict_get task_id (tasks p') = Some T
             /\ id T = task_id /\ status T = PENDING)
       /\ forall r',
            let q := plan_from_requirement clock r' p in
            fst q = ids
            /\ exists new',
                 tasks (snd q) = tasks p ++ new'
                 /\ map (fun kt => (fst kt, dependencies (snd kt),
                                    title (snd kt), priority (snd kt))) new'
                    = map (fun kt => (fst kt, dependencies (snd kt),
                                      title (snd kt), priority (snd kt))) new.
Proof.
  intros Hwf ids p'.
  assert (Hgen : forall r0, exists new0,
             plan_from_requirement clock r0 p
             = (dict_keys new0, mkPlanner (tasks p ++ new0) (task_counter p + 8))
             /\ dict_keys new0 = map task_id_of (seq (task_counter p) 8)
             /\ map (fun kt => dependencies (snd kt)) new0
                = [] :: map (fun i => [i]) (removelast (dict_keys new0))
             /\ map (fun kt => (title (snd kt), priority (snd kt))) new0
                = map (fun x => (fst (fst x), snd x)) phases
             /\ Forall (fun kt => id (snd kt) = fst kt
                                  /\ status (snd kt) = PENDING) new0).
  { intros r0.
    destruct (plan_loop_spec clock r0 phases None [] p Hwf)
      as (new0 & Hrun & Hkeys & Hdeps & Hshape & Hall).
    exists new0. repeat split; try assumption.
    rewrite Hdeps, Hkeys. reflexivity. }
  destruct (Hgen r) as (new & Hrun & Hkeys & Hdeps & Hshape & Hall).
  assert (Hids : ids = dict_keys new) by (subst ids; now rewrite Hrun).
  assert (Hp' : tasks p' = tasks p ++ new) by (subst p'; now rewrite Hrun).
  assert (Hfresh : forall i, In i ids -> ~ In i (dict_keys (tasks p))).
  { intros i Hi Hin. rewrite Hids, Hkeys in Hi.
    apply in_map_iff in Hi. destruct Hi as (n & <- & Hn).
    apply in_seq in Hn. destruct (Hwf _ Hin) as (m & Hm & Hlt).
    apply task_id_of_inj in Hm. lia. }
  split; [rewrite Hids, Hkeys; now rewrite length_map, length_seq|].
  split; [now rewrite Hids|].
  split; [rewrite Hids, Hkeys; apply task_id_of_NoDup|].
  split; [exact Hfresh|].
  exists new. split; [exact Hp'|]. split; [now rewrite Hids|].
  split; [now rewrite Hids|]. split.
  - intros task_id T Hin.
    rewrite Forall_forall in Hall. destruct (Hall _ Hin) as [Hid Hst].
    simpl in Hid, Hst. repeat split; try assumption.
    rewrite Hp', dict_get_app_fresh.
    + apply dict_get_of_In; [|exact Hin].
      rewrite Hkeys. apply task_id_of_NoDup.
    + apply dict_get_None. apply Hfresh. rewrite Hids.
      change task_id with (fst (task_id, T)). now apply in_map.
  - intros r' q. subst q.
    destruct (Hgen r') as (new' & Hrun' & Hkeys' & Hdeps' & Hshape' & _).
    rewrite Hrun'. simpl. split; [now rewrite Hids, Hkeys, Hkeys'|].
    exists new'. split; [reflexivity|].
    assert (Hk : map fst new' = map fst new)
      by (unfold dict_keys in *; congruence).
    assert (Hd : map (fun kt => dependencies (snd kt)) new'
                 = map (fun kt => dependencies (snd kt)) new)
      by (unfold dict_keys in *; congruence).
    assert (Hs : map (fun kt => (title (snd kt), priority (snd kt))) new'
                 = map (fun kt => (title (snd kt), priority (snd kt))) new)
      by congruence.
    clear - Hk Hd Hs. revert new' Hk Hd Hs.
    induction new as [|kt new IH]; intros [|kt' new']; simpl;
      try discriminate; [reflexivity|].
    intros [= Hk1 Hk2] [= Hd1 Hd2] [= Hs1 Hs2 Hs3].
    rewrite Hk1, Hd1, Hs1, Hs2. f_equal. now apply IH.
Qed.

Lemma plan_from_requirement_chain_witness :
  fst (plan_from_requirement (fun _ => "now") "build a todo app" init)
  = map task_id_of (seq 0 8).
Proof.
  apply (plan_from_requirement_chain (fun _ => "now") "build a todo app" init).
  exact planner_wf_init.
Defined.

(** ** What the calls on a planner keep *)

Section DictMoreFacts.
Context {V : Type}.
Implicit Types (d : list (string * V)) (k : string) (v : V).

Lemma dict_set_In k v d k' v' :
  In (k', v') (dict_set k v d) -> (k' = k /\ v' = v) \/ In (k', v') d.
Proof.
  induction d as [|[k0 v0] d IH]; simpl.
  - intros [[= <- <-]|[]]. now left.
  - destruct (String.eqb k k0) eqn:E; simpl.
    + apply String.eqb_eq in E. subst k0.
      intros [[= <- <-]|H]; [now left | right; now right].
    + intros [H|H]; [right; now left|].
      destruct (IH H) as [?|?]; [now left | right; now right].
Qed.

Lemma dict_get_key_In k v d : dict_get k d = Some v -> In k (dict_keys d).
Proof.
  intros H. apply dict_get_In in H.
  change k with (fst (k, v)). now apply in_map.
Qed.

Lemma dict_del_In k d kv : In kv (dict_del k d) -> In kv d.
Proof.
  induction d as [|[k' v'] d IH]; simpl; [tauto|].
  destruct (String.eqb k k'); simpl; tauto.
Qed.

Lemma dict_del_NoDup k d : NoDup (dict_keys d) -> NoDup (dict_keys (dict_del k d)).
Proof.
  induction d as [|[k' v'] d IH]; simpl; [auto|].
  intros Hnd. inversion Hnd as [|? ? Hnotin Hnd']; subst.
  destruct (String.eqb k k'); [exact Hnd'|].
  simpl. constructor; [|auto].
  intros Hin. apply Hnotin. now apply (dict_del_keys k).
Qed.

(** Deleting a key from a dictionary with distinct keys keeps the
    entries under the other keys, in their order. *)
Lemma dict_del_filter k d :
  NoDup (dict_keys d) ->
  dict_del k d = filter (fun kv => negb (String.eqb k (fst kv))) d.
Proof.
  induction d as [|[k' v'] d IH]; simpl; [reflexivity|].
  intros Hnd. inversion Hnd as [|? ? Hnotin Hnd']; subst.
  destruct (String.eqb k k') eqn:E; simpl.
  - apply String.eqb_eq in E. subst k'.
    symmetry. rewrite <- (filter_ext_in (fun _ => true)).
    + clear. induction d as [|x d IH]; simpl; congruence.
    + intros [k0 v0] Hin. simpl.
      destruct (String.eqb k k0) eqn:E; [|reflexivity].
      apply String.eqb_eq in E. subst k0. exfalso. apply Hnotin.
      change k with (fst (k, v0)). now apply in_map.
  - f_equal. auto.
Qed.

Lemma filter_keys_NoDup (f : string * V -> bool) d :
  NoDup (dict_keys d) -> NoDup (dict_keys (filter f d)).
Proof.
  induction d as [|[k v] d IH]; simpl; [auto|].
  intros Hnd. inversion Hnd as [|? ? Hnotin Hnd']; subst.
  destruct (f (k, v)); [|auto]. simpl. constructor; [|auto].
  intros Hin. apply Hnotin. unfold dict_keys in *.
  apply in_map_iff in Hin. destruct Hin as (x & <- & Hx).
  apply filter_In in Hx. apply in_map. tauto.
Qed.

(** Deleting keys one after the other. *)
Lemma dict_del_all ks :
  forall d,
    NoDup (dict_keys d) ->
    fold_left (fun d k => dict_del k d) ks d
    = filter (fun kv => negb (existsb (String.eqb (fst kv)) ks)) d.
Proof.
  induction ks as [|k ks IH]; intros d Hnd; simpl.
  - symmetry. clear. induction d as [|x d IH]; simpl; congruence.
  - rewrite IH by now apply dict_del_NoDup.
    rewrite dict_del_filter by assumption.
    clear. induction d as [|[k0 v0] d IH]; simpl; [reflexivity|].
    rewrite (String.eqb_sym k0 k).
    destruct (String.eqb k k0); simpl; [exact IH|].
    destruct (existsb _ ks); simpl; [exact IH | now f_equal].
Qed.
End DictMoreFacts.

Lemma planner_ok_init : planner_ok init.
Proof.
  split; [exact planner_wf_init|]. split; constructor.
Qed.

(** Writing a task back under its identifier, with the same identifier
    and a status other than BLOCKED, keeps a planner in order. *)
Lemma planner_ok_update p task_id T T' :
  planner_ok p ->
  dict_get task_id (tasks p) = Some T ->
  id T' = id T -> status T' <> BLOCKED ->
  planner_ok (mkPlanner (dict_set task_id T' (tasks p)) (task_counter p)).
Proof.
  intros (Hwf & Hnd & Hall) HT Hid Hst.
  assert (Hmem : dict_mem task_id (tasks p) = true)
    by (eapply dict_mem_of_get; eauto).
  split; [|split]; cbn [tasks task_counter].
  - intros k Hin. cbn [tasks task_counter] in *.
    rewrite dict_keys_set_present in Hin by assumption. auto.
  - now rewrite dict_keys_set_present.
  - rewrite Forall_forall in *. intros [k v] Hin.
    apply dict_set_In in Hin. destruct Hin as [[-> ->]|Hin]; [|auto].
    simpl. split; [|assumption].
    rewrite Hid. apply dict_get_In in HT. exact (proj1 (Hall _ HT)).
Qed.

Lemma planner_ok_start task_id p :
  planner_ok p -> planner_ok (snd (start_task task_id p)).
Proof.
  intros Hok. unfold start_task.
  destruct (dict_get task_id (tasks p)) as [T|] eqn:E; [|exact Hok].
  destruct (negb _); [exact Hok|]. destruct (negb _); [exact Hok|].
  cbn [snd]. eapply planner_ok_update; eauto. discriminate.
Qed.

Lemma planner_ok_complete now task_id a p :
  planner_ok p -> planner_ok (snd (complete_task now task_id a p)).
Proof.
  intros Hok. unfold complete_task.
  destruct (dict_get task_id (tasks p)) as [T|] eqn:E; [|exact Hok].
  destruct (negb _); [exact Hok|].
  cbn [snd]. eapply planner_ok_update; eauto. discriminate.
Qed.

Lemma planner_ok_fail task_id reason p :
  planner_ok p -> planner_ok (snd (fail_task task_id reason p)).
Proof.
  intros Hok. unfold fail_task.
  destruct (dict_get task_id (tasks p)) as [T|] eqn:E; [|exact Hok].
  cbn [snd]. eapply planner_ok_update; eauto. discriminate.
Qed.

(** Appending fresh tasks issued by the counter. *)
Lemma planner_ok_append p new n :
  planner_ok p ->
  dict_keys new = map task_id_of (seq (task_counter p) n) ->
  Forall (fun kt => id (snd kt) = fst kt /\ status (snd kt) = PENDING) new ->
  planner_ok (mkPlanner (tasks p ++ new) (task_counter p + n)).
Proof.
  intros (Hwf & Hnd & Hall) Hkeys Hnew.
  split; [|split]; cbn [tasks task_counter].
  - intros k Hin. cbn [tasks task_counter] in *.
    unfold dict_keys in Hin. rewrite map_app in Hin.
    apply in_app_or in Hin. destruct Hin as [Hin|Hin].
    + destruct (Hwf _ Hin) as (m & -> & Hm). exists m. split; [easy|lia].
    + fold (dict_keys new) in Hin. rewrite Hkeys in Hin.
      apply in_map_iff in Hin. destruct Hin as (m & <- & Hm).
      apply in_seq in Hm. exists m. split; [easy|lia].
  - unfold dict_keys. rewrite map_app. apply NoDup_app; [exact Hnd| |].
    + fold (dict_keys new). rewrite Hkeys. apply task_id_of_NoDup.
    + intros k Hin Hin'. fold (dict_keys new) in Hin'. rewrite Hkeys in Hin'.
      apply in_map_iff in Hin'. destruct Hin' as (m & <- & Hm).
      apply in_seq in Hm. destruct (Hwf _ Hin) as (m' & Hm' & Hlt).
      apply task_id_of_inj in Hm'. lia.
  - apply Forall_app. split; [exact Hall|].
    eapply Forall_impl; [|exact Hnew]. intros kt [H1 H2].
    split; [exact H1 | rewrite H2; discriminate].
Qed.

Lemma planner_ok_create now ti de pr deps ty est md p :
  planner_ok p -> planner_ok (snd (create_task now ti de pr deps ty est md p)).
Proof.
  intros Hok.
  destruct (create_task_fresh now ti de pr deps ty est md p (proj1 Hok))
    as (_ & Htasks & Hcnt & _).
  destruct (snd (create_task now ti de pr deps ty est md p)) as [d c].
  cbn [tasks task_counter] in *. subst d c.
  replace (S (task_counter p)) with (task_counter p + 1) by lia.
  apply planner_ok_append; [exact Hok | reflexivity |].
  repeat constructor.
Qed.

Lemma planner_ok_plan clock r p :
  planner_ok p -> planner_ok (snd (plan_from_requirement clock r p)).
Proof.
  intros Hok.
  destruct (plan_loop_spec clock r phases None [] p (proj1 Hok))
    as (new & Hrun & Hkeys & _ & _ & Hall).
  unfold plan_from_requirement. rewrite Hrun. cbn [snd].
  now apply planner_ok_append.
Qed.

Lemma planner_ok_clear p : planner_ok p -> planner_ok (clear_completed_tasks p).
Proof.
  intros (Hwf & Hnd & Hall).
  split; [now apply clear_completed_tasks_wf|].
  unfold clear_completed_tasks. cbn [tasks].
  rewrite dict_del_all by assumption. split.
  - now apply filter_keys_NoDup.
  - rewrite Forall_forall in *. intros kt Hin.
    apply filter_In in Hin. apply Hall. tauto.
Qed.

Lemma planner_ok_call c p : planner_ok p -> planner_ok (run_call c p).
Proof.
  destruct c; simpl.
  - apply planner_ok_create.
  - apply planner_ok_plan.
  - apply planner_ok_start.
  - apply planner_ok_complete.
  - apply planner_ok_fail.
  - apply planner_ok_clear.
Qed.

Lemma planner_ok_calls cs : forall p, planner_ok p -> planner_ok (run_calls cs p).
Proof.
  induction cs as [|c cs IH]; intros p Hok; [exact Hok|].
  apply IH. now apply planner_ok_call.
Qed.

(** X1.  Whatever methods are called on a planner and in whatever order,
    from [TaskPlanner()] on: every identifier in use was issued by the
    counter and is below it, no identifier is stored twice, every task
    is stored under its own identifier, and no task is ever BLOCKED. *)
Theorem planner_invariants (cs : list planner_call) :
  let p := run_calls cs init in
  (forall k, In k (dict_keys (tasks p)) ->
     exists n, k = task_id_of n /\ n < task_counter p)
  /\ NoDup (dict_keys (tasks p))
  /\ (forall k T, dict_get k (tasks p) = Some T ->
        id T = k /\ status T <> BLOCKED).
Proof.
  intros p.
  destruct (planner_ok_calls cs init planner_ok_init) as (Hwf & Hnd & Hall).
  fold p in Hwf, Hnd, Hall. split; [exact Hwf|]. split; [exact Hnd|].
  intros k T HT. apply dict_get_In in HT.
  rewrite Forall_forall in Hall. exact (Hall _ HT).
Qed.

(** ** The moves of a task *)

Lemma dict_get_set {V} k k0 (v : V) d :
  dict_get k (dict_set k0 v d)
  = if String.eqb k k0 then Some v else dict_get k d.
Proof.
  destruct (String.eqb k k0) eqn:E.
  - apply String.eqb_eq in E. subst. apply dict_get_set_same.
  - apply String.eqb_neq in E. now apply dict_get_set_other.
Qed.

Lemma dict_get_filter {V} (f : string * V -> bool) k v d :
  NoDup (dict_keys d) ->
  dict_get k d = Some v ->
  dict_get k (filter f d) = if f (k, v) then Some v else None.
Proof.
  intros Hnd Hget.
  destruct (f (k, v)) eqn:Hf.
  - apply dict_get_of_In; [now apply filter_keys_NoDup|].
    apply filter_In. split; [now apply dict_get_In | exact Hf].
  - destruct (dict_get k (filter f d)) as [v'|] eqn:E; [|reflexivity].
    apply dict_get_In in E. apply filter_In in E. destruct E as [Hin Hf'].
    apply (dict_get_of_In d k v' Hnd) in Hin.
    rewrite Hget in Hin. injection Hin as ->. congruence.
Qed.

(** [clear_completed_tasks] on a planner with distinct identifiers keeps
    the tasks that are not COMPLETED, in their order. *)
Lemma clear_completed_tasks_filter p :
  NoDup (dict_keys (tasks p)) ->
  tasks (clear_completed_tasks p)
  = filter (fun kt => negb (status_eqb (status (snd kt)) COMPLETED)) (tasks p).
Proof.
  intros Hnd. unfold clear_completed_tasks. cbn [tasks].
  rewrite dict_del_all by assumption.
  apply filter_ext_in. intros [k T] Hin. f_equal. cbn [fst snd].
  destruct (status_eqb (status T) COMPLETED) eqn:Hs.
  - apply existsb_exists. exists k. split; [|apply String.eqb_refl].
    change k with (fst (k, T)). apply in_map. apply filter_In. now split.
  - destruct (existsb _ _) eqn:Hex; [|reflexivity].
    apply existsb_exists in Hex. destruct Hex as (k' & Hk' & Heq).
    apply String.eqb_eq in Heq. subst k'.
    apply in_map_iff in Hk'. destruct Hk' as ([k' T'] & Hfst & Hf).
    simpl in Hfst. subst k'. apply filter_In in Hf. destruct Hf as [Hin' Hs'].
    simpl in Hs'.
    apply (dict_get_of_In _ _ _ Hnd) in Hin.
    apply (dict_get_of_In _ _ _ Hnd) in Hin'. congruence.
Qed.

Lemma same_identity_refl T : same_identity T T.
Proof. repeat split. Qed.

(** X2.  A call of any method on a planner built by calls moves the
    status of a task it holds only from PENDING to IN_PROGRESS, from
    IN_PROGRESS to COMPLETED, or to FAILED, and never changes its
    identifier, title, description, priority, dependencies, type,
    estimate or creation time.  A task is removed only by
    [clear_completed_tasks], and only when it is COMPLETED. *)
Theorem task_moves (c : planner_call) (p : planner) (k : string) (T : Task) :
  planner_ok p ->
  dict_get k (tasks p) = Some T ->
  match dict_get k (tasks (run_call c p)) with
  | Some T' => same_identity T T' /\ status_step (status T) (status T')
  | None => c = CallClear /\ status T = COMPLETED
  end.
Proof.
  intros Hok HT. pose proof Hok as (Hwf & Hnd & _).
  assert (Hsame : same_identity T T /\ status_step (status T) (status T))
    by (split; [apply same_identity_refl | now left]).
  destruct c as [now ti de pr deps ty est md|clock r|k0|now k0 a|k0 reason| ];
    cbn [run_call].
  - destruct (create_task_fresh now ti de pr deps ty est md p Hwf)
      as (_ & -> & _).
    now rewrite (dict_get_app_found _ _ _ _ HT).
  - destruct (plan_loop_spec clock r phases None [] p Hwf) as (new & Hrun & _).
    unfold plan_from_requirement. rewrite Hrun. cbn [snd tasks].
    now rewrite (dict_get_app_found _ _ _ _ HT).
  - unfold start_task.
    destruct (dict_get k0 (tasks p)) as [T0|] eqn:E0; cbn [snd];
      [|now rewrite HT].
    destruct (status_eqb (status T0) PENDING) eqn:Hs; cbn [negb snd];
      [|now rewrite HT].
    destruct (negb _); cbn [snd tasks]; [now rewrite HT|].
    rewrite dict_get_set. destruct (String.eqb k k0) eqn:E.
    + apply String.eqb_eq in E. subst k0. rewrite HT in E0.
      injection E0 as <-. apply status_eqb_eq in Hs.
      split; [repeat split | right; left; now split].
    + now rewrite HT.
  - unfold complete_task.
    destruct (dict_get k0 (tasks p)) as [T0|] eqn:E0; cbn [snd];
      [|now rewrite HT].
    destruct (status_eqb (status T0) IN_PROGRESS) eqn:Hs; cbn [negb snd tasks];
      [|now rewrite HT].
    rewrite dict_get_set. destruct (String.eqb k k0) eqn:E.
    + apply String.eqb_eq in E. subst k0. rewrite HT in E0.
      injection E0 as <-. apply status_eqb_eq in Hs.
      split; [repeat split | right; right; left; now split].
    + now rewrite HT.
  - unfold fail_task.
    destruct (dict_get k0 (tasks p)) as [T0|] eqn:E0; cbn [snd tasks];
      [|now rewrite HT].
    rewrite dict_get_set. destruct (String.eqb k k0) eqn:E.
    + apply String.eqb_eq in E. subst k0. rewrite HT in E0.
      injection E0 as <-.
      split; [repeat split | right; right; now right].
    + now rewrite HT.
  - rewrite clear_completed_tasks_filter by assumption.
    rewrite (dict_get_filter _ k T _ Hnd HT). cbn [snd].
    destruct (status_eqb (status T) COMPLETED) eqn:Hs; cbn [negb].
    + apply status_eqb_eq in Hs. now split.
    + exact Hsame.
Qed.

Lemma task_moves_witness :
  let T := mkTask "task_0000" "Requirements Analysis"
                  "Analyze and clarify the requirements for: a shop"
                  PENDING HIGH [] "requirements_analysis" (Some 60%Z)
                  None (Some "now") None None in
  let p := run_calls [CallPlan (fun _ => "now") "a shop"] init in
  match dict_get "task_0000"
          (tasks (run_call (CallFail "task_0000" "no reason") p)) with
  | Some T' => same_identity T T' /\ status_step (status T) (status T')
  | None => CallFail "task_0000" "no reason" = CallClear
            /\ status T = COMPLETED
  end.
Proof.
  intros T p.
  exact (task_moves (CallFail "task_0000" "no reason") p "task_0000" T
           (planner_ok_calls _ init planner_ok_init) eq_refl).
Defined.

(** X3.  [fail_task] succeeds on every task the planner holds, whatever
    its status, COMPLETED included: the task becomes FAILED, the reason
    is stored in its metadata under ["failure_reason"], and the other
    entries of the metadata and the other fields of the task are kept.
    Every other task keeps its status and all its fields other than the
    metadata; and when the failed task had no metadata or an empty one,
    for which the method makes a new dictionary, the other tasks are
    untouched altogether.  (A non-empty metadata dictionary is written
    in place, and a task created with the same dictionary shares it.) *)
Theorem fail_task_spec (p : planner) (task_id reason : string) (T : Task) :
  dict_get task_id (tasks p) = Some T ->
  let r := fail_task task_id reason p in
  fst r = true
  /\ exists T' md,
       dict_get task_id (tasks (snd r)) = Some T'
       /\ status T' = FAILED
       /\ metadata T' = Some md
       /\ dict_get "failure_reason" md = Some (PyStr reason)
       /\ (forall key, key <> "failure_reason" ->
             dict_get key md
             = match metadata T with
               | Some m => dict_get key m
               | None => None
               end)
       /\ same_identity T T'
       /\ actual_time T' = actual_time T
       /\ completed_at T' = completed_at T
       /\ (forall k T0, k <> task_id ->
             dict_get k (tasks p) = Some T0 ->
             exists T1, dict_get k (tasks (snd r)) = Some T1
                        /\ same_but_metadata T0 T1)
       /\ match metadata T with
          | Some (_ :: _) => True
          | _ => forall k, k <> task_id ->
                           dict_get k (tasks (snd r)) = dict_get k (tasks p)
          end
       /\ dict_keys (tasks (snd r)) = dict_keys (tasks p)
       /\ task_counter (snd r) = task_counter p.
Proof.
  intros HT r. subst r. unfold fail_task. rewrite HT. cbn [fst snd tasks].
  split; [reflexivity|]. eexists. eexists.
  split; [apply dict_get_set_same|]. cbn.
  split; [reflexivity|]. split; [reflexivity|].
  split; [apply dict_get_set_same|]. split.
  - intros key Hkey. rewrite dict_get_set_other by assumption.
    now destruct (metadata T) as [[|e m]|].
  - split; [repeat split|]. split; [reflexivity|]. split; [reflexivity|].
    split; [|split; [|split; [|reflexivity]]].
    + intros k T0 Hk HT0. exists T0.
      split; [rewrite dict_get_set_other; assumption|].
      repeat split.
    + destruct (metadata T) as [[|e m]|]; [|exact I|];
        intros k Hk; now apply dict_get_set_other.
    + apply dict_keys_set_present. eapply dict_mem_of_get; eauto.
Qed.

Lemma fail_task_spec_witness :
  let p := run_calls [CallCreate "t0" "Design" "d" MEDIUM None "generic" None
                                 (Some [("owner", PyStr "ann")]);
                      CallStart "task_0000";
                      CallComplete "t1" "task_0000" None] init in
  fst (fail_task "task_0000" "late" p) = true.
Proof.
  intros p.
  assert (HT : dict_get "task_0000" (tasks p)
               = Some (mkTask "task_0000" "Design" "d" COMPLETED MEDIUM []
                              "generic" None None (Some "t0") (Some "t1")
                              (Some [("owner", PyStr "ann")])))
    by reflexivity.
  apply (fail_task_spec p "task_0000" "late" _ HT).
Defined.

(** X4.  An identifier the planner does not hold is refused without an
    exception and without any change: [start_task], [complete_task] and
    [fail_task] return false and leave the planner as it is, and
    [get_task_by_id] returns nothing. *)
Theorem unknown_task_id_refused (p : planner) (task_id : string) :
  dict_get task_id (tasks p) = None ->
  start_task task_id p = (false, p)
  /\ (forall now a, complete_task now task_id a p = (false, p))
  /\ (forall reason, fail_task task_id reason p = (false, p))
  /\ get_task_by_id task_id p = None.
Proof.
  intros H. unfold start_task, complete_task, fail_task, get_task_by_id.
  rewrite H. repeat split.
Qed.

Lemma unknown_task_id_refused_witness :
  start_task "task_0042" init = (false, init).
Proof.
  apply (unknown_task_id_refused init "task_0042"). reflexivity.
Defined.

(** X5.  On a planner built by calls, [create_task] returns an
    identifier that was not in use, stores under it a PENDING task with
    the given fields and no completion time, leaves every task already
    stored as it was, and advances the counter by one.  The dependencies
    are stored as given: an identifier that names no task is accepted. *)
Theorem create_task_spec (cs : list planner_call)
    (now ti de : string) (pr : TaskPriority) (deps : list string)
    (ty : string) (est : option Z) (md : option (list (string * pyval))) :
  let p := run_calls cs init in
  let r := create_task now ti de pr (Some deps) ty est md p in
  dict_get (fst r) (tasks p) = None
  /\ dict_get (fst r) (tasks (snd r))
     = Some (mkTask (fst r) ti de PENDING pr deps ty est None (Some now)
                    None md)
  /\ (forall k T, dict_get k (tasks p) = Some T ->
        dict_get k (tasks (snd r)) = Some T)
  /\ dict_keys (tasks (snd r)) = dict_keys (tasks p) ++ [fst r]
  /\ task_counter (snd r) = S (task_counter p).
Proof.
  intros p r.
  pose proof (planner_ok_calls cs init planner_ok_init) as (Hwf & _).
  fold p in Hwf.
  destruct (create_task_fresh now ti de pr (Some deps) ty est md p Hwf)
    as (Hid & Htasks & Hcnt & _).
  fold r in Hid, Htasks, Hcnt.
  assert (Hfresh : dict_get (fst r) (tasks p) = None)
    by (rewrite Hid; now apply planner_wf_fresh).
  split; [exact Hfresh|]. rewrite Htasks, Hid in *. split.
  - rewrite dict_get_app_fresh by assumption. simpl.
    rewrite String.eqb_refl. now destruct deps.
  - split; [intros k T HT; now apply dict_get_app_found|].
    split; [|exact Hcnt]. unfold dict_keys. now rewrite map_app.
Qed.

(** X6.  On a planner built by calls, [clear_completed_tasks] removes
    exactly the COMPLETED tasks and keeps the others as they are and in
    their order; the counter is not moved back, so the next task created
    gets an identifier that no task ever had, a removed task included. *)
Theorem clear_completed_tasks_spec (cs : list planner_call) :
  let p := run_calls cs init in
  let q := clear_completed_tasks p in
  tasks q
  = filter (fun kt => negb (status_eqb (status (snd kt)) COMPLETED)) (tasks p)
  /\ (forall k T, dict_get k (tasks q) = Some T -> status T <> COMPLETED)
  /\ (forall k T, dict_get k (tasks p) = Some T -> status T <> COMPLETED ->
        dict_get k (tasks q) = Some T)
  /\ task_counter q = task_counter p
  /\ ~ In (task_id_of (task_counter q)) (dict_keys (tasks p)).
Proof.
  intros p q.
  pose proof (planner_ok_calls cs init planner_ok_init) as (Hwf & Hnd & _).
  fold p in Hwf, Hnd.
  assert (Hq : tasks q
               = filter (fun kt => negb (status_eqb (status (snd kt)) COMPLETED))
                        (tasks p))
    by now apply clear_completed_tasks_filter.
  split; [exact Hq|]. split; [|split; [|split]].
  - intros k T HT Hs. rewrite Hq in HT. apply dict_get_In in HT.
    apply filter_In in HT. destruct HT as [_ Hf]. simpl in Hf.
    rewrite Hs in Hf. discriminate.
  - intros k T HT Hs. rewrite Hq, (dict_get_filter _ k T _ Hnd HT).
    cbn [snd]. destruct (status_eqb (status T) COMPLETED) eqn:E;
      [|reflexivity].
    apply status_eqb_eq in E. contradiction.
  - reflexivity.
  - intros Hin. destruct (Hwf _ Hin) as (n & Hn & Hlt).
    apply task_id_of_inj in Hn. simpl in Hn. lia.
Qed.

(** X7.  On a planner built by calls, once [clear_completed_tasks] has
    removed a COMPLETED task, a task that depends on it can no longer be
    started: the dependency names no task, and [start_task] returns
    false and changes nothing. *)
Theorem clear_completed_tasks_strands_dependents (cs : list planner_call)
    (task_id dep : string) (T D : Task) :
  let p := run_calls cs init in
  dict_get task_id (tasks p) = Some T ->
  In dep (dependencies T) ->
  dict_get dep (tasks p) = Some D ->
  status D = COMPLETED ->
  start_task task_id (clear_completed_tasks p)
  = (false, clear_completed_tasks p).
Proof.
  intros p HT Hdep HD HsD.
  pose proof (planner_ok_calls cs init planner_ok_init) as (Hwf & Hnd & _).
  fold p in Hwf, Hnd.
  assert (HDq : dict_get dep (tasks (clear_completed_tasks p)) = None).
  { rewrite clear_completed_tasks_filter by assumption.
    rewrite (dict_get_filter _ dep D _ Hnd HD). cbn [snd].
    now rewrite HsD. }
  unfold start_task.
  destruct (dict_get task_id (tasks (clear_completed_tasks p))) as [T'|] eqn:E;
    [|reflexivity].
  assert (T' = T) as ->.
  { rewrite clear_completed_tasks_filter in E by assumption.
    rewrite (dict_get_filter _ task_id T _ Hnd HT) in E.
    destruct (negb _); congruence. }
  destruct (negb (status_eqb (status T) PENDING)); [reflexivity|].
  destruct (_are_dependencies_completed _ _) eqn:Hd; [|reflexivity].
  exfalso.
  destruct (proj1 (dependencies_completed_iff _ _) Hd dep Hdep) as (D' & HD' & _).
  congruence.
Qed.

Lemma clear_completed_tasks_strands_dependents_witness :
  let p := run_calls [CallPlan (fun _ => "now") "a shop";
                      CallStart "task_0000";
                      CallComplete "t1" "task_0000" None] init in
  start_task "task_0001" (clear_completed_tasks p)
  = (false, clear_completed_tasks p).
Proof.
  intros p.
  apply (clear_completed_tasks_strands_dependents _ "task_0001" "task_0000"
           (mkTask "task_0001" "Architecture Design"
                   "Design the system architecture for: a shop"
                   PENDING HIGH ["task_0000"] "architecture_design"
                   (Some 60%Z) None (Some "now") None None)
           (mkTask "task_0000" "Requirements Analysis"
                   "Analyze and clarify the requirements for: a shop"
                   COMPLETED HIGH [] "requirements_analysis" (Some 60%Z)
                   None (Some "now") (Some "t1") None)).
  - reflexivity.
  - left. reflexivity.
  - reflexivity.
  - reflexivity.
Defined.

(** ** Counts, order and readiness *)

Lemma count_status_partition (l : list Task) :
  List.length l
  = List.length (filter (fun t => status_eqb (status t) COMPLETED) l)
    + List.length (filter (fun t => status_eqb (status t) IN_PROGRESS) l)
    + List.length (filter (fun t => status_eqb (status t) FAILED) l)
    + List.length (filter (fun t => status_eqb (status t) PENDING) l)
    + List.length (filter (fun t => status_eqb (status t) BLOCKED) l).
Proof.
  induction l as [|t l IH]; [reflexivity|].
  cbn [filter List.length]. destruct (status t); cbn [status_eqb List.length]; lia.
Qed.

(** X8.  For a planner built by calls that holds at least one task, the
    four counts that [get_task_progress] reports, completed,
    in_progress, failed and pending, add up to the total it reports:
    every task is counted exactly once. *)
Theorem progress_counts_add_up (cs : list planner_call) :
  let p := run_calls cs init in
  tasks p <> [] ->
  exists total completed in_progress failed pending : nat,
    dict_get "total_tasks" (get_task_progress p) = Some (PyInt (Z.of_nat total))
    /\ dict_get "completed" (get_task_progress p)
       = Some (PyInt (Z.of_nat completed))
    /\ dict_get "in_progress" (get_task_progress p)
       = Some (PyInt (Z.of_nat in_progress))
    /\ dict_get "failed" (get_task_progress p) = Some (PyInt (Z.of_nat failed))
    /\ dict_get "pending" (get_task_progress p)
       = Some (PyInt (Z.of_nat pending))
    /\ total = completed + in_progress + failed + pending
    /\ total = List.length (tasks p).
Proof.
  intros p Hne.
  pose proof (planner_ok_calls cs init planner_ok_init) as (_ & _ & Hall).
  fold p in Hall.
  exists (List.length (tasks p)), (count_status COMPLETED p),
    (count_status IN_PROGRESS p), (count_status FAILED p),
    (count_status PENDING p).
  assert (Ht : (List.length (tasks p) =? 0)%nat = false).
  { apply Nat.eqb_neq. destruct (tasks p); [congruence | simpl; lia]. }
  unfold get_task_progress. rewrite Ht.
  do 5 (split; [reflexivity|]). split; [|reflexivity].
  unfold count_status, dict_values.
  pose proof (count_status_partition (map snd (tasks p))) as Hp.
  rewrite length_map in Hp.
  assert (Hb : filter (fun t => status_eqb (status t) BLOCKED)
                      (map snd (tasks p)) = []).
  { clear - Hall. induction Hall as [|kt l [_ Hs] _ IH]; [reflexivity|].
    simpl. destruct (status_eqb (status (snd kt)) BLOCKED) eqn:E; [|exact IH].
    apply status_eqb_eq in E. contradiction. }
  rewrite Hb in Hp. simpl in Hp. lia.
Qed.

Lemma progress_counts_add_up_witness :
  exists total completed in_progress failed pending : nat,
    dict_get "total_tasks"
      (get_task_progress
         (run_calls [CallPlan (fun _ => "now") "a shop"; CallStart "task_0000"]
                    init))
    = Some (PyInt (Z.of_nat total))
    /\ total = completed + in_progress + failed + pending.
Proof.
  destruct (progress_counts_add_up
              [CallPlan (fun _ => "now") "a shop"; CallStart "task_0000"])
    as (t & c & i & f & pe & H1 & _ & _ & _ & _ & H6 & _).
  - discriminate.
  - exists t, c, i, f, pe. now split.
Defined.

Lemma priority_eqb_eq a b : priority_eqb a b = true <-> a = b.
Proof. destruct a, b; simpl; split; congruence. Qed.

(** Inserting a task moves no task past another of the same priority. *)
Lemma insert_desc_filter pr x l :
  filter (fun t => priority_eqb pr (priority t)) (insert_desc x l)
  = filter (fun t => priority_eqb pr (priority t)) (x :: l).
Proof.
  induction l as [|y l IH]; [reflexivity|].
  cbn [insert_desc]. rewrite priority_value_ltb.
  destruct (value_rank (priority x) <? value_rank (priority y))%nat eqn:E;
    [|reflexivity].
  apply Nat.ltb_lt in E.
  cbn [filter] in *. rewrite IH.
  destruct (priority_eqb pr (priority x)) eqn:Ex;
    destruct (priority_eqb pr (priority y)) eqn:Ey; try reflexivity.
  apply priority_eqb_eq in Ex, Ey. rewrite <- Ex, <- Ey in E. lia.
Qed.

(** X9.  [get_ready_tasks] returns the PENDING tasks whose dependencies
    are all COMPLETED, each once per entry; they come ordered by the
    text of their priority value, descending, which puts MEDIUM first,
    then LOW, HIGH and CRITICAL; and tasks of the same priority keep the
    order in which the planner stores them, the order of creation. *)
Theorem get_ready_tasks_spec (p : planner) :
  Permutation (get_ready_tasks p) (ready_in_creation_order p)
  /\ (forall t, In t (get_ready_tasks p) <->
        In t (dict_values (tasks p))
        /\ status t = PENDING
        /\ forall dep, In dep (dependencies t) ->
             exists D, dict_get dep (tasks p) = Some D /\ status D = COMPLETED)
  /\ StronglySorted
       (fun a b => value_rank (priority b) <= value_rank (priority a))
       (get_ready_tasks p)
  /\ forall pr,
       filter (fun t => priority_eqb pr (priority t)) (get_ready_tasks p)
       = filter (fun t => priority_eqb pr (priority t))
                (ready_in_creation_order p).
Proof.
  assert (Hperm : Permutation (get_ready_tasks p) (ready_in_creation_order p))
    by apply sorted_by_priority_value_desc_perm.
  split; [exact Hperm|]. split; [|split].
  - intros t. split.
    + intros Hin. apply (Permutation_in _ Hperm) in Hin.
      apply filter_In in Hin. destruct Hin as [Hin Hf].
      apply andb_true_iff in Hf. destruct Hf as [Hs Hd].
      split; [exact Hin|]. split; [now apply status_eqb_eq|].
      now apply dependencies_completed_iff.
    + intros (Hin & Hs & Hd).
      apply (Permutation_in _ (Permutation_sym Hperm)).
      apply filter_In. split; [exact Hin|].
      apply andb_true_iff. split; [now apply status_eqb_eq|].
      now apply dependencies_completed_iff.
  - unfold get_ready_tasks, sorted_by_priority_value_desc.
    induction (filter _ _) as [|x l IH]; simpl; [constructor|].
    now apply insert_desc_sorted.
  - intros pr. unfold get_ready_tasks, ready_in_creation_order,
      sorted_by_priority_value_desc.
    induction (filter _ (dict_values (tasks p))) as [|x l IH];
      [reflexivity|].
    cbn [fold_right]. rewrite insert_desc_filter. cbn [filter].
    now rewrite IH.
Qed.

(** In a chain every task after the first waits for a PENDING task. *)
Lemma chain_waits (p : planner) :
  forall new previous T0,
    dict_get previous (tasks p) = Some T0 ->
    status T0 = PENDING ->
    depends_on (Some previous) = [previous] ->
    (forall k T, In (k, T) new -> dict_get k (tasks p) = Some T) ->
    Forall (fun kt => status (snd kt) = PENDING
                      /\ depends_on (Some (fst kt)) = [fst kt]) new ->
    map (fun kt => dependencies (snd kt)) new
    = chain_from (Some previous) (dict_keys new) ->
    forall k T, In (k, T) new ->
      _are_dependencies_completed p (dependencies T) = false.
Proof.
  induction new as [|[k1 T1] new IH];
    intros previous T0 H0 Hs0 Hne Hget Hall Hch k T Hin; [destruct Hin|].
  inversion Hall as [|? ? [Hs1 Hne1] Hall']; subst.
  cbn [map chain_from dict_keys fst snd] in Hch, Hs1, Hne1.
  injection Hch as Hd1 Hch.
  destruct Hin as [[= <- <-]|Hin].
  - unfold depends_on in Hne. rewrite Hd1, Hne. simpl.
    rewrite H0, Hs0. reflexivity.
  - exact (IH k1 T1 (Hget _ _ (or_introl eq_refl)) Hs1 Hne1
              (fun k' T' H => Hget k' T' (or_intror H)) Hall' Hch k T Hin).
Qed.

(** X10.  On a planner built by calls, right after
    [plan_from_requirement] only the head of the new chain can be
    started: [start_task] succeeds on the first identifier returned and
    returns false, changing nothing, on each of the seven others. *)
Theorem planned_chain_starts_at_head (cs : list planner_call)
    (clock : nat -> string) (r : string) :
  let p := run_calls cs init in
  let ids := fst (plan_from_requirement clock r p) in
  let q := snd (plan_from_requirement clock r p) in
  exists first rest,
    ids = first :: rest
    /\ List.length rest = 7
    /\ fst (start_task first q) = true
    /\ forall k, In k rest -> start_task k q = (false, q).
Proof.
  intros p ids q.
  pose proof (planner_ok_calls cs init planner_ok_init) as (Hwf & _).
  fold p in Hwf.
  destruct (plan_loop_spec clock r phases None [] p Hwf)
    as (new & Hrun & Hkeys & Hdeps & _ & Hall).
  assert (Hids : ids = dict_keys new)
    by (subst ids; unfold plan_from_requirement; now rewrite Hrun).
  assert (Hq : tasks q = tasks p ++ new)
    by (subst q; unfold plan_from_requirement; now rewrite Hrun).
  assert (Hget : forall k T, In (k, T) new -> dict_get k (tasks q) = Some T).
  { intros k T Hin. rewrite Hq, dict_get_app_fresh.
    - apply dict_get_of_In; [|exact Hin]. rewrite Hkeys.
      apply task_id_of_NoDup.
    - assert (Hk : In k (dict_keys new))
        by (change k with (fst (k, T)); now apply in_map).
      rewrite Hkeys in Hk. apply in_map_iff in Hk.
      destruct Hk as (n & <- & Hn). apply in_seq in Hn.
      apply planner_wf_fresh; [exact Hwf | lia]. }
  assert (Hform : Forall (fun kt => status (snd kt) = PENDING
                                    /\ depends_on (Some (fst kt)) = [fst kt])
                         new).
  { rewrite Forall_forall in *. intros [k T] Hin.
    split; [exact (proj2 (Hall _ Hin))|].
    assert (Hk : In k (dict_keys new))
      by (change k with (fst (k, T)); now apply in_map).
    rewrite Hkeys in Hk. apply in_map_iff in Hk.
    destruct Hk as (n & <- & _). reflexivity. }
  destruct new as [|[k0 T0] new]; [discriminate|].
  exists k0, (dict_keys new). split; [exact Hids|].
  inversion Hform as [|? ? [Hs0 Hne0] Hform']; subst x l.
  cbn [map chain_from dict_keys fst snd] in Hs0, Hne0, Hdeps.
  injection Hdeps as Hd0 Hdeps.
  split.
  { apply (f_equal (@List.length _)) in Hkeys.
    unfold dict_keys in Hkeys |- *.
    rewrite !length_map, length_seq in Hkeys. rewrite length_map.
    simpl in Hkeys. lia. }
  split.
  - unfold start_task. rewrite (Hget k0 T0) by now left.
    rewrite Hs0, Hd0. reflexivity.
  - intros k Hk. unfold dict_keys in Hk. apply in_map_iff in Hk.
    destruct Hk as ([k' T] & Hfst & Hin). simpl in Hfst. subst k'.
    unfold start_task. rewrite (Hget k T) by now right.
    rewrite (chain_waits q new k0 T0 (Hget _ _ (or_introl eq_refl)) Hs0 Hne0
               (fun k' T' H => Hget k' T' (or_intror H)) Hform' Hdeps k T Hin).
    now destruct (negb _).
Qed.

(** ** The retry decorator *)

Section RetryFacts.
Import Retry.
Context {X St A : Type}.
Variables (base_delay max_delay : float).
Variable func : St -> (exn X + A) * St.

Lemma always_fails_through n s : always_fails func -> fails_through func n s.
Proof. intros H k _. apply H. Qed.

Lemma fails_through_head n s :
  fails_through func (S n) s -> exists e, fst (func s) = inl e.
Proof. intros H. apply (H 1). lia. Qed.

Lemma fails_through_tail n s :
  fails_through func (S n) s -> fails_through func n (snd (func s)).
Proof.
  intros H k Hk. destruct (H (S k)) as [e He]; [lia|].
  exists e. unfold attempt_outcome in *.
  destruct k as [|k]; [lia|]. simpl in *.
  now rewrite Nat.sub_0_r in *.
Qed.

Lemma attempt_outcome_S n s :
  attempt_outcome func (S (S n)) s
  = attempt_outcome func (S n) (snd (func s)).
Proof.
  unfold attempt_outcome. simpl. now rewrite Nat.sub_0_r.
Qed.

Lemma float_of_pow2_small a :
  a < 1024 ->
  float_of_pow2 a = Some (Z.ldexp PrimFloat.one (Z.of_nat a)).
Proof.
  intros Ha. unfold float_of_pow2.
  assert (H : (Z.of_nat a <? 1024)%Z = true) by (apply Z.ltb_lt; lia).
  now rewrite H.
Qed.

(** The loop of the wrapper when every remaining attempt fails: the
    last outcome is re-raised, and before each attempt but the first
    the loop sleeps the delay of the attempt. *)
Lemma attempts_failing max_retries :
  max_retries <= 1025 ->
  forall remaining attempt last s,
    attempt + S remaining = max_retries ->
    fails_through func (S remaining) s ->
    attempts max_retries base_delay max_delay func (S remaining) attempt
             last s
    = (attempt_outcome func (S remaining) s,
       state_after func (S remaining) s,
       Invoked ::
       flat_map (fun k => [Slept (backoff_delay base_delay max_delay k);
                           Invoked])
                (seq (attempt + 2) remaining)).
Proof.
  intros Hmax. induction remaining as [|r IH]; intros attempt last s Hn Hf.
  - destruct (fails_through_head _ _ Hf) as [e He].
    unfold attempt_outcome. cbn [attempts state_after Nat.sub].
    destruct (func s) as [res s'] eqn:E. simpl in He. subst res.
    assert (Hlast : (attempt =? max_retries - 1)%nat = true)
      by (apply Nat.eqb_eq; lia).
    rewrite Hlast. reflexivity.
  - destruct (fails_through_head _ _ Hf) as [e He].
    pose proof (fails_through_tail _ _ Hf) as Hf'.
    assert (Hlast : (attempt =? max_retries - 1)%nat = false)
      by (apply Nat.eqb_neq; lia).
    assert (Hstep :
              attempts max_retries base_delay max_delay func (S (S r))
                       attempt last s
              = let '(res, s2, evs) :=
                  attempts max_retries base_delay max_delay func (S r)
                           (S attempt) (Some e) (snd (func s)) in
                (res, s2,
                 Invoked
                 :: Slept (backoff_delay base_delay max_delay (attempt + 2))
                 :: evs)).
    { cbn [attempts]. destruct (func s) as [res s'] eqn:E.
      simpl in He. subst res.
      rewrite Hlast, float_of_pow2_small by lia.
      unfold backoff_delay. replace (attempt + 2 - 2) with attempt by lia.
      reflexivity. }
    rewrite Hstep, (IH (S attempt) (Some e) (snd (func s)))
      by (assumption || lia).
    rewrite attempt_outcome_S. cbn [state_after seq flat_map app].
    now replace (S attempt + 2) with (S (attempt + 2)) by lia.
Qed.

(** The wrapper on an operation that fails at each of its
    [max_retries] attempts. *)
Lemma retry_exhausted max_retries s :
  1 <= max_retries <= 1025 ->
  fails_through func max_retries s ->
  retry_with_backoff max_retries base_delay max_delay func s
  = (attempt_outcome func max_retries s,
     state_after func max_retries s,
     failing_trace base_delay max_delay max_retries).
Proof.
  intros [Hlo Hhi] Hf. unfold retry_with_backoff, failing_trace.
  destruct max_retries as [|n]; [lia|].
  now rewrite (attempts_failing (S n)) by (assumption || lia).
Qed.

Lemma invocations_failing_trace n :
  invocations (failing_trace base_delay max_delay n) = n.
Proof.
  destruct n as [|n]; [reflexivity|]. unfold failing_trace. simpl. f_equal.
  generalize 2. induction n as [|n IH]; intros a; simpl; [reflexivity|].
  now rewrite IH.
Qed.

Lemma delay_before_sleeps n :
  forall a j prev,
    1 <= j <= n ->
    delay_before_from prev j
      (flat_map (fun k => [Slept (backoff_delay base_delay max_delay k);
                           Invoked])
                (seq a n))
    = Some (backoff_delay base_delay max_delay (a + j - 1)).
Proof.
  induction n as [|n IH]; intros a j prev Hj; [lia|].
  destruct j as [|[|j]]; [lia| |]; simpl.
  - now replace (a + 1 - 1) with a by lia.
  - rewrite IH by lia. do 2 f_equal; lia.
Qed.

Lemma delay_before_failing_trace n k :
  2 <= k <= n ->
  delay_before k (failing_trace base_delay max_delay n)
  = Some (backoff_delay base_delay max_delay k).
Proof.
  intros Hk. destruct n as [|n]; [lia|].
  unfold delay_before, failing_trace. cbn [delay_before_from].
  destruct k as [|[|k]]; [lia|lia|].
  rewrite delay_before_sleeps by lia. do 2 f_equal; lia.
Qed.
End RetryFacts.

(** C3, as stated, fails from 1026 attempts on: the delay after the
    1025th failure needs [2 ** 1024] as a float, the conversion raises
    [OverflowError], and that error leaves the wrapper in place of the
    operation's, after 1025 awaits. *)
Lemma retry_1026_attempts_overflow :
  Retry.always_fails Retry.failing_op
  /\ fst (fst (Retry.retry_with_backoff 1026 1%float 60%float
                                        Retry.failing_op 0))
     = inl OverflowError
  /\ Retry.attempt_outcome Retry.failing_op 1026 0 = inl (Raised 1025)
  /\ Retry.invocations
       (snd (Retry.retry_with_backoff 1026 1%float 60%float
                                      Retry.failing_op 0))
     = 1025.
Proof.
  split; [intros s; eexists; reflexivity|].
  split; [vm_compute; reflexivity|].
  split; vm_compute; reflexivity.
Qed.

(** X14.  For [max_retries = N] with [1 <= N <= 1025], any
    [base_delay] and [max_delay], and an operation that fails on every
    attempt, the wrapper awaits the operation exactly [N] times, raises
    the error of the [N]-th attempt, and sleeps before each attempt [k],
    [2 <= k <= N], the delay [min(base_delay * 2^(k-2), max_delay)]; it
    sleeps at no other time. *)
Theorem retry_with_backoff_always_failing {X St A : Type}
    (N : nat) (base_delay max_delay : float)
    (func : St -> (exn X + A) * St) (s : St) :
  1 <= N <= 1025 ->
  Retry.always_fails func ->
  let r := Retry.retry_with_backoff N base_delay max_delay func s in
  Retry.invocations (snd r) = N
  /\ (exists e, Retry.attempt_outcome func N s = inl e /\ fst (fst r) = inl e)
  /\ snd (fst r) = Retry.state_after func N s
  /\ snd r = Retry.failing_trace base_delay max_delay N
  /\ forall k, 2 <= k <= N ->
       Retry.delay_before k (snd r)
       = Some (Retry.backoff_delay base_delay max_delay k).
Proof.
  intros HN Hfail r. subst r.
  rewrite (retry_exhausted base_delay max_delay func N s HN)
    by now apply always_fails_through.
  cbn [fst snd]. split; [apply invocations_failing_trace|].
  split.
  - destruct (always_fails_through func N s Hfail N) as [e He]; [lia|].
    exists e. now split.
  - repeat split. intros k Hk. now apply delay_before_failing_trace.
Qed.

Lemma retry_with_backoff_always_failing_witness :
  Retry.invocations
    (snd (Retry.retry_with_backoff 4 1%float 60%float Retry.failing_op 0))
  = 4.
Proof.
  apply (retry_with_backoff_always_failing 4 1%float 60%float
                                           Retry.failing_op 0).
  - lia.
  - intros s. eexists. reflexivity.
Defined.

(** ** More on the retry decorator *)

Section RetryMoreFacts.
Import Retry.
Context {X St A : Type}.
Variables (base_delay max_delay : float).
Variable func : St -> (exn X + A) * St.

(** Whatever the wrapped function does, the loop awaits it at most once
    per remaining iteration, sleeps once less than it awaits when it
    awaits at all, and leaves the state the awaits produced. *)
Lemma attempts_bounds max_retries :
  forall remaining attempt last s,
    attempt + remaining = max_retries ->
    let r := attempts max_retries base_delay max_delay func remaining attempt
                      last s in
    invocations (snd r) <= remaining
    /\ (1 <= remaining -> 1 <= invocations (snd r))
    /\ sleeps (snd r) = invocations (snd r) - 1
    /\ snd (fst r) = state_after func (invocations (snd r)) s.
Proof.
  induction remaining as [|n IH]; intros attempt last s Hn.
  - simpl. repeat split; lia.
  - cbn [attempts]. destruct (func s) as [[e|a] s'] eqn:E.
    + destruct (attempt =? max_retries - 1)%nat eqn:Hlast.
      * simpl. rewrite E. repeat split; lia.
      * apply Nat.eqb_neq in Hlast.
        destruct (float_of_pow2 attempt) as [pow|].
        -- assert (Hn' : S attempt + n = max_retries) by lia.
           specialize (IH (S attempt) (Some e) s' Hn').
           destruct (attempts _ _ _ _ n (S attempt) (Some e) s')
             as [[r s''] evs].
           cbn [fst snd invocations sleeps state_after] in *.
           rewrite E. cbn [snd].
           destruct IH as (H1 & H2 & H3 & H4).
           assert (1 <= invocations evs) by (apply H2; lia).
           repeat split; try lia. exact H4.
        -- simpl. rewrite E. repeat split; lia.
    + simpl. rewrite E. repeat split; lia.
Qed.

(** Every delay the loop sleeps is a minimum with [max_delay]. *)
Lemma attempts_delays max_retries :
  forall remaining attempt last s,
    Forall (fun d => exists x, d = py_min x max_delay)
           (delays (snd (attempts max_retries base_delay max_delay func
                                  remaining attempt last s))).
Proof.
  induction remaining as [|n IH]; intros attempt last s; [constructor|].
  cbn [attempts]. destruct (func s) as [[e|a] s'].
  - destruct (attempt =? max_retries - 1)%nat; [constructor|].
    destruct (float_of_pow2 attempt) as [pow|]; [|constructor].
    specialize (IH (S attempt) (Some e) s').
    destruct (attempts _ _ _ _ n (S attempt) (Some e) s') as [[r s''] evs].
    cbn [fst snd delays] in *. constructor; [|exact IH]. eauto.
  - constructor.
Qed.

(** The loop when the first [j] of the remaining attempts fail and the
    next one returns. *)
Lemma attempts_until max_retries a :
  forall j remaining attempt last s,
    attempt + remaining = max_retries ->
    j < remaining ->
    attempt + j <= 1024 ->
    fails_through func j s ->
    attempt_outcome func (S j) s = inr a ->
    attempts max_retries base_delay max_delay func remaining attempt last s
    = (inr a, state_after func (S j) s,
       Invoked ::
       flat_map (fun k => [Slept (backoff_delay base_delay max_delay k);
                           Invoked])
                (seq (attempt + 2) j)).
Proof.
  induction j as [|j IH]; intros remaining attempt last s Hn Hj Hpow Hf Hok;
    (destruct remaining as [|n]; [lia|]).
  - unfold attempt_outcome in Hok. cbn [attempts state_after Nat.sub] in *.
    destruct (func s) as [res s']. simpl in Hok. now subst res.
  - destruct (fails_through_head func _ _ Hf) as [e He].
    pose proof (fails_through_tail func _ _ Hf) as Hf'.
    rewrite attempt_outcome_S in Hok.
    assert (Hlast : (attempt =? max_retries - 1)%nat = false)
      by (apply Nat.eqb_neq; lia).
    cbn [attempts]. destruct (func s) as [res s'] eqn:E.
    simpl in He, Hf', Hok. subst res.
    rewrite Hlast, float_of_pow2_small by lia.
    rewrite (IH n (S attempt) (Some e) s') by (assumption || lia).
    cbn [state_after seq flat_map app]. rewrite E. cbn [snd].
    unfold backoff_delay at 2.
    replace (attempt + 2 - 2) with attempt by lia.
    now replace (S attempt + 2) with (S (attempt + 2)) by lia.
Qed.
End RetryMoreFacts.

(** Comparing a float that is not NaN with itself. *)
Lemma SFcompare_refl x :
  x <> S754_nan -> SFcompare x x = Some Eq.
Proof.
  destruct x as [s|s| |s m e]; simpl; intros H; try congruence.
  - now destruct s.
  - rewrite Z.compare_refl.
    assert (Hm : Pos.compare_cont Eq m m = Eq) by apply Pos.compare_refl.
    rewrite Hm. now destruct s.
Qed.

Lemma SFcompare_antisym x y c :
  SFcompare x y = Some c -> SFcompare y x = Some (CompOpp c).
Proof.
  destruct x as [s1|s1| |s1 m1 e1], y as [s2|s2| |s2 m2 e2]; simpl;
    try discriminate;
    try (intros [= <-]; destruct s1; try destruct s2; reflexivity).
  intros [= <-]. f_equal.
  rewrite (Z.compare_antisym e1 e2).
  assert (Hm : Pos.compare_cont Eq m2 m1 = CompOpp (Pos.compare_cont Eq m1 m2))
    by apply Pos.compare_antisym.
  rewrite Hm.
  destruct s1, s2; try reflexivity;
    destruct (e1 ?= e2)%Z; simpl; try reflexivity;
    now destruct (Pos.compare_cont Eq m1 m2).
Qed.

(** [min(x, b)] is at most [b], or it is NaN. *)
Lemma py_min_capped x b :
  is_nan b = false ->
  PrimFloat.leb (py_min x b) b = true \/ is_nan (py_min x b) = true.
Proof.
  unfold is_nan, py_min. intros Hb. apply negb_false_iff in Hb.
  rewrite FloatAxioms.eqb_spec in Hb.
  destruct (PrimFloat.ltb b x) eqn:Hlt.
  - left. rewrite FloatAxioms.leb_spec.
    unfold SFeqb in Hb. unfold SFleb.
    destruct (SFcompare (Prim2SF b) (Prim2SF b)) as [[ | | ]|]; try discriminate.
    reflexivity.
  - rewrite FloatAxioms.ltb_spec in Hlt.
    rewrite FloatAxioms.leb_spec, FloatAxioms.eqb_spec.
    unfold SFltb in Hlt. unfold SFleb, SFeqb.
    destruct (SFcompare (Prim2SF x) (Prim2SF b)) as [c|] eqn:Hc.
    + left. apply SFcompare_antisym in Hc. rewrite Hc in Hlt.
      now destruct c.
    + right. destruct (Prim2SF x) as [s|s| |s m e] eqn:Ex;
        try reflexivity;
        destruct (Prim2SF b) as [s'|s'| |s' m' e']; simpl in Hc, Hb;
        discriminate.
Qed.

(** X11.  Whatever the wrapped function does, the wrapper awaits it at
    most [max_retries] times, and at least once when [max_retries] is
    not zero; it sleeps once less often than it awaits; and the state
    it leaves is the one the awaits produced.  With [max_retries = 0] the function is never awaited and
    the wrapper raises [TypeError], from [raise last_exception] with
    nothing caught. *)
Theorem retry_with_backoff_bounds {X St A : Type}
    (N : nat) (base_delay max_delay : float)
    (func : St -> (exn X + A) * St) (s : St) :
  let r := Retry.retry_with_backoff N base_delay max_delay func s in
  Retry.invocations (snd r) <= N
  /\ (1 <= N -> 1 <= Retry.invocations (snd r))
  /\ sleeps (snd r) = Retry.invocations (snd r) - 1
  /\ snd (fst r) = Retry.state_after func (Retry.invocations (snd r)) s
  /\ (N = 0 -> r = (inl TypeError, s, [])).
Proof.
  intros r. subst r. unfold Retry.retry_with_backoff.
  destruct (attempts_bounds base_delay max_delay func N N 0 None s eq_refl)
    as (H1 & H2 & H3 & H4).
  repeat split; try assumption.
  intros ->. reflexivity.
Qed.

(** X12.  When the wrapped function fails at its first [k - 1] awaits
    and returns at the [k]-th, with [k] within the budget, the wrapper
    returns that value after exactly [k] awaits, having slept
    [min(base_delay * 2^(j-2), max_delay)] before each attempt [j] from
    the second on. *)
Theorem retry_with_backoff_succeeds {X St A : Type}
    (N k : nat) (base_delay max_delay : float)
    (func : St -> (exn X + A) * St) (s : St) (a : A) :
  1 <= k <= N -> k <= 1025 ->
  Retry.fails_through func (k - 1) s ->
  Retry.attempt_outcome func k s = inr a ->
  let r := Retry.retry_with_backoff N base_delay max_delay func s in
  fst (fst r) = inr a
  /\ Retry.invocations (snd r) = k
  /\ snd (fst r) = Retry.state_after func k s
  /\ snd r = Retry.failing_trace base_delay max_delay k
  /\ forall j, 2 <= j <= k ->
       Retry.delay_before j (snd r)
       = Some (Retry.backoff_delay base_delay max_delay j).
Proof.
  intros Hk Hpow Hf Hok r. subst r. unfold Retry.retry_with_backoff.
  destruct k as [|j]; [lia|]. simpl in Hf. rewrite Nat.sub_0_r in Hf.
  rewrite (attempts_until base_delay max_delay func N a j N 0 None s)
    by (assumption || lia).
  cbn [fst snd].
  change (Retry.Invoked
          :: flat_map (fun k => [Retry.Slept
                                   (Retry.backoff_delay base_delay max_delay k);
                                 Retry.Invoked]) (seq (0 + 2) j))
    with (Retry.failing_trace base_delay max_delay (S j)).
  split; [reflexivity|]. split; [apply invocations_failing_trace|].
  split; [reflexivity|]. split; [reflexivity|].
  intros i Hi. now apply delay_before_failing_trace.
Qed.

Lemma retry_with_backoff_succeeds_witness :
  fst (fst (Retry.retry_with_backoff 5 1%float 60%float third_time_lucky 0))
  = inr 2.
Proof.
  apply (retry_with_backoff_succeeds 5 3 1%float 60%float third_time_lucky 0 2).
  - lia.
  - lia.
  - intros k Hk. unfold Retry.attempt_outcome.
    destruct k as [|[|[|k]]]; try lia; eexists; reflexivity.
  - reflexivity.
Defined.

(** X13.  When [max_delay] is not NaN, no sleep of the wrapper is longer
    than [max_delay], whatever the wrapped function does and whatever
    [base_delay] and [max_retries] are: every delay slept is at most
    [max_delay], or is NaN (as when [base_delay] is). *)
Theorem retry_with_backoff_delay_capped {X St A : Type}
    (N : nat) (base_delay max_delay : float)
    (func : St -> (exn X + A) * St) (s : St) :
  is_nan max_delay = false ->
  Forall (fun d => PrimFloat.leb d max_delay = true \/ is_nan d = true)
         (delays (snd (Retry.retry_with_backoff N base_delay max_delay
                                                func s))).
Proof.
  intros Hmax. unfold Retry.retry_with_backoff.
  eapply Forall_impl;
    [|apply (attempts_delays base_delay max_delay func N N 0 None s)].
  intros d [x ->]. now apply py_min_capped.
Qed.

Lemma retry_with_backoff_delay_capped_witness :
  Forall (fun d => PrimFloat.leb d 60%float = true \/ is_nan d = true)
         (delays (snd (Retry.retry_with_backoff 9 1%float 60%float
                                                Retry.failing_op 0))).
Proof.
  apply (retry_with_backoff_delay_capped 9 1%float 60%float Retry.failing_op 0).
  reflexivity.
Defined.

(** ** The executor *)

Section ExecutorFacts.
Import Engine.
Context {X W : Type}.
Variable handler : category -> Task -> W -> (exn X + bool) * W.
Variable _update_progress : string -> Z -> string -> string -> W -> W.
Variable str_of_exn : exn X -> string.
Variable timestamp : W -> string.

#[local] Abbreviation body := (_execute_task_body handler _update_progress str_of_exn).
#[local] Abbreviation exec := (_execute_task handler _update_progress str_of_exn).
#[local] Abbreviation run :=
  (run_tasks handler _update_progress str_of_exn timestamp).

(** The body of [_execute_task] returns whatever its handler does: an
    error of the handler becomes the result false. *)
Lemma execute_task_body_returns task w :
  exists b w', body task w = (inr b, w').
Proof.
  unfold _execute_task_body.
  destruct (handler _ task _) as [[e|b] w2]; eauto.
Qed.

(** Hence the retry layer of [_execute_task] awaits the body once, and
    an error of a handler never reaches it. *)
Lemma execute_task_first_attempt task w :
  _execute_task_retried handler _update_progress str_of_exn task w
  = (fst (body task w), snd (body task w), [Retry.Invoked]).
Proof.
  unfold _execute_task_retried, task_retry, Retry.retry_with_backoff.
  destruct (execute_task_body_returns task w) as (b & w' & E).
  cbn [Retry.attempts]. rewrite E. reflexivity.
Qed.

Lemma execute_task_returns task w : exists b w', exec task w = (inr b, w').
Proof.
  unfold _execute_task. rewrite execute_task_first_attempt.
  destruct (execute_task_body_returns task w) as (b & w' & E).
  rewrite E. simpl. eauto.
Qed.

(** Likewise the body of [build_application] returns a result whatever
    its steps raise, and its retry layer awaits it once. *)
Lemma build_application_first_attempt generate_response add_conversation
    plan_prompt summary_prompt requirement st :
  exists result st',
    build_application handler _update_progress generate_response
                      add_conversation str_of_exn timestamp plan_prompt
                      summary_prompt requirement st
    = (inr result, st', [Retry.Invoked]).
Proof.
  unfold build_application, build_retry, Retry.retry_with_backoff.
  cbn [Retry.attempts]. unfold build_application_body.
  destruct (build_steps _ _ _ _ _ _ _ _ _ _) as [[e|result] st1]; eauto.
Qed.

(** The loop over a plan in two parts. *)
Lemma run_tasks_app pre post :
  forall st,
    run (pre ++ post) st
    = match run pre st with
      | (Finished, st') => run post st'
      | other => other
      end.
Proof.
  induction pre as [|task_id pre IH]; intros st; [reflexivity|].
  rewrite <- app_comm_cons. cbn [run_tasks].
  destruct (get_task_by_id task_id (task_planner st)) as [task|]; [|apply IH].
  destruct (start_task task_id _) as [[|] p1]; [|apply IH].
  destruct (_execute_task _ _ _ _ _) as [[e|[|]] w2]; [reflexivity|apply IH|].
  destruct (priority _); try apply IH; reflexivity.
Qed.

(** One turn of the loop on a task that starts and whose execution
    returns false. *)
Lemma run_tasks_failed task_id rest st T w2 :
  get_task_by_id task_id (task_planner st) = Some T ->
  fst (start_task task_id (task_planner st)) = true ->
  exec (set_status IN_PROGRESS T) (world st) = (inr false, w2) ->
  let failed :=
    mkState (snd (fail_task task_id "Task execution failed"
                            (snd (start_task task_id (task_planner st)))))
            w2
            (log st ++ [LogExecuting (title T); LogTaskFailed (title T)]) in
  run (task_id :: rest) st
  = match priority T with
    | HIGH | CRITICAL => (Stopped, add_log LogCriticalStop failed)
    | _ => run rest failed
    end.
Proof.
  intros HT Hs He failed. subst failed. cbn [run_tasks]. rewrite HT.
  cbn [add_log task_planner world log].
  destruct (start_task task_id (task_planner st)) as [b p1].
  simpl in Hs. subst b. rewrite He.
  unfold add_log. cbn [task_planner world log priority set_status title snd].
  rewrite <- !app_assoc. reflexivity.
Qed.

(** The task that was started is FAILED after [fail_task]. *)
Lemma fail_task_after_start task_id reason p T :
  dict_get task_id (tasks p) = Some T ->
  fst (start_task task_id p) = true ->
  exists T',
    dict_get task_id (tasks (snd (fail_task task_id reason
                                             (snd (start_task task_id p)))))
    = Some T'
    /\ status T' = FAILED /\ priority T' = priority T.
Proof.
  intros HT Hs. unfold start_task in *. rewrite HT in *.
  destruct (negb _); [discriminate|]. destruct (negb _); [discriminate|].
  cbn [snd]. unfold fail_task. cbn [tasks].
  rewrite dict_get_set_same. cbn [snd tasks].
  rewrite dict_get_set_same. eexists. split; [reflexivity|]. now split.
Qed.
End ExecutorFacts.

(** C4.  In the execution of a plan, take a task that is reached (the
    loop has run through the tasks before it), is started, and whose
    execution returns false.  The task ends FAILED.  If its priority is
    HIGH or CRITICAL the loop stops there: whatever tasks follow in the
    plan, none is looked up or started, the planner and the rest of the
    engine stay as the failure left them, and the execution of the plan
    returns false.  If its priority is MEDIUM or LOW the loop goes on
    with the remaining tasks of the plan, from the state the failure
    left. *)
Theorem critical_failure_stops_plan {X W : Type}
    (handler : Engine.category -> Task -> W -> (exn X + bool) * W)
    (_update_progress : string -> Z -> string -> string -> W -> W)
    (str_of_exn : exn X -> string) (timestamp : W -> string)
    (ai requirement : string) (pre post : list string) (task_id : string)
    (st st1 : Engine.state) (T : Task) (w2 : W) :
  Engine.run_tasks handler _update_progress str_of_exn timestamp pre st
  = (Engine.Finished, st1) ->
  get_task_by_id task_id (Engine.task_planner st1) = Some T ->
  fst (start_task task_id (Engine.task_planner st1)) = true ->
  Engine._execute_task handler _update_progress str_of_exn
                       (set_status IN_PROGRESS T) (Engine.world st1)
  = (inr false, w2) ->
  let failed :=
    Engine.mkState
      (snd (fail_task task_id "Task execution failed"
                      (snd (start_task task_id (Engine.task_planner st1)))))
      w2
      (Engine.log st1 ++ [Engine.LogExecuting (title T);
                          Engine.LogTaskFailed (title T)]) in
  (exists T', dict_get task_id (tasks (Engine.task_planner failed)) = Some T'
              /\ status T' = FAILED)
  /\ (priority T = HIGH \/ priority T = CRITICAL ->
        Engine.run_tasks handler _update_progress str_of_exn timestamp
                         (pre ++ task_id :: post) st
        = (Engine.Stopped, Engine.add_log Engine.LogCriticalStop failed)
        /\ Engine._execute_development_plan
             handler _update_progress str_of_exn timestamp
             (Engine.mkPlan ai (pre ++ task_id :: post) requirement) st
           = (inr false, Engine.add_log Engine.LogCriticalStop failed))
  /\ (priority T = MEDIUM \/ priority T = LOW ->
        Engine.run_tasks handler _update_progress str_of_exn timestamp
                         (pre ++ task_id :: post) st
        = Engine.run_tasks handler _update_progress str_of_exn timestamp
                           post failed).
Proof.
  intros Hpre HT Hs He failed.
  pose proof (run_tasks_failed handler _update_progress str_of_exn timestamp
                task_id post st1 T w2 HT Hs He) as Hturn.
  cbv zeta in Hturn. fold failed in Hturn.
  assert (Hrun :
            Engine.run_tasks handler _update_progress str_of_exn timestamp
                             (pre ++ task_id :: post) st
            = match priority T with
              | HIGH | CRITICAL =>
                  (Engine.Stopped, Engine.add_log Engine.LogCriticalStop failed)
              | _ => Engine.run_tasks handler _update_progress str_of_exn
                                      timestamp post failed
              end).
  { rewrite run_tasks_app, Hpre. exact Hturn. }
  split.
  - destruct (fail_task_after_start task_id "Task execution failed"
                (Engine.task_planner st1) T HT Hs) as (T' & HT' & Hst & _).
    exists T'. now split.
  - split.
    + intros Hprio.
      assert (Hstop :
                Engine.run_tasks handler _update_progress str_of_exn timestamp
                                 (pre ++ task_id :: post) st
                = (Engine.Stopped,
                   Engine.add_log Engine.LogCriticalStop failed)).
      { rewrite Hrun. now destruct Hprio as [-> | ->]. }
      split; [exact Hstop|].
      unfold Engine._execute_development_plan. cbn [Engine.plan_tasks].
      destruct (pre ++ task_id :: post) as [|a l] eqn:E.
      * destruct pre; discriminate.
      * now rewrite Hstop.
    + intros Hprio. rewrite Hrun. now destruct Hprio as [-> | ->].
Qed.

Lemma critical_failure_stops_plan_witness :
  Engine.run_tasks counting_handler (fun _ _ _ _ w => w) (fun _ => "error")
                   (fun _ => "now") ([] ++ "task_0000" :: ["task_0001"])
                   (engine_testing_first HIGH)
  = (Engine.Stopped,
     Engine.add_log Engine.LogCriticalStop
       (Engine.mkState
          (snd (fail_task "task_0000" "Task execution failed"
                  (snd (start_task "task_0000" (planner_testing_first HIGH)))))
          1
          [Engine.LogExecuting "Testing"; Engine.LogTaskFailed "Testing"])).
Proof.
  assert (HT : get_task_by_id "task_0000" (planner_testing_first HIGH)
               = Some (mkTask "task_0000" "Testing" "d" PENDING HIGH []
                              "testing" None None (Some "t0") None None))
    by reflexivity.
  apply (critical_failure_stops_plan counting_handler (fun _ _ _ _ w => w)
           (fun _ => "error") (fun _ => "now") "plan" "requirement"
           [] ["task_0001"] "task_0000" (engine_testing_first HIGH)
           (engine_testing_first HIGH) _ 1 eq_refl HT eq_refl eq_refl).
  left. reflexivity.
Defined.

(** ** Executing a chain *)

Lemma depends_on_some k : k <> "" -> depends_on (Some k) = [k].
Proof. destruct k; [congruence | reflexivity]. Qed.

Lemma count_status_set s k T T' (d : list (string * Task)) :
  dict_get k d = Some T ->
  status_eqb (status T') s = status_eqb (status T) s ->
  List.length (filter (fun t => status_eqb (status t) s)
                      (dict_values (dict_set k T' d)))
  = List.length (filter (fun t => status_eqb (status t) s) (dict_values d)).
Proof.
  intros Hget Hs. unfold dict_values.
  induction d as [|[k0 T0] d IH]; [discriminate|].
  cbn [dict_get dict_set] in Hget |- *. destruct (String.eqb k k0).
  - injection Hget as ->. cbn [map snd filter]. rewrite Hs.
    now destruct (status_eqb (status T) s).
  - cbn [map snd filter].
    destruct (status_eqb (status T0) s); cbn [List.length]; auto.
Qed.

Lemma chain_in_tail p prev k T new :
  chain_in p prev ((k, T) :: new) ->
  status T = PENDING /\ k <> "" /\ dependencies T = depends_on prev
  /\ dict_get k (tasks p) = Some T
  /\ ~ In k (dict_keys new)
  /\ chain_in p (Some k) new.
Proof.
  intros (Hnd & Hget & Hall & Hch).
  inversion Hnd as [|? ? Hnotin Hnd']; subst.
  inversion Hall as [|? ? [Hs Hne] Hall']; subst.
  cbn [map chain_from dict_keys fst snd] in Hch. injection Hch as Hd Hch.
  simpl in Hs, Hne. repeat split; auto.
  - apply Hget. now left.
  - intros k' T' Hin. apply Hget. now right.
Qed.

(** Changing the planner outside a chain keeps the chain. *)
Lemma chain_in_same p q prev new :
  chain_in p prev new ->
  (forall k, In k (dict_keys new) -> dict_get k (tasks q) = dict_get k (tasks p)) ->
  chain_in q prev new.
Proof.
  intros (Hnd & Hget & Hall & Hch) Hsame. repeat split; auto.
  intros k T Hin. rewrite Hsame; [now apply Hget|].
  change k with (fst (k, T)). now apply in_map.
Qed.

Section ChainFacts.
Import Engine.
Context {X W : Type}.
Variable handler : category -> Task -> W -> (exn X + bool) * W.
Variable _update_progress : string -> Z -> string -> string -> W -> W.
Variable str_of_exn : exn X -> string.
Variable timestamp : W -> string.

#[local] Abbreviation exec' := (_execute_task handler _update_progress str_of_exn).
#[local] Abbreviation run' :=
  (run_tasks handler _update_progress str_of_exn timestamp).

(** What [_execute_task] returns when the handler returns. *)
Lemma execute_task_of_handler task b :
  (forall c w, fst (handler c task w) = inr b) ->
  forall w, exists w', exec' task w = (inr b, w').
Proof.
  intros Hh w. unfold _execute_task. rewrite execute_task_first_attempt.
  cbn [fst snd]. unfold _execute_task_body.
  specialize (Hh (classify (title task))
                 (_update_progress (title task) 0 "executing"
                    ("Starting " ++ task_type task ++ " task") w)).
  destruct (handler _ task _) as [res w2]. simpl in Hh. subst res. eauto.
Qed.

(** A task of a chain whose predecessor is COMPLETED can be started. *)
Lemma chain_head_starts p prev k T new :
  chain_in p prev ((k, T) :: new) ->
  previous_completed p prev ((k, T) :: new) ->
  start_task k p
  = (true, mkPlanner (dict_set k (set_status IN_PROGRESS T) (tasks p))
                     (task_counter p)).
Proof.
  intros Hc Hp. destruct (chain_in_tail _ _ _ _ _ Hc) as (Hs & _ & Hd & Hget & _).
  unfold start_task. rewrite Hget, Hs, Hd. cbn [status_eqb negb].
  destruct prev as [k0|]; [|reflexivity].
  destruct Hp as (Hne & _ & T0 & H0 & Hs0).
  rewrite depends_on_some by assumption. simpl. rewrite H0, Hs0. reflexivity.
Qed.

(** The tasks of a chain after a task that is not COMPLETED are not
    started: each is looked up, logged, refused by [start_task] and left
    as it is, and no handler runs. *)
Lemma run_chain_blocked :
  forall new previous T0 st,
    chain_in (task_planner st) (Some previous) new ->
    previous <> "" ->
    dict_get previous (tasks (task_planner st)) = Some T0 ->
    status T0 <> COMPLETED ->
    run' (dict_keys new) st
    = (Finished,
       mkState (task_planner st) (world st) (log st ++ log_not_started new)).
Proof.
  induction new as [|[k T] new IH]; intros previous T0 st Hc Hne H0 Hs0.
  - simpl. rewrite app_nil_r. now destruct st.
  - destruct (chain_in_tail _ _ _ _ _ Hc) as (Hs & Hk & Hd & Hget & _ & Hc').
    cbn [dict_keys map fst run_tasks]. unfold get_task_by_id. rewrite Hget.
    cbn [add_log task_planner world log].
    unfold start_task. rewrite Hget, Hs, Hd, depends_on_some by assumption.
    cbn [status_eqb negb _are_dependencies_completed]. rewrite H0.
    assert (Hn : status_eqb (status T0) COMPLETED = false).
    { destruct (status_eqb (status T0) COMPLETED) eqn:E; [|reflexivity].
      apply status_eqb_eq in E. contradiction. }
    rewrite Hn. cbn [negb].
    fold (dict_keys new).
    rewrite (IH k T) by (cbn [task_planner]; auto; rewrite ?Hs; discriminate).
    cbn [task_planner world log add_log]. unfold log_not_started.
    cbn [flat_map fst snd]. now rewrite <- !app_assoc.
Qed.

(** The tasks of a chain whose handlers return true run to completion,
    in order, and leave what follows them in the chain ready to go on. *)
Lemma run_chain_prefix :
  forall done tail prev st,
    chain_in (task_planner st) prev (done ++ tail) ->
    previous_completed (task_planner st) prev (done ++ tail) ->
    (forall k T c w, In (k, T) done ->
       fst (handler c (set_status IN_PROGRESS T) w) = inr true) ->
    exists st',
      run' (dict_keys done) st = (Finished, st')
      /\ log st' = log st ++ log_completed done
      /\ dict_keys (tasks (task_planner st')) = dict_keys (tasks (task_planner st))
      /\ task_counter (task_planner st') = task_counter (task_planner st)
      /\ (forall k T, In (k, T) done ->
            exists T', dict_get k (tasks (task_planner st')) = Some T'
                       /\ status T' = COMPLETED)
      /\ (forall k, ~ In k (dict_keys done) ->
            dict_get k (tasks (task_planner st'))
            = dict_get k (tasks (task_planner st)))
      /\ count_status FAILED (task_planner st')
         = count_status FAILED (task_planner st)
      /\ chain_in (task_planner st') (last_key prev done) tail
      /\ previous_completed (task_planner st') (last_key prev done) tail.
Proof.
  induction done as [|[k T] done IH]; intros tail prev st Hc Hp Hh.
  - exists st. cbn [dict_keys map run_tasks log_completed flat_map last_key
                    fold_left app] in *.
    split; [reflexivity|]. split; [now rewrite app_nil_r|].
    split; [reflexivity|]. split; [reflexivity|].
    split; [intros k T []|]. split; [reflexivity|]. split; [reflexivity|].
    split; assumption.
  - rewrite <- app_comm_cons in Hc, Hp.
    destruct (chain_in_tail _ _ _ _ _ Hc) as (Hs & Hk & Hd & Hget & Hnotin & Hc').
    pose proof (chain_head_starts _ _ _ _ _ Hc Hp) as Hstart.
    destruct (execute_task_of_handler (set_status IN_PROGRESS T) true
                (fun c w => Hh k T c w (or_introl eq_refl))
                (world st)) as [w2 Hexec].
    set (p := task_planner st) in *.
    set (p1 := mkPlanner (dict_set k (set_status IN_PROGRESS T) (tasks p))
                         (task_counter p)) in *.
    set (Tc := set_completed_at (Some (timestamp w2))
                 (set_actual_time None
                    (set_status COMPLETED (set_status IN_PROGRESS T)))).
    set (p2 := mkPlanner (dict_set k Tc (tasks p1)) (task_counter p1)).
    assert (Hcomplete : complete_task (timestamp w2) k None p1 = (true, p2)).
    { unfold complete_task. subst p1. cbn [tasks].
      rewrite dict_get_set_same. reflexivity. }
    set (st2 := mkState p2 w2
                  (log st ++ [LogExecuting (title T);
                              LogTaskCompleted (title T)])).
    assert (Hstep : run' (dict_keys ((k, T) :: done)) st
                    = run' (dict_keys done) st2).
    { cbn [dict_keys map fst run_tasks]. unfold get_task_by_id.
      fold p. rewrite Hget. cbn [add_log task_planner world log]. fold p.
      rewrite Hstart, Hexec, Hcomplete. cbn [snd add_log task_planner world log].
      unfold st2, add_log. cbn [title set_status task_planner world log].
      now rewrite <- app_assoc. }
    assert (Hsame : forall k', k' <> k ->
                      dict_get k' (tasks p2) = dict_get k' (tasks p)).
    { intros k' Hk'. subst p2 p1. cbn [tasks].
      now rewrite !dict_get_set_other. }
    assert (Hkc : dict_get k (tasks p2) = Some Tc)
      by (subst p2; cbn [tasks]; apply dict_get_set_same).
    assert (Hc2 : chain_in (task_planner st2) (Some k) (done ++ tail)).
    { apply (chain_in_same p); [exact Hc'|].
      intros k' Hin. apply Hsame. intros ->. contradiction. }
    assert (Hp2 : previous_completed (task_planner st2) (Some k) (done ++ tail)).
    { cbn [previous_completed]. split; [exact Hk|]. split; [exact Hnotin|].
      exists Tc. now split. }
    destruct (IH tail (Some k) st2 Hc2 Hp2
                 (fun k' T' c w Hin => Hh k' T' c w (or_intror Hin)))
      as (st' & Hrun & Hlog & Hkeys & Hcnt & Hdone & Hother & Hfail & Hct & Hpt).
    assert (Hmem : dict_mem k (tasks p) = true)
      by (eapply dict_mem_of_get; eauto).
    assert (Hmem1 : dict_mem k (tasks p1) = true).
    { subst p1. cbn [tasks]. unfold dict_mem. now rewrite dict_get_set_same. }
    exists st'. rewrite Hstep. split; [exact Hrun|].
    split.
    { rewrite Hlog. unfold st2, log_completed. cbn [log flat_map fst snd].
      now rewrite <- !app_assoc. }
    split.
    { rewrite Hkeys. unfold st2. cbn [task_planner]. subst p2. cbn [tasks].
      rewrite dict_keys_set_present by assumption.
      subst p1. cbn [tasks]. now rewrite dict_keys_set_present. }
    split; [rewrite Hcnt; reflexivity|].
    split.
    { intros k' T' [[= <- <-]|Hin]; [|exact (Hdone _ _ Hin)].
      destruct (in_dec String.string_dec k (dict_keys done)) as [Hin|Hnin].
      - unfold dict_keys in Hin. apply in_map_iff in Hin.
        destruct Hin as ([k' T'] & Hfst & Hin). simpl in Hfst. subst k'.
        exact (Hdone _ _ Hin).
      - rewrite (Hother k Hnin). unfold st2. cbn [task_planner].
        exists Tc. now split. }
    split.
    { intros k' Hk'. cbn [dict_keys map fst] in Hk'.
      rewrite Hother by (intros H; apply Hk'; now right).
      unfold st2. cbn [task_planner]. apply Hsame.
      intros ->. apply Hk'. now left. }
    split; [|split; assumption].
    rewrite Hfail. unfold st2. cbn [task_planner].
    unfold count_status. subst p2. cbn [tasks].
    rewrite (count_status_set FAILED k (set_status IN_PROGRESS T) Tc)
      by (subst p1; cbn [tasks]; try apply dict_get_set_same; reflexivity).
    subst p1. cbn [tasks].
    rewrite (count_status_set FAILED k T (set_status IN_PROGRESS T))
      by (try assumption; cbn [status set_status]; rewrite Hs; reflexivity).
    reflexivity.
Qed.
End ChainFacts.

(** ** Executing a planned chain *)

Lemma count_status_positive s k T p :
  dict_get k (tasks p) = Some T -> status T = s -> 1 <= count_status s p.
Proof.
  intros Hget Hs. unfold count_status.
  assert (Hin : In T (filter (fun t => status_eqb (status t) s)
                             (dict_values (tasks p)))).
  { apply filter_In. split.
    - apply dict_get_In in Hget. change T with (snd (k, T)). now apply in_map.
    - now apply status_eqb_eq. }
  destruct (filter _ _); [destruct Hin | simpl; lia].
Qed.

Lemma get_task_progress_counts p :
  tasks p <> [] ->
  dict_get "failed" (get_task_progress p)
  = Some (PyInt (Z.of_nat (count_status FAILED p)))
  /\ dict_get "completed" (get_task_progress p)
     = Some (PyInt (Z.of_nat (count_status COMPLETED p))).
Proof.
  intros Hne. unfold get_task_progress.
  destruct (tasks p) as [|kt l] eqn:E; [congruence|].
  cbn [List.length Nat.eqb]. split; reflexivity.
Qed.

(** What [plan_from_requirement] adds is a chain with the titles and
    priorities of the phases, and no FAILED task. *)
Lemma plan_is_chain clock r p :
  planner_ok p ->
  exists new,
    plan_from_requirement clock r p
    = (dict_keys new, mkPlanner (tasks p ++ new) (task_counter p + 8))
    /\ chain_in (mkPlanner (tasks p ++ new) (task_counter p + 8)) None new
    /\ map (fun kt => title (snd kt)) new = phase_titles
    /\ map (fun kt => priority (snd kt)) new = map snd phases
    /\ List.length new = 8
    /\ count_status FAILED (mkPlanner (tasks p ++ new) (task_counter p + 8))
       = count_status FAILED p.
Proof.
  intros (Hwf & _).
  destruct (plan_loop_spec clock r phases None [] p Hwf)
    as (new & Hrun & Hkeys & Hdeps & Hshape & Hall).
  exists new. split; [exact Hrun|].
  assert (Hform : forall k T, In (k, T) new ->
                    exists n, k = task_id_of n /\ task_counter p <= n).
  { intros k T Hin.
    assert (Hk : In k (dict_keys new))
      by (change k with (fst (k, T)); now apply in_map).
    rewrite Hkeys in Hk. apply in_map_iff in Hk.
    destruct Hk as (n & <- & Hn). apply in_seq in Hn. exists n.
    split; [reflexivity | lia]. }
  split; [|split; [|split; [|split]]].
  - split; [rewrite Hkeys; apply task_id_of_NoDup|]. split; [|split].
    + intros k T Hin. cbn [tasks]. rewrite dict_get_app_fresh.
      * apply dict_get_of_In; [|exact Hin]. rewrite Hkeys.
        apply task_id_of_NoDup.
      * destruct (Hform k T Hin) as (n & -> & Hn).
        now apply planner_wf_fresh.
    + rewrite Forall_forall in *. intros [k T] Hin.
      split; [exact (proj2 (Hall _ Hin))|].
      destruct (Hform k T Hin) as (n & -> & _). discriminate.
    + exact Hdeps.
  - apply (f_equal (map fst)) in Hshape. rewrite !map_map in Hshape.
    exact Hshape.
  - apply (f_equal (map snd)) in Hshape. rewrite !map_map in Hshape.
    exact Hshape.
  - apply (f_equal (@List.length _)) in Hkeys. unfold dict_keys in Hkeys.
    now rewrite !length_map, length_seq in Hkeys.
  - unfold count_status, dict_values. cbn [tasks].
    rewrite map_app, filter_app, length_app.
    assert (Hnone : filter (fun t => status_eqb (status t) FAILED)
                           (map snd new) = []).
    { clear - Hall. induction Hall as [|kt l [_ Hs] _ IH]; [reflexivity|].
      simpl. rewrite Hs. exact IH. }
    rewrite Hnone. simpl. lia.
Qed.

(** X15.  On an engine whose planner was built by calls and holds no
    FAILED task, executing the plan made for a requirement with
    handlers that all return true completes the eight tasks, in the
    order of the phases, and returns true: each task is started,
    executed and completed before the next is looked at. *)
Theorem planned_chain_completes {X W : Type}
    (handler : Engine.category -> Task -> W -> (exn X + bool) * W)
    (_update_progress : string -> Z -> string -> string -> W -> W)
    (str_of_exn : exn X -> string) (timestamp : W -> string)
    (cs : list planner_call) (clock : nat -> string)
    (r ai : string) (w : W) (lg : list Engine.log_event) :
  (forall c t w', fst (handler c t w') = inr true) ->
  count_status FAILED (run_calls cs init) = 0 ->
  let planned := plan_from_requirement clock r (run_calls cs init) in
  let result :=
    Engine._execute_development_plan
      handler _update_progress str_of_exn timestamp
      (Engine.mkPlan ai (fst planned) r) (Engine.mkState (snd planned) w lg) in
  fst result = inr true
  /\ (forall k, In k (fst planned) ->
        exists T, dict_get k (tasks (Engine.task_planner (snd result))) = Some T
                  /\ status T = COMPLETED)
  /\ Engine.log (snd result)
     = lg ++ flat_map (fun t => [Engine.LogExecuting t;
                                 Engine.LogTaskCompleted t]) phase_titles.
Proof.
  intros Hh Hfailed planned result.
  pose proof (planner_ok_calls cs init planner_ok_init) as Hok.
  destruct (plan_is_chain clock r _ Hok)
    as (new & Hplan & Hchain & Htitles & _ & Hlen & Hcount).
  set (q := mkPlanner (tasks (run_calls cs init) ++ new)
                      (task_counter (run_calls cs init) + 8)) in *.
  assert (Hc : chain_in q None (new ++ [])) by now rewrite app_nil_r.
  destruct (run_chain_prefix handler _update_progress str_of_exn timestamp
              new [] None (Engine.mkState q w lg) Hc I
              (fun k T c w' _ => Hh c _ w'))
    as (st' & Hrun & Hlog & Hkeys & _ & Hdone & _ & Hfail & _).
  cbn [Engine.task_planner Engine.log] in *.
  assert (Hres : result
                 = (inr true, st')).
  { assert (Hsome : exists k0 T0, In (k0, T0) new).
    { destruct new as [|[k0 T0] new']; [discriminate|].
      exists k0, T0. now left. }
    destruct Hsome as (k0 & T0 & Hin0).
    destruct (Hdone k0 T0 Hin0) as (T' & HT' & HsT').
    subst result planned. rewrite Hplan. cbn [fst snd]. fold q.
    unfold Engine._execute_development_plan. cbn [Engine.plan_tasks].
    destruct (dict_keys new) as [|a l] eqn:Ek.
    { unfold dict_keys in Ek. apply (f_equal (@List.length _)) in Ek.
      rewrite length_map, Hlen in Ek. discriminate. }
    rewrite Hrun.
    assert (Hne : tasks (Engine.task_planner st') <> []).
    { intros Hnil. rewrite Hnil in HT'. discriminate. }
    destruct (get_task_progress_counts _ Hne) as [Hf Hcm].
    rewrite Hf, Hcm, Hfail, Hcount, Hfailed. cbn [Z.of_nat Z.eqb].
    pose proof (count_status_positive COMPLETED _ _ _ HT' HsT') as Hpos.
    assert (Hlt : (0 <? Z.of_nat (count_status COMPLETED
                                    (Engine.task_planner st')))%Z = true)
      by (apply Z.ltb_lt; lia).
    now rewrite Hlt. }
  rewrite Hres. cbn [fst snd]. split; [reflexivity|]. split.
  - intros k Hk. subst planned. rewrite Hplan in Hk. cbn [fst] in Hk.
    unfold dict_keys in Hk. apply in_map_iff in Hk.
    destruct Hk as ([k' T] & Hfst & Hin). simpl in Hfst. subst k'.
    exact (Hdone _ _ Hin).
  - rewrite Hlog. f_equal. rewrite <- Htitles. unfold log_completed.
    clear. induction new as [|kt new IH]; [reflexivity|].
    simpl. now rewrite IH.
Qed.

Lemma planned_chain_completes_witness :
  fst (Engine._execute_development_plan
         (fun _ _ w => (inr true, S w)) (fun _ _ _ _ w => w)
         (fun _ : exn unit => "error") (fun _ => "now")
         (Engine.mkPlan "plan"
            (fst (plan_from_requirement (fun _ => "now") "a shop"
                                        (run_calls [] init)))
            "a shop")
         (Engine.mkState
            (snd (plan_from_requirement (fun _ => "now") "a shop"
                                        (run_calls [] init)))
            0 []))
  = inr true.
Proof.
  apply (planned_chain_completes
           (fun _ _ w => (inr true, S w)) (fun _ _ _ _ w => w)
           (fun _ : exn unit => "error") (fun _ => "now")
           [] (fun _ => "now") "a shop" "plan" 0 []).
  - reflexivity.
  - reflexivity.
Defined.

(** Starting a task and failing it changes that task only. *)
Lemma fail_after_start_other task_id reason p T :
  dict_get task_id (tasks p) = Some T ->
  fst (start_task task_id p) = true ->
  forall k, k <> task_id ->
    dict_get k (tasks (snd (fail_task task_id reason
                                      (snd (start_task task_id p)))))
    = dict_get k (tasks p).
Proof.
  intros HT Hs k Hk. unfold start_task in *. rewrite HT in *.
  destruct (negb _); [discriminate|]. destruct (negb _); [discriminate|].
  cbn [snd]. unfold fail_task. cbn [tasks].
  rewrite dict_get_set_same. cbn [snd tasks].
  now rewrite !dict_get_set_other.
Qed.

(** X16.  In the plan made for a requirement, when the handlers of the
    first [i] phases return true and the handler of phase [i] returns
    false, the execution returns false and no later task is started,
    whatever the priority of the failed task: the first [i] tasks are
    COMPLETED, the task of phase [i] is FAILED, and every task after it
    is still PENDING.  After a HIGH task the loop returns at once; after
    a MEDIUM or LOW task it goes on, but [start_task] refuses each
    remaining task, since the task it depends on is not COMPLETED. *)
Theorem planned_chain_stops_at_failure {X W : Type}
    (handler : Engine.category -> Task -> W -> (exn X + bool) * W)
    (_update_progress : string -> Z -> string -> string -> W -> W)
    (str_of_exn : exn X -> string) (timestamp : W -> string)
    (cs : list planner_call) (clock : nat -> string)
    (r ai : string) (w : W) (lg : list Engine.log_event)
    (i : nat) (bad : string) :
  nth_error phase_titles i = Some bad ->
  (forall c t w', In (title t) (firstn i phase_titles) ->
     fst (handler c t w') = inr true) ->
  (forall c t w', title t = bad -> fst (handler c t w') = inr false) ->
  let planned := plan_from_requirement clock r (run_calls cs init) in
  let result :=
    Engine._execute_development_plan
      handler _update_progress str_of_exn timestamp
      (Engine.mkPlan ai (fst planned) r) (Engine.mkState (snd planned) w lg) in
  let final := tasks (Engine.task_planner (snd result)) in
  fst result = inr false
  /\ exists done_ids bad_id rest_ids,
       fst planned = done_ids ++ bad_id :: rest_ids
       /\ List.length done_ids = i
       /\ (forall k, In k done_ids ->
             exists T, dict_get k final = Some T /\ status T = COMPLETED)
       /\ (exists T, dict_get bad_id final = Some T
                     /\ status T = FAILED /\ title T = bad)
       /\ (forall k, In k rest_ids ->
             exists T, dict_get k final = Some T /\ status T = PENDING).
Proof.
  intros Hbad Hgood Hfalse planned result final.
  pose proof (planner_ok_calls cs init planner_ok_init) as Hok.
  destruct (plan_is_chain clock r _ Hok)
    as (new & Hplan & Hchain & Htitles & _ & Hlen & _).
  set (q := mkPlanner (tasks (run_calls cs init) ++ new)
                      (task_counter (run_calls cs init) + 8)) in *.
  (* the failing task splits the chain *)
  rewrite <- Htitles, nth_error_map in Hbad.
  destruct (nth_error new i) as [[k T]|] eqn:Hnth; [|discriminate].
  simpl in Hbad. injection Hbad as Hbad.
  destruct (nth_error_split _ _ Hnth) as (done & rest & Hnew & Hi).
  assert (Hdt : map (fun kt => title (snd kt)) done = firstn i phase_titles).
  { rewrite <- Htitles, Hnew, map_app, firstn_app, length_map, Hi, Nat.sub_diag.
    rewrite firstn_all2 by (rewrite length_map; lia).
    cbn [firstn]. now rewrite app_nil_r. }
  rewrite Hnew in Hchain.
  set (st0 := Engine.mkState q w lg).
  destruct (run_chain_prefix handler _update_progress str_of_exn timestamp
              done ((k, T) :: rest) None st0 Hchain I)
    as (st1 & Hrun1 & _ & _ & _ & Hdone1 & Hother1 & _ & Hct & Hpt).
  { intros k' T' c w' Hin. apply Hgood. rewrite <- Hdt.
    exact (in_map (fun kt => title (snd kt)) done (k', T') Hin). }
  (* the failing task *)
  destruct (chain_in_tail _ _ _ _ _ Hct) as (Hs & Hk & _ & Hget & Hnotin & Hc').
  pose proof (chain_head_starts _ _ _ _ _ Hct Hpt) as Hstart.
  assert (Hstarted : fst (start_task k (Engine.task_planner st1)) = true)
    by now rewrite Hstart.
  destruct (execute_task_of_handler handler _update_progress str_of_exn
              (set_status IN_PROGRESS T) false
              (fun c w' => Hfalse c (set_status IN_PROGRESS T) w' Hbad)
              (Engine.world st1))
    as [w2 Hexec].
  pose proof (run_tasks_failed handler _update_progress str_of_exn timestamp
                k (dict_keys rest) st1 T w2 Hget Hstarted Hexec) as Hturn.
  cbv zeta in Hturn.
  set (pf := snd (fail_task k "Task execution failed"
                    (snd (start_task k (Engine.task_planner st1))))) in *.
  destruct (fail_task_after_start k "Task execution failed"
              (Engine.task_planner st1) T Hget Hstarted)
    as (Tf & HTf & HsTf & _).
  fold pf in HTf.
  assert (Htf : title Tf = bad).
  { clear - HTf Hget Hstart Hbad. subst pf. rewrite Hstart in HTf.
    cbn [snd] in HTf. unfold fail_task in HTf. cbn [tasks] in HTf.
    rewrite dict_get_set_same in HTf. cbn [snd tasks] in HTf.
    rewrite dict_get_set_same in HTf. injection HTf as <-. exact Hbad. }
  assert (Hpf : forall k', k' <> k ->
                  dict_get k' (tasks pf)
                  = dict_get k' (tasks (Engine.task_planner st1)))
    by (intros k' Hk'; now apply fail_after_start_other with (T := T)).
  (* the rest of the loop *)
  assert (Hfinal : exists ex lg',
             Engine.run_tasks handler _update_progress str_of_exn timestamp
                              (dict_keys new) st0
             = (ex, Engine.mkState pf w2 lg')
             /\ (ex = Engine.Stopped \/ ex = Engine.Finished)).
  { rewrite Hnew. unfold dict_keys. rewrite map_app. cbn [map fst].
    rewrite run_tasks_app. fold (dict_keys done). rewrite Hrun1.
    fold (dict_keys rest). rewrite Hturn.
    assert (Hblocked :
              Engine.run_tasks handler _update_progress str_of_exn timestamp
                (dict_keys rest)
                (Engine.mkState pf w2
                   (Engine.log st1 ++ [Engine.LogExecuting (title T);
                                       Engine.LogTaskFailed (title T)]))
              = (Engine.Finished,
                 Engine.mkState pf w2
                   ((Engine.log st1 ++ [Engine.LogExecuting (title T);
                                        Engine.LogTaskFailed (title T)])
                    ++ log_not_started rest))).
    { apply (run_chain_blocked handler _update_progress str_of_exn timestamp
               rest k Tf); cbn [Engine.task_planner]; auto.
      - apply (chain_in_same (Engine.task_planner st1)); [exact Hc'|].
        intros k' Hin. apply Hpf. intros ->. contradiction.
      - rewrite HsTf. discriminate. }
    destruct (priority T).
    - rewrite Hblocked. eexists. eexists. split; [reflexivity|now right].
    - rewrite Hblocked. eexists. eexists. split; [reflexivity|now right].
    - eexists. eexists. split; [reflexivity|now left].
    - eexists. eexists. split; [reflexivity|now left]. }
  destruct Hfinal as (ex & lg' & Hrun & Hex).
  assert (Hres : result = (inr false, Engine.mkState pf w2 lg')).
  { subst result planned. rewrite Hplan. cbn [fst snd]. fold q. fold st0.
    unfold Engine._execute_development_plan. cbn [Engine.plan_tasks].
    destruct (dict_keys new) as [|a l] eqn:Ek.
    { unfold dict_keys in Ek. apply (f_equal (@List.length _)) in Ek.
      rewrite length_map, Hlen in Ek. discriminate. }
    rewrite Hrun. destruct Hex as [-> | ->]; [reflexivity|].
    cbn [Engine.task_planner].
    assert (Hne : tasks pf <> [])
      by (intros Hnil; rewrite Hnil in HTf; discriminate).
    destruct (get_task_progress_counts _ Hne) as [Hf _]. rewrite Hf.
    pose proof (count_status_positive FAILED _ _ _ HTf HsTf) as Hpos.
    assert (Hz : (Z.of_nat (count_status FAILED pf) =? 0)%Z = false)
      by (apply Z.eqb_neq; lia).
    now rewrite Hz. }
  subst final. rewrite Hres. cbn [fst snd Engine.task_planner].
  split; [reflexivity|].
  exists (dict_keys done), k, (dict_keys rest).
  assert (Hnd : NoDup (dict_keys (done ++ (k, T) :: rest)))
    by exact (proj1 Hchain).
  unfold dict_keys in Hnd. rewrite map_app in Hnd. cbn [map fst] in Hnd.
  split.
  { subst planned. rewrite Hplan, Hnew. cbn [fst]. unfold dict_keys.
    now rewrite map_app. }
  split; [unfold dict_keys; now rewrite length_map|].
  split; [|split].
  - intros k' Hin. rewrite Hpf.
    + unfold dict_keys in Hin. apply in_map_iff in Hin.
      destruct Hin as ([k'' T'] & Hfst & Hin). simpl in Hfst. subst k''.
      exact (Hdone1 _ _ Hin).
    + intros ->. apply NoDup_remove_2 in Hnd. apply Hnd.
      apply in_or_app. now left.
  - exists Tf. now repeat split.
  - intros k' Hin. rewrite Hpf by (intros ->; contradiction).
    unfold dict_keys in Hin. apply in_map_iff in Hin.
    destruct Hin as ([k'' T'] & Hfst & Hin). simpl in Hfst. subst k''.
    destruct Hc' as (_ & Hget' & Hall' & _).
    exists T'. split; [now apply Hget'|].
    rewrite Forall_forall in Hall'. exact (proj1 (Hall' _ Hin)).
Qed.

Lemma planned_chain_stops_at_failure_witness :
  fst (Engine._execute_development_plan
         (handler_failing_at "Database Design") (fun _ _ _ _ w => w)
         (fun _ : exn unit => "error") (fun _ => "now")
         (Engine.mkPlan "plan"
            (fst (plan_from_requirement (fun _ => "now") "a shop"
                                        (run_calls [] init)))
            "a shop")
         (Engine.mkState
            (snd (plan_from_requirement (fun _ => "now") "a shop"
                                        (run_calls [] init)))
            0 []))
  = inr false.
Proof.
  apply (planned_chain_stops_at_failure
           (handler_failing_at "Database Design") (fun _ _ _ _ w => w)
           (fun _ : exn unit => "error") (fun _ => "now")
           [] (fun _ => "now") "a shop" "plan" 0 [] 2 "Database Design").
  - reflexivity.
  - intros c t w' Hin. unfold handler_failing_at. cbn [fst].
    simpl in Hin. destruct Hin as [<-|[<-|[]]]; reflexivity.
  - intros c t w' Ht. unfold handler_failing_at. cbn [fst].
    rewrite Ht. reflexivity.
Defined.

(** ** Edges of the executor *)

(** X17.  Neither retry layer of the engine ever retries.  The body of
    [_execute_task] catches what its handler raises and returns false,
    after reporting the failure to the observers; the body of
    [build_application] turns what its steps raise into an error
    result.  So each decorated call awaits its body exactly once,
    sleeps never, and returns; no error of a handler, of the generation
    capability or of the executor reaches the caller as an exception. *)
Theorem retry_layers_await_once {X W : Type}
    (handler : Engine.category -> Task -> W -> (exn X + bool) * W)
    (_update_progress : string -> Z -> string -> string -> W -> W)
    (generate_response : string -> W -> (exn X + string) * W)
    (add_conversation : string -> string -> W -> W)
    (str_of_exn : exn X -> string) (timestamp : W -> string)
    (plan_prompt : string -> string) (summary_prompt : string)
    (task : Task) (w : W) (requirement : string) (st : Engine.state) :
  (let started :=
     _update_progress (title task) 0%Z "executing"
                      ("Starting " ++ task_type task ++ " task")%string w in
   Engine._execute_task_retried handler _update_progress str_of_exn task w
   = match handler (Engine.classify (title task)) task started with
     | (inr b, w2) => (inr b, w2, [Retry.Invoked])
     | (inl e, w2) =>
         (inr false,
          _update_progress (title task) 0%Z "failed"
                           ("Task failed: " ++ str_of_exn e)%string w2,
          [Retry.Invoked])
     end)
  /\ exists result st',
       Engine.build_application handler _update_progress generate_response
                                add_conversation str_of_exn timestamp
                                plan_prompt summary_prompt requirement st
       = (inr result, st', [Retry.Invoked]).
Proof.
  split.
  - cbv zeta. rewrite execute_task_first_attempt.
    unfold Engine._execute_task_body.
    now destruct (handler _ task _) as [[e|b] w2].
  - apply build_application_first_attempt.
Qed.

Section UnknownIds.
Import Engine.
Context {X W : Type}.
Variable handler : category -> Task -> W -> (exn X + bool) * W.
Variable _update_progress : string -> Z -> string -> string -> W -> W.
Variable str_of_exn : exn X -> string.
Variable timestamp : W -> string.

Lemma run_tasks_unknown ids :
  forall st,
    Forall (fun k => dict_get k (tasks (task_planner st)) = None) ids ->
    run_tasks handler _update_progress str_of_exn timestamp ids st
    = (Finished, st).
Proof.
  induction ids as [|k ids IH]; intros st Hall; [reflexivity|].
  inversion Hall as [|? ? Hk Hrest]; subst.
  cbn [run_tasks]. unfold get_task_by_id. rewrite Hk. now apply IH.
Qed.
End UnknownIds.

(** X18.  [_execute_development_plan] on a plan it cannot run.  An empty
    plan returns false.  Identifiers the planner does not hold are
    skipped, without a log line and without any change.  When all are
    unknown the result is read off the planner as it is: true exactly
    when it holds a COMPLETED task and no FAILED one; and when the
    planner holds no task at all, the progress report has no field
    ["failed"] and the call raises [KeyError]. *)
Theorem plan_of_unknown_ids {X W : Type}
    (handler : Engine.category -> Task -> W -> (exn X + bool) * W)
    (_update_progress : string -> Z -> string -> string -> W -> W)
    (str_of_exn : exn X -> string) (timestamp : W -> string)
    (ai r : string) (ids : list string) (st : Engine.state) :
  Forall (fun k => dict_get k (tasks (Engine.task_planner st)) = None) ids ->
  let result :=
    Engine._execute_development_plan handler _update_progress str_of_exn
                                     timestamp (Engine.mkPlan ai ids r) st in
  snd result = st
  /\ (ids = [] -> fst result = inr false)
  /\ (ids <> [] -> tasks (Engine.task_planner st) = [] ->
        fst result = inl (KeyError "failed"))
  /\ (ids <> [] -> tasks (Engine.task_planner st) <> [] ->
        fst result
        = inr ((count_status FAILED (Engine.task_planner st) =? 0)%nat
               && (0 <? count_status COMPLETED (Engine.task_planner st))%nat)).
Proof.
  intros Hall result. subst result.
  unfold Engine._execute_development_plan. cbn [Engine.plan_tasks].
  destruct ids as [|k ids]; [repeat split; congruence|].
  rewrite run_tasks_unknown by assumption.
  split; [|split; [congruence|split]].
  - destruct (dict_get "failed" _) as [[ | |z| | | | | | ]|]; try reflexivity.
    destruct (z =? 0)%Z; [|reflexivity].
    now destruct (dict_get "completed" _) as [[ | |z'| | | | | | ]|].
  - intros _ Hnil. unfold get_task_progress. rewrite Hnil. reflexivity.
  - intros _ Hne.
    destruct (get_task_progress_counts _ Hne) as [Hf Hc]. rewrite Hf, Hc.
    destruct (count_status FAILED (Engine.task_planner st)) as [|n] eqn:E.
    + cbn [Z.of_nat Z.eqb Nat.eqb andb fst]. f_equal.
      destruct (count_status COMPLETED (Engine.task_planner st)); reflexivity.
    + reflexivity.
Qed.

Lemma plan_of_unknown_ids_witness :
  fst (Engine._execute_development_plan
         counting_handler (fun _ _ _ _ w => w) (fun _ => "error")
         (fun _ => "now") (Engine.mkPlan "plan" ["task_0000"] "a shop")
         (Engine.mkState init 0 []))
  = inl (KeyError "failed").
Proof.
  apply (plan_of_unknown_ids counting_handler (fun _ _ _ _ w => w)
           (fun _ => "error") (fun _ => "now") "plan" "a shop"
           ["task_0000"] (Engine.mkState init 0 [])).
  - repeat constructor.
  - discriminate.
  - reflexivity.
Defined.

(** ** The two retry layers of the engine *)




(** ** Saving and loading the memory *)


Section MemoryFacts.
Import Memory.
Variable float_repr : float -> string.




Variables max_str_digits max_depth : nat.



End MemoryFacts.




(** ** Stores built by calls *)

Section StoreCallFacts.
Import Memory.

Lemma pydict_set_str_keyed k v (sd : list (string * pyval)) :
  pydict_set k v (map str_keyed sd) = map str_keyed (dict_set k v sd).
Proof.
  induction sd as [|[k' v'] sd IH]; [reflexivity|].
  cbn [map dict_set]. change (str_keyed (k', v')) with (PyStr k', v').
  cbn [pydict_set]. destruct (String.eqb k k'); [reflexivity|].
  cbn [map]. now rewrite IH.
Qed.

Lemma pydict_get_str_keyed k dflt (sd : list (string * pyval)) :
  pydict_get k dflt (map str_keyed sd)
  = match dict_get k sd with Some v => v | None => dflt end.
Proof.
  induction sd as [|[k' v'] sd IH]; [reflexivity|].
  cbn [map dict_get]. change (str_keyed (k', v')) with (PyStr k', v').
  cbn [pydict_get]. now destruct (String.eqb k k').
Qed.



Variable max_str_digits : nat.




End StoreCallFacts.



(** X22.  [add_code_context] keeps one record per path, the last
    written: after the call the record of the path holds the given
    content and language and the checksum of the content, the records
    of the other paths are as before, and writing a path that already
    has a record does not add an entry.  The other attributes are not
    touched. *)
Theorem add_code_context_upserts (py_hash : string -> Z)
    (now file_path content language : string) (st : Memory.store)
    (sd : list (string * pyval)) :
  Memory.code_context st = PyDict (map str_keyed sd) ->
  exists st' sd',
    Memory.add_code_context py_hash now file_path content language st = Some st'
    /\ Memory.code_context st' = PyDict (map str_keyed sd')
    /\ dict_get file_path sd'
       = Some (PyDict [ (PyStr "content", PyStr content);
                        (PyStr "language", PyStr language);
                        (PyStr "last_updated", PyStr now);
                        (PyStr "checksum",
                         PyStr (Memory._calculate_checksum py_hash content)) ])
    /\ (forall p, p <> file_path -> dict_get p sd' = dict_get p sd)
    /\ (dict_mem file_path sd = true -> dict_keys sd' = dict_keys sd)
    /\ (dict_mem file_path sd = false ->
          dict_keys sd' = dict_keys sd ++ [file_path])
    /\ Memory.conversation_history st' = Memory.conversation_history st
    /\ Memory.project_state st' = Memory.project_state st
    /\ Memory.learning_memory st' = Memory.learning_memory st.
Proof.
  intros Hc. unfold Memory.add_code_context. rewrite Hc.
  eexists. eexists. split; [reflexivity|].
  cbn [Memory.code_context Memory.conversation_history Memory.project_state
       Memory.learning_memory].
  split; [now rewrite pydict_set_str_keyed|].
  split; [apply dict_get_set_same|].
  split; [intros p Hp; now apply dict_get_set_other|].
  split; [apply dict_keys_set_present|].
  split; [|repeat split].
  intros Hmem. unfold dict_mem in Hmem.
  destruct (dict_get file_path sd) eqn:E; [discriminate|].
  rewrite dict_set_fresh by assumption. unfold dict_keys.
  now rewrite map_app.
Qed.

Lemma add_code_context_upserts_witness :
  exists st' sd',
    Memory.add_code_context (fun _ => 7%Z) "t" "main.py" "print(1)" "python"
                            Memory.empty = Some st'
    /\ Memory.code_context st' = PyDict (map str_keyed sd').
Proof.
  destruct (add_code_context_upserts (fun _ => 7%Z) "t" "main.py" "print(1)"
              "python" Memory.empty [] eq_refl)
    as (st' & sd' & H1 & H2 & _).
  exists st', sd'. now split.
Defined.

(** ** Related files *)

Section DependencyFacts.
Import CodeDependencies.

Lemma set_mem_In x s : set_mem x s = true <-> In x s.
Proof.
  unfold set_mem. rewrite existsb_exists. split.
  - intros (y & Hy & E). apply String.eqb_eq in E. now subst.
  - intros H. exists x. split; [exact H | apply String.eqb_refl].
Qed.

Lemma set_add_In x y s : In y (set_add x s) <-> y = x \/ In y s.
Proof.
  unfold set_add. destruct (set_mem x s) eqn:E.
  - apply set_mem_In in E. split; [tauto|]. intros [->|H]; assumption.
  - rewrite in_app_iff. simpl. split.
    + intros [H|[<-|[]]]; [now right | now left].
    + intros [->|H]; [right; now left | now left].
Qed.

Lemma set_update_In xs : forall y s,
  In y (set_update xs s) <-> In y xs \/ In y s.
Proof.
  induction xs as [|x xs IH]; intros y s; simpl; [tauto|].
  unfold set_update in *. simpl. rewrite IH, set_add_In.
  intuition (subst; auto).
Qed.

(** What [get_related_files] collects over a part of the map. *)
Lemma related_fold a (m : deps_map) : forall rel b,
  In b (fold_left (fun rel entry =>
                     if set_mem a (snd entry) then set_add (fst entry) rel
                     else rel) m rel)
  <-> In b rel \/ exists s, In (b, s) m /\ In a s.
Proof.
  induction m as [|[p s] m IH]; intros rel b; simpl.
  - split; [tauto|]. intros [H|(s & [] & _)]. exact H.
  - rewrite IH. cbn [fst snd]. destruct (set_mem a s) eqn:E.
    + apply set_mem_In in E. rewrite set_add_In. split.
      * intros [[Hb|H]|(s' & Hin & Ha)].
        -- subst b. right. exists s. split; [now left | exact E].
        -- now left.
        -- right. exists s'. split; [now right | exact Ha].
      * intros [H|(s' & [Heq|Hin] & Ha)].
        -- left. now right.
        -- injection Heq as -> ->. left. now left.
        -- right. exists s'. now split.
    + split.
      * intros [H|(s' & Hin & Ha)].
        -- now left.
        -- right. exists s'. split; [now right | exact Ha].
      * intros [H|(s' & [Heq|Hin] & Ha)].
        -- now left.
        -- injection Heq as -> ->. apply set_mem_In in Ha. congruence.
        -- right. exists s'. now split.
Qed.

(** The files related to [a] are those [a] depends on and those that
    depend on [a]. *)
Lemma get_related_files_iff a b (m : deps_map) :
  In b (get_related_files a m)
  <-> (exists s, dict_get a m = Some s /\ In b s)
      \/ (exists s, In (b, s) m /\ In a s).
Proof.
  unfold get_related_files. rewrite related_fold, set_update_In.
  destruct (dict_get a m) as [s|]; split.
  - intros [[H|[]]|H]; eauto.
  - intros [(s' & [= <-] & H)|H]; auto.
  - intros [[[]|[]]|H]; auto.
  - intros [(s' & [=] & _)|H]; auto.
Qed.

Lemma track_keys_NoDup file_path deps (m : deps_map) :
  NoDup (dict_keys m) -> NoDup (dict_keys (track_code_dependency file_path deps m)).
Proof.
  intros Hnd. unfold track_code_dependency.
  destruct (dict_get file_path m) as [s|] eqn:E.
  - rewrite dict_keys_set_present; [exact Hnd|].
    eapply dict_mem_of_get; eauto.
  - rewrite dict_set_fresh by assumption. unfold dict_keys.
    rewrite map_app. apply NoDup_app; [exact Hnd | repeat constructor; tauto |].
    intros k Hin [<-|[]]. apply dict_get_None in E. contradiction.
Qed.

Lemma track_all_NoDup calls : forall m,
  NoDup (dict_keys m) -> NoDup (dict_keys (track_all calls m)).
Proof.
  induction calls as [|c calls IH]; intros m Hnd; [exact Hnd|].
  apply IH. now apply track_keys_NoDup.
Qed.

Lemma dict_get_iff_In {V} (d : list (string * V)) k v :
  NoDup (dict_keys d) -> (dict_get k d = Some v <-> In (k, v) d).
Proof.
  intros Hnd. split; [apply dict_get_In | now apply dict_get_of_In].
Qed.
End DependencyFacts.

(** X19.  After any sequence of [track_code_dependency] calls, being
    related is symmetric: [b] is among the files related to [a] exactly
    when [a] is among the files related to [b]; and [b] is related to
    [a] exactly when one of the two was recorded as depending on the
    other. *)
Theorem related_files_symmetric (calls : list (string * list string))
    (a b : string) :
  let m := CodeDependencies.track_all calls CodeDependencies.empty in
  (In b (CodeDependencies.get_related_files a m)
   <-> In a (CodeDependencies.get_related_files b m))
  /\ (In b (CodeDependencies.get_related_files a m)
      <-> (exists s, dict_get a m = Some s /\ In b s)
          \/ (exists s, dict_get b m = Some s /\ In a s)).
Proof.
  intros m.
  assert (Hnd : NoDup (dict_keys m))
    by (apply track_all_NoDup; constructor).
  assert (Hiff : forall x y,
             In y (CodeDependencies.get_related_files x m)
             <-> (exists s, dict_get x m = Some s /\ In y s)
                 \/ (exists s, dict_get y m = Some s /\ In x s)).
  { intros x y. rewrite get_related_files_iff. split.
    - intros [H|(s & Hin & Hx)]; [now left|]. right. exists s.
      split; [now apply dict_get_iff_In | exact Hx].
    - intros [H|(s & Hget & Hx)]; [now left|]. right. exists s.
      split; [now apply dict_get_In | exact Hx]. }
  split; [|apply Hiff]. rewrite !Hiff. tauto.
Qed.

(** X20.  [track_code_dependency] records every dependency given, in
    both directions of the relation, and removes nothing: after the
    call each dependency is related to the file and the file to it, and
    whatever was related before still is. *)
Theorem track_code_dependency_records (calls : list (string * list string))
    (file_path : string) (dependencies : list string) :
  let m := CodeDependencies.track_all calls CodeDependencies.empty in
  let m' := CodeDependencies.track_code_dependency file_path dependencies m in
  (forall d, In d dependencies ->
     In d (CodeDependencies.get_related_files file_path m')
     /\ In file_path (CodeDependencies.get_related_files d m'))
  /\ (forall a b, In b (CodeDependencies.get_related_files a m) ->
        In b (CodeDependencies.get_related_files a m')).
Proof.
  intros m m'.
  assert (Hnd : NoDup (dict_keys m))
    by (apply track_all_NoDup; constructor).
  assert (Hnd' : NoDup (dict_keys m')) by now apply track_keys_NoDup.
  assert (Hself : exists s',
             dict_get file_path m' = Some s'
             /\ (forall d, In d dependencies -> In d s')
             /\ (forall s d, dict_get file_path m = Some s -> In d s -> In d s')).
  { eexists. split; [apply dict_get_set_same|]. split.
    - intros d Hd. apply set_update_In. now left.
    - intros s d Hs Hd. rewrite Hs. apply set_update_In. now right. }
  destruct Hself as (s' & Hs' & Hnew & Hold).
  assert (Hother : forall k, k <> file_path -> dict_get k m' = dict_get k m)
    by (intros k Hk; now apply dict_get_set_other).
  split.
  - intros d Hd. split.
    + apply get_related_files_iff. left. exists s'. auto.
    + apply get_related_files_iff. right. exists s'.
      split; [now apply dict_get_In | auto].
  - intros a b Hrel. apply get_related_files_iff in Hrel.
    apply get_related_files_iff.
    assert (Hkeep : forall x y s, dict_get x m = Some s -> In y s ->
                      exists t, dict_get x m' = Some t /\ In y t).
    { intros x y s Hs Hy. destruct (String.eqb x file_path) eqn:E.
      - apply String.eqb_eq in E. subst x. exists s'. split; eauto.
      - apply String.eqb_neq in E. exists s. rewrite Hother; auto. }
    destruct Hrel as [(s & Hs & Hb)|(s & Hin & Ha)].
    + left. eauto.
    + right. apply (dict_get_of_In _ _ _ Hnd) in Hin.
      destruct (Hkeep _ _ _ Hin Ha) as (t & Ht & Hat).
      exists t. split; [now apply dict_get_In | exact Hat].
Qed.

(** ** Performance records *)

Section PerformanceFacts.
Import Performance.

Lemma count_for_app op l r :
  count_for op (l ++ [r])
  = count_for op l + (if String.eqb (operation r) op then 1 else 0).
Proof.
  unfold count_for. rewrite filter_app, length_app. cbn [filter].
  now destruct (String.eqb (operation r) op).
Qed.

Lemma perf_ok_step n now op dur ok md st :
  perf_ok n st ->
  perf_ok (S n) (record_performance_metric now op dur ok md st).
Proof.
  intros (Hnd & Hlen & Herr & Hsuc & Hops).
  unfold record_performance_metric.
  split; [|split; [|split; [|split]]];
    cbn [performance_metrics error_patterns success_patterns].
  - destruct (dict_get op (performance_metrics st)) as [m|] eqn:E.
    + rewrite dict_keys_set_present; [exact Hnd|].
      eapply dict_mem_of_get; eauto.
    + rewrite dict_set_fresh by assumption. unfold dict_keys.
      rewrite map_app. apply NoDup_app; [exact Hnd|repeat constructor; tauto|].
      intros x Hin [<-|[]]. apply dict_get_None in E. contradiction.
  - destruct ok; rewrite length_app; simpl; lia.
  - destruct ok; [exact Herr|]. apply Forall_app. split; [exact Herr|].
    now repeat constructor.
  - destruct ok; [|exact Hsuc]. apply Forall_app. split; [exact Hsuc|].
    now repeat constructor.
  - intros op'. rewrite dict_get_set.
    destruct (String.eqb op' op) eqn:E.
    + apply String.eqb_eq in E. subst op'. specialize (Hops op).
      cbn [total_calls success_count failure_count].
      destruct (dict_get op (performance_metrics st)) as [m|];
        destruct ok; rewrite ?count_for_app;
        cbn [operation total_calls success_count failure_count fresh_metrics];
        rewrite ?String.eqb_refl; lia.
    + specialize (Hops op'). rewrite String.eqb_sym in E.
      destruct (dict_get op' (performance_metrics st)) as [m|];
        destruct ok; rewrite ?count_for_app; cbn [operation]; rewrite ?E; lia.
Qed.

Lemma perf_ok_all cs : forall n st,
  perf_ok n st -> perf_ok (List.length cs + n) (record_all cs st).
Proof.
  induction cs as [|c cs IH]; intros n st Hok; [exact Hok|].
  cbn [record_all fold_left List.length].
  replace (S (List.length cs) + n) with (List.length cs + S n) by lia.
  apply IH. now apply perf_ok_step.
Qed.

Lemma perf_ok_empty : perf_ok 0 empty.
Proof.
  repeat split; try constructor.
Qed.

Lemma last_ten_suffix {A} (l : list A) :
  exists older, l = older ++ last_ten l
                /\ List.length (last_ten l) = Nat.min 10 (List.length l).
Proof.
  exists (firstn (List.length l - 10) l). unfold last_ten. split.
  - symmetry. apply firstn_skipn.
  - rewrite length_skipn. lia.
Qed.
End PerformanceFacts.

(** X23.  After any sequence of [record_performance_metric] calls on a
    new manager, each call has appended one detailed record, to the
    success patterns when it reported success and to the error patterns
    otherwise; and for every operation recorded the entry counts at
    least one call, its [total_calls] is the sum of its
    [success_count] and [failure_count], and these two are the numbers
    of its records among the success and the error patterns.  An
    operation without an entry has no record. *)
Theorem performance_counts_consistent (cs : list Performance.call)
    (op : string) :
  let st := Performance.record_all cs Performance.empty in
  List.length (Performance.error_patterns st)
  + List.length (Performance.success_patterns st) = List.length cs
  /\ Forall (fun r => Performance.success r = false)
            (Performance.error_patterns st)
  /\ Forall (fun r => Performance.success r = true)
            (Performance.success_patterns st)
  /\ match dict_get op (Performance.performance_metrics st) with
     | Some m =>
         1 <= Performance.total_calls m
         /\ Performance.total_calls m
            = Performance.success_count m + Performance.failure_count m
         /\ Performance.success_count m
            = Performance.count_for op (Performance.success_patterns st)
         /\ Performance.failure_count m
            = Performance.count_for op (Performance.error_patterns st)
     | None =>
         Performance.count_for op (Performance.success_patterns st) = 0
         /\ Performance.count_for op (Performance.error_patterns st) = 0
     end.
Proof.
  intros st.
  destruct (perf_ok_all cs 0 Performance.empty perf_ok_empty)
    as (_ & Hlen & Herr & Hsuc & Hops).
  fold st in Hlen, Herr, Hsuc, Hops. rewrite Nat.add_0_r in Hlen.
  split; [exact Hlen|]. split; [exact Herr|]. split; [exact Hsuc|].
  apply Hops.
Qed.

(** X24.  [get_performance_insights] after any sequence of recordings.
    Without an operation, and also for the empty string, which counts
    as none, it reports the number of distinct operations and the most
    recent error and success records: at most ten of each, the last
    ones, in order.  For an operation that was recorded it returns its
    entry; for one that was not, the empty dictionary. *)
Theorem performance_insights_spec (cs : list Performance.call)
    (c : ascii) (s : string) :
  let st := Performance.record_all cs Performance.empty in
  Performance.get_performance_insights (Some "") st
  = Performance.get_performance_insights None st
  /\ (exists older_errors older_successes,
        Performance.get_performance_insights None st
        = Performance.Overall
            (Performance.performance_metrics st)
            (List.length (Performance.performance_metrics st))
            (Performance.last_ten (Performance.error_patterns st))
            (Performance.last_ten (Performance.success_patterns st))
        /\ Performance.error_patterns st
           = older_errors ++ Performance.last_ten (Performance.error_patterns st)
        /\ Performance.success_patterns st
           = older_successes
             ++ Performance.last_ten (Performance.success_patterns st)
        /\ List.length (Performance.last_ten (Performance.error_patterns st))
           = Nat.min 10 (List.length (Performance.error_patterns st))
        /\ List.length (Performance.last_ten (Performance.success_patterns st))
           = Nat.min 10 (List.length (Performance.success_patterns st))
        /\ NoDup (dict_keys (Performance.performance_metrics st)))
  /\ (forall k, In k (dict_keys (Performance.performance_metrics st)) <->
        In k (map Performance.call_operation cs))
  /\ Performance.get_performance_insights (Some (String c s)) st
     = Performance.ForOperation
         (dict_get (String c s) (Performance.performance_metrics st))
  /\ (In (String c s) (map Performance.call_operation cs) <->
        exists m, Performance.get_performance_insights (Some (String c s)) st
                  = Performance.ForOperation (Some m)).
Proof.
  intros st.
  destruct (perf_ok_all cs 0 Performance.empty perf_ok_empty) as (Hnd & _).
  fold st in Hnd.
  assert (Hkeys : forall k, In k (dict_keys (Performance.performance_metrics st))
                            <-> In k (map Performance.call_operation cs)).
  { subst st. clear Hnd.
    assert (Hgen : forall cs0 st0 k,
               In k (dict_keys (Performance.performance_metrics
                                  (Performance.record_all cs0 st0)))
               <-> In k (dict_keys (Performance.performance_metrics st0))
                   \/ In k (map Performance.call_operation cs0)).
    { induction cs0 as [|c0 cs0 IH]; intros st0 k.
      - simpl. tauto.
      - cbn [Performance.record_all fold_left map].
        fold (Performance.record_all cs0). rewrite IH.
        unfold Performance.record_performance_metric.
        cbn [Performance.performance_metrics].
        assert (Hset : forall (v : Performance.metrics) d,
                   In k (dict_keys (dict_set (Performance.call_operation c0) v d))
                   <-> In k (dict_keys d) \/ k = Performance.call_operation c0).
        { intros v d. destruct (dict_get (Performance.call_operation c0) d)
            as [v0|] eqn:E.
          - rewrite dict_keys_set_present by (eapply dict_mem_of_get; eauto).
            split; [tauto|]. intros [H| ->]; [exact H|].
            eapply dict_get_key_In; eauto.
          - rewrite dict_set_fresh by assumption. unfold dict_keys.
            rewrite map_app, in_app_iff. simpl. intuition (subst; auto). }
        rewrite Hset. simpl. intuition (subst; auto). }
    intros k. rewrite Hgen. simpl. tauto. }
  split; [reflexivity|]. split; [|split; [exact Hkeys|split; [reflexivity|]]].
  - destruct (last_ten_suffix (Performance.error_patterns st)) as (oe & Hoe & Hle).
    destruct (last_ten_suffix (Performance.success_patterns st))
      as (os & Hos & Hls).
    exists oe, os. repeat split; assumption.
  - rewrite <- Hkeys. cbn [Performance.get_performance_insights]. split.
    + intros Hin.
      destruct (dict_get (String c s) (Performance.performance_metrics st))
        as [m|] eqn:E; [eauto|].
      apply dict_get_None in E. contradiction.
    + intros (m & [= Hm]). eapply dict_get_key_In; eauto.
Qed.

(** ** The semantic index *)

Section SemanticFacts.
Import Semantic.
Variable md5_hex : string -> string.
Variable py_lower : string -> string.
Variable py_split : string -> list string.

Lemma append_get k k0 x ix :
  dict_get k (append k0 x ix)
  = if String.eqb k k0 then Some (items_of k0 ix ++ [x]) else dict_get k ix.
Proof.
  unfold append, items_of.
  destruct (dict_get k0 ix); rewrite dict_get_set; reflexivity.
Qed.

Lemma append_In k items k0 x ix :
  In (k, items) (append k0 x ix) ->
  In (k, items) ix \/ (k = k0 /\ items = items_of k0 ix ++ [x]).
Proof.
  unfold append, items_of. destruct (dict_get k0 ix); intros H;
    apply dict_set_In in H; destruct H as [[-> ->]|H]; auto.
Qed.

Lemma items_of_In k ix e :
  In e (items_of k ix) -> exists items, In (k, items) ix /\ In e items.
Proof.
  unfold items_of. destruct (dict_get k ix) as [l|] eqn:E; [|intros []].
  intros H. exists l. split; [now apply dict_get_In | exact H].
Qed.

Lemma append_cons k x k' l' ix :
  append k x ((k', l') :: ix)
  = if String.eqb k k' then (k', l' ++ [x]) :: ix
    else (k', l') :: append k x ix.
Proof.
  unfold append. simpl. destruct (String.eqb k k') eqn:E; simpl; rewrite ?E.
  - reflexivity.
  - destruct (dict_get k ix); simpl; rewrite ?E; reflexivity.
Qed.

Lemma entries_append k x ix :
  entries (append k x ix)
  = entries ix + match x with Entry _ _ _ _ => 1 | KeyRef _ => 0 end.
Proof.
  induction ix as [|[k' l'] ix IH].
  - unfold append, entries. simpl. destruct x; reflexivity.
  - rewrite append_cons. destruct (String.eqb k k').
    + unfold entries. cbn [flat_map snd].
      rewrite filter_app, !length_app. cbn [filter].
      destruct x; simpl; lia.
    + unfold entries in *. cbn [flat_map snd]. rewrite !length_app, IH. lia.
Qed.

Lemma index_ok_append_ref cs ix k r :
  index_ok md5_hex cs ix -> index_ok md5_hex cs (append k (KeyRef r) ix).
Proof.
  intros (Hs & Hc & Hn). split; [|split].
  - intros k' items e Hin He. apply append_In in Hin.
    destruct Hin as [Hin|[-> ->]]; [eauto|].
    apply in_app_iff in He. destruct He as [He|[<-|[]]]; [|eauto].
    apply items_of_In in He. destruct He as (items & Hin & He). eauto.
  - intros c Hin. unfold items_of at 1. rewrite append_get.
    destruct (String.eqb (call_key c) k) eqn:E.
    + apply String.eqb_eq in E. subst k. apply in_app_iff. left. auto.
    + apply Hc. exact Hin.
  - rewrite entries_append. lia.
Qed.

Lemma index_ok_append_entry cs ix c :
  index_ok md5_hex cs ix ->
  index_ok md5_hex (cs ++ [c]) (append (call_key c) (made_by md5_hex c) ix).
Proof.
  intros (Hs & Hc & Hn). split; [|split].
  - intros k' items e Hin He. apply append_In in Hin.
    assert (Hold : forall items0, In (k', items0) ix -> In e items0 ->
              (exists r, e = KeyRef r)
              \/ exists c0, In c0 (cs ++ [c]) /\ k' = call_key c0
                            /\ e = made_by md5_hex c0).
    { intros items0 Hin0 He0. destruct (Hs _ _ _ Hin0 He0) as [?|(c0 & ? & ? & ?)];
        [now left|]. right. exists c0. rewrite in_app_iff. auto. }
    destruct Hin as [Hin|[-> ->]]; [eauto|].
    apply in_app_iff in He. destruct He as [He|[<-|[]]].
    + apply items_of_In in He. destruct He as (items & Hin & He). eauto.
    + right. exists c. rewrite in_app_iff. simpl. auto.
  - intros c0 Hin. unfold items_of at 1. rewrite append_get.
    apply in_app_iff in Hin.
    destruct (String.eqb (call_key c0) (call_key c)) eqn:E.
    + apply String.eqb_eq in E. apply in_app_iff.
      destruct Hin as [Hin|[<-|[]]]; [|right; now left].
      left. rewrite <- E. auto.
    + destruct Hin as [Hin|[<-|[]]]; [now apply Hc|].
      rewrite String.eqb_refl in E. discriminate.
  - rewrite entries_append, length_app. unfold made_by. simpl. lia.
Qed.

Lemma index_ok_add cs ix c :
  index_ok md5_hex cs ix ->
  index_ok md5_hex (cs ++ [c])
    (add_semantic_context md5_hex (call_now c) (call_key c) (call_context c)
                          (call_tags c) ix).
Proof.
  intros Hok. unfold add_semantic_context.
  apply index_ok_append_entry with (c := c) in Hok.
  unfold made_by in Hok. revert Hok.
  generalize (append (call_key c)
                (Entry (call_context c) (md5_hex (call_context c)) (call_now c)
                       match call_tags c with Some l => l | None => [] end) ix).
  generalize (cs ++ [c]).
  induction (match call_tags c with Some l => l | None => [] end)
    as [|tag tgs IH]; intros cs' ix' Hok; [exact Hok|].
  cbn [fold_left]. apply IH. now apply index_ok_append_ref.
Qed.

Lemma index_ok_all cs : forall cs0 ix,
  index_ok md5_hex cs0 ix ->
  index_ok md5_hex (cs0 ++ cs) (add_all md5_hex cs ix).
Proof.
  induction cs as [|c cs IH]; intros cs0 ix Hok.
  - rewrite app_nil_r. exact Hok.
  - cbn [add_all fold_left]. fold (add_all md5_hex cs).
    replace (cs0 ++ c :: cs) with ((cs0 ++ [c]) ++ cs)
      by (rewrite <- app_assoc; reflexivity).
    apply IH. now apply index_ok_add.
Qed.

Lemma index_ok_empty : index_ok md5_hex [] empty.
Proof.
  split; [|split]; [intros k items e [] | intros c [] | reflexivity].
Qed.

Lemma insert_by_score_perm x l : Permutation (insert_by_score x l) (x :: l).
Proof.
  induction l as [|y l IH]; simpl; [reflexivity|].
  destruct (score x <? score y)%nat; [|reflexivity].
  rewrite IH. apply perm_swap.
Qed.

Lemma sort_by_score_perm l : Permutation (sort_by_score l) l.
Proof.
  induction l as [|x l IH]; simpl; [reflexivity|].
  rewrite insert_by_score_perm. now constructor.
Qed.

Lemma insert_by_score_sorted x l :
  StronglySorted (fun a b => score b <= score a) l ->
  StronglySorted (fun a b => score b <= score a) (insert_by_score x l).
Proof.
  induction 1 as [|y l Hs IH Hy]; simpl.
  - repeat constructor.
  - destruct (score x <? score y)%nat eqn:E.
    + apply Nat.ltb_lt in E. constructor; [exact IH|].
      rewrite Forall_forall. intros z Hz.
      apply (Permutation_in _ (insert_by_score_perm x l)) in Hz.
      destruct Hz as [<-|Hz]; [lia|].
      rewrite Forall_forall in Hy. auto.
    + apply Nat.ltb_ge in E. constructor; [now constructor|].
      constructor; [exact E|].
      rewrite Forall_forall in Hy |- *. intros z Hz. specialize (Hy z Hz). lia.
Qed.

Lemma sort_by_score_sorted l :
  StronglySorted (fun a b => score b <= score a) (sort_by_score l).
Proof.
  induction l as [|x l IH]; simpl; [constructor|].
  now apply insert_by_score_sorted.
Qed.

Lemma firstn_In {A} n : forall (l : list A) x, In x (firstn n l) -> In x l.
Proof.
  induction n as [|n IH]; intros [|y l] x; simpl; try tauto.
  intros [H|H]; [now left | right; now apply IH].
Qed.

Lemma firstn_sorted {A} (R : A -> A -> Prop) n : forall l,
  StronglySorted R l -> StronglySorted R (firstn n l).
Proof.
  induction n as [|n IH]; intros l Hs; [constructor|].
  destruct Hs as [|x l Hs Hx]; simpl; [constructor|].
  constructor; [now apply IH|].
  rewrite Forall_forall in Hx |- *. intros z Hz. apply Hx.
  eapply firstn_In; eauto.
Qed.

Lemma slice_to_In {A} limit (l : list A) x : In x (slice_to limit l) -> In x l.
Proof.
  unfold slice_to. destruct (0 <=? limit)%Z; apply firstn_In.
Qed.

Lemma slice_to_all {A} limit (l : list A) :
  (Z.of_nat (List.length l) <= limit)%Z -> slice_to limit l = l.
Proof.
  intros H. unfold slice_to.
  destruct (0 <=? limit)%Z eqn:E; [|apply Z.leb_gt in E; lia].
  apply firstn_all2. lia.
Qed.

Lemma score_item_In qw k x r :
  In r (score_item py_lower py_split qw k x) ->
  exists c h ts tg,
    x = Entry c h ts tg
    /\ r = mkScored k c (common_words qw (py_split (py_lower c))) ts tg
    /\ 1 <= score r.
Proof.
  destruct x as [c h ts tg|r0]; simpl; [|intros []].
  destruct (0 <? common_words qw (py_split (py_lower c)))%nat eqn:E;
    [|intros []].
  intros [<-|[]]. apply Nat.ltb_lt in E. exists c, h, ts, tg. auto.
Qed.

Lemma scored_length qw (ix : index) :
  List.length
    (flat_map (fun kv =>
                 if String.prefix "tag:" (fst kv) then []
                 else flat_map (score_item py_lower py_split qw (fst kv))
                               (snd kv)) ix)
  <= entries ix.
Proof.
  unfold entries. induction ix as [|[k l] ix IH]; [simpl; lia|].
  cbn [flat_map fst snd]. rewrite !length_app.
  apply Nat.add_le_mono; [|exact IH].
  destruct (String.prefix "tag:" k); [simpl; lia|].
  clear. induction l as [|x l IH]; [simpl; lia|].
  cbn [flat_map filter]. rewrite length_app.
  destruct x as [c h ts tg|r]; simpl.
  - destruct (0 <? _)%nat; simpl; lia.
  - exact IH.
Qed.
End SemanticFacts.

(** X25.  What [get_semantic_context] returns after any sequence of
    [add_semantic_context] calls on a new manager: every element
    stands for a call, with its key, content, timestamp and tags; its
    key does not start with ["tag:"]; and its score, at least 1, is the
    number of distinct words that the lowered query and the lowered
    content share.  So a context stored under a key that starts with
    ["tag:"] is never retrieved. *)
Theorem semantic_context_sound (md5_hex py_lower : string -> string)
    (py_split : string -> list string) (cs : list Semantic.call)
    (query : string) (limit : Z) (r : Semantic.scored) :
  In r (Semantic.get_semantic_context py_lower py_split query limit
          (Semantic.add_all md5_hex cs Semantic.empty)) ->
  String.prefix "tag:" (Semantic.key r) = false
  /\ 1 <= Semantic.score r
  /\ Semantic.score r
     = Semantic.common_words (py_split (py_lower query))
                             (py_split (py_lower (Semantic.content r)))
  /\ exists c, In c cs
               /\ Semantic.call_key c = Semantic.key r
               /\ Semantic.call_context c = Semantic.content r
               /\ Semantic.call_now c = Semantic.timestamp r
               /\ match Semantic.call_tags c with Some l => l | None => [] end
                  = Semantic.tags r.
Proof.
  intros Hin.
  destruct (index_ok_all md5_hex cs [] Semantic.empty (index_ok_empty md5_hex))
    as (Hs & _ & _).
  simpl in Hs.
  unfold Semantic.get_semantic_context in Hin.
  apply slice_to_In in Hin.
  apply (Permutation_in _ (sort_by_score_perm _)) in Hin.
  apply in_flat_map in Hin. destruct Hin as ([k items] & Hkv & Hin).
  cbn [fst snd] in Hin.
  destruct (String.prefix "tag:" k) eqn:Hp; [destruct Hin|].
  apply in_flat_map in Hin. destruct Hin as (x & Hx & Hin).
  apply score_item_In in Hin.
  destruct Hin as (c & h & ts & tg & -> & -> & Hsc).
  cbn [Semantic.key Semantic.score Semantic.content Semantic.timestamp
       Semantic.tags] in *.
  split; [exact Hp|]. split; [exact Hsc|]. split; [reflexivity|].
  destruct (Hs _ _ _ Hkv Hx) as [(r0 & Hr0)|(c0 & Hc0 & -> & Hmade)];
    [discriminate|].
  unfold Semantic.made_by in Hmade. injection Hmade as -> _ -> ->.
  exists c0. auto.
Qed.

Lemma semantic_context_sound_witness :
  String.prefix "tag:" "auth" = false
  /\ 1 <= 1
  /\ 1 = Semantic.common_words (Semantic.one_word (lower "Login"))
                               (Semantic.one_word (lower "login"))
  /\ exists c, In c [Semantic.mkCall "t0" "auth" "login" (Some ["security"])]
               /\ Semantic.call_key c = "auth"
               /\ Semantic.call_context c = "login"
               /\ Semantic.call_now c = "t0"
               /\ match Semantic.call_tags c with Some l => l | None => [] end
                  = ["security"].
Proof.
  apply (semantic_context_sound (fun s => s) lower Semantic.one_word
           [Semantic.mkCall "t0" "auth" "login" (Some ["security"])]
           "Login" 5%Z
           (Semantic.mkScored "auth" "login" 1 "t0" ["security"])).
  vm_compute. left. reflexivity.
Defined.

(** X26.  The list [get_semantic_context] returns is in descending
    order of score, on any index, and with a limit [n >= 0] it has at
    most [n] elements. *)
Theorem semantic_context_ranked (py_lower : string -> string)
    (py_split : string -> list string) (ix : Semantic.index)
    (query : string) (limit : Z) (n : nat) :
  StronglySorted (fun a b => Semantic.score b <= Semantic.score a)
    (Semantic.get_semantic_context py_lower py_split query limit ix)
  /\ List.length
       (Semantic.get_semantic_context py_lower py_split query (Z.of_nat n) ix)
     <= n.
Proof.
  unfold Semantic.get_semantic_context, Semantic.slice_to. split.
  - destruct (0 <=? limit)%Z; apply firstn_sorted, sort_by_score_sorted.
  - destruct (0 <=? Z.of_nat n)%Z eqn:E; [|apply Z.leb_gt in E; lia].
    rewrite Nat2Z.id. apply firstn_le_length.
Qed.

(** X27.  Nothing retrievable is lost: after any sequence of
    [add_semantic_context] calls on a new manager, a context added
    under a key that does not start with ["tag:"] and sharing a word
    with the query is returned, with its key, content, timestamp, tags
    and score, whenever the limit is at least the number of calls. *)
Theorem semantic_context_complete (md5_hex py_lower : string -> string)
    (py_split : string -> list string) (cs : list Semantic.call)
    (c : Semantic.call) (query : string) (limit : Z) :
  In c cs ->
  String.prefix "tag:" (Semantic.call_key c) = false ->
  1 <= Semantic.common_words (py_split (py_lower query))
         (py_split (py_lower (Semantic.call_context c))) ->
  (Z.of_nat (List.length cs) <= limit)%Z ->
  In (Semantic.mkScored (Semantic.call_key c) (Semantic.call_context c)
        (Semantic.common_words (py_split (py_lower query))
           (py_split (py_lower (Semantic.call_context c))))
        (Semantic.call_now c)
        (match Semantic.call_tags c with Some l => l | None => [] end))
     (Semantic.get_semantic_context py_lower py_split query limit
        (Semantic.add_all md5_hex cs Semantic.empty)).
Proof.
  intros Hin Hp Hsc Hlim.
  destruct (index_ok_all md5_hex cs [] Semantic.empty (index_ok_empty md5_hex))
    as (_ & Hc & Hn).
  simpl in Hc, Hn.
  unfold Semantic.get_semantic_context.
  rewrite slice_to_all.
  2:{ rewrite (Permutation_length (sort_by_score_perm _)).
      pose proof (scored_length py_lower py_split (py_split (py_lower query))
                    (Semantic.add_all md5_hex cs Semantic.empty)) as Hle.
      lia. }
  apply (Permutation_in _ (Permutation_sym (sort_by_score_perm _))).
  apply Hc in Hin. apply items_of_In in Hin.
  destruct Hin as (items & Hkv & He).
  apply in_flat_map. exists (Semantic.call_key c, items). split; [exact Hkv|].
  cbn [fst snd]. rewrite Hp. apply in_flat_map.
  exists (Semantic.made_by md5_hex c). split; [exact He|].
  unfold Semantic.made_by, Semantic.score_item.
  apply Nat.ltb_lt in Hsc. rewrite Hsc. now left.
Qed.

Lemma semantic_context_complete_witness :
  In (Semantic.mkScored "auth" "login"
        (Semantic.common_words (Semantic.one_word (lower "Login"))
           (Semantic.one_word (lower "login")))
        "t0" ["security"])
     (Semantic.get_semantic_context lower Semantic.one_word "Login" 5%Z
        (Semantic.add_all (fun s => s)
           [Semantic.mkCall "t0" "auth" "login" (Some ["security"]);
            Semantic.mkCall "t1" "tag:security" "login" None]
           Semantic.empty)).
Proof.
  apply (semantic_context_complete (fun s => s) lower Semantic.one_word
           [Semantic.mkCall "t0" "auth" "login" (Some ["security"]);
            Semantic.mkCall "t1" "tag:security" "login" None]
           (Semantic.mkCall "t0" "auth" "login" (Some ["security"]))
           "Login" 5%Z).
  - left. reflexivity.
  - reflexivity.
  - vm_compute. lia.
  - vm_compute. discriminate.
Defined.

(** ** The context of a query *)

Section ContextFacts.
Import Context.
Variable py_hash : string -> Z.
Variable py_lower : string -> string.
Variable py_split : string -> list string.

Lemma Forall2_skipn {A B} (R : A -> B -> Prop) n : forall l l',
  Forall2 R l l' -> Forall2 R (skipn n l) (skipn n l').
Proof.
  induction n as [|n IH]; intros l l' H; [exact H|].
  destruct H; simpl; [constructor | now apply IH].
Qed.

Lemma slice_last_Forall2 {A B} (R : A -> B -> Prop) n l l' :
  Forall2 R l l' -> Forall2 R (slice_last n l) (slice_last n l').
Proof.
  intros H. unfold slice_last. rewrite (Forall2_length H).
  destruct (0 <? n)%Z; now apply Forall2_skipn.
Qed.

Lemma pydict_set_holds path content record :
  str_field "content" record = Some content ->
  forall d fs,
    Forall2 (fun kv pc => fst kv = PyStr (fst pc)
                          /\ str_field "content" (snd kv) = Some (snd pc))
            d fs ->
    Forall2 (fun kv pc => fst kv = PyStr (fst pc)
                          /\ str_field "content" (snd kv) = Some (snd pc))
            (Memory.pydict_set path record d) (dict_set path content fs).
Proof.
  intros Hrec. induction 1 as [|[k v] [p c] d fs [Hk Hv] Hrest IH].
  - simpl. constructor; [|constructor]. now split.
  - cbn [fst snd] in Hk, Hv. subst k. cbn [Memory.pydict_set dict_set].
    destruct (String.eqb path p).
    + constructor; [now split | exact Hrest].
    + constructor; [now split | exact IH].
Qed.

Lemma holds_step c st v :
  holds st v ->
  exists st', run_store_call py_hash c st = Some st'
              /\ holds st' (view_step v c).
Proof.
  intros ((l & Hl & Hconv) & (d & Hd & Hfiles) & (dp & Hdp)).
  destruct c as [now role content md|now path content language|now k value];
    cbn [run_store_call view_step].
  - unfold Memory.add_conversation. rewrite Hl. eexists. split; [reflexivity|].
    split; [|split]; cbn [Memory.conversation_history Memory.code_context
                          Memory.project_state convs files]; eauto.
    eexists. split; [reflexivity|].
    apply Forall2_app; [exact Hconv|]. constructor; [|constructor].
    split; reflexivity.
  - unfold Memory.add_code_context. rewrite Hd. eexists. split; [reflexivity|].
    split; [|split]; cbn [Memory.conversation_history Memory.code_context
                          Memory.project_state convs files]; eauto.
    eexists. split; [reflexivity|].
    apply pydict_set_holds; [reflexivity | exact Hfiles].
  - unfold Memory.update_project_state. rewrite Hdp.
    eexists. split; [reflexivity|].
    split; [|split]; cbn [Memory.conversation_history Memory.code_context
                          Memory.project_state]; eauto.
Qed.

Lemma holds_run cs : forall st v,
  holds st v ->
  exists st', run_store_calls py_hash cs st = Some st'
              /\ holds st' (fold_left view_step cs v).
Proof.
  induction cs as [|c cs IH]; intros st v H; [exists st; now split|].
  destruct (holds_step c st v H) as (st1 & Hrun & H1).
  cbn [run_store_calls fold_left]. rewrite Hrun. now apply IH.
Qed.

Lemma holds_empty : holds Memory.empty (mkView [] []).
Proof.
  split; [|split]; eexists; try split; try reflexivity; constructor.
Qed.

Lemma collect_file_blocks keywords d fs :
  Forall2 (fun kv pc => fst kv = PyStr (fst pc)
                        /\ str_field "content" (snd kv) = Some (snd pc))
          d fs ->
  collect (file_block py_lower keywords) d
  = Some (map (fun pc => "File: " ++ fst pc ++ nl ++ snd pc)%string
              (filter (fun pc =>
                         existsb (fun keyword =>
                                    Engine.contains keyword (py_lower (snd pc)))
                                 keywords) fs)).
Proof.
  induction 1 as [|[k v] [p c] d fs [Hk Hv] Hrest IH]; [reflexivity|].
  cbn [fst snd] in Hk, Hv. subst k. cbn [collect filter snd].
  assert (Hblock : file_block py_lower keywords (PyStr p, v)
                   = Some (if existsb (fun keyword =>
                                         Engine.contains keyword (py_lower c))
                                      keywords
                           then ["File: " ++ p ++ nl ++ c]%string else [])).
  { unfold file_block. cbn [fst snd]. rewrite Hv.
    destruct keywords as [|kw kws]; [reflexivity|].
    now destruct (existsb _ (kw :: kws)). }
  rewrite Hblock, IH.
  destruct (existsb _ keywords); reflexivity.
Qed.

Lemma collect_conversation_lines l cv :
  Forall2 (fun e rc => str_field "role" e = Some (fst rc)
                       /\ str_field "content" e = Some (snd rc)) l cv ->
  collect conversation_line l
  = Some (map (fun rc => fst rc ++ ": " ++ snd rc)%string cv).
Proof.
  induction 1 as [|e [r c] l cv [Hr Hc] Hrest IH]; [reflexivity|].
  cbn [collect]. unfold conversation_line at 1. rewrite Hr, Hc, IH.
  reflexivity.
Qed.

Lemma relevant_context_of_view query n st v :
  holds st v ->
  get_relevant_context py_lower py_split query n st
  = Some (String.concat (nl ++ nl)%string
            (map (fun pc => "File: " ++ fst pc ++ nl ++ snd pc)%string
                 (filter (fun pc =>
                            existsb (fun keyword =>
                                       Engine.contains keyword
                                                       (py_lower (snd pc)))
                                    (py_split (py_lower query))) (files v))
             ++ match slice_last n (convs v) with
                | [] => []
                | recent =>
                    [("Recent conversations:" ++ nl
                      ++ String.concat nl
                           (map (fun rc => fst rc ++ ": " ++ snd rc) recent))
                     %string]
                end)).
Proof.
  intros ((l & Hl & Hconv) & (d & Hd & Hfiles) & _).
  unfold get_relevant_context. rewrite Hd, Hl.
  rewrite (collect_file_blocks _ _ _ Hfiles). unfold context_text.
  pose proof (slice_last_Forall2 _ n _ _ Hconv) as Hrecent.
  destruct Hrecent as [|e rc es rcs Hhead Htail].
  - now rewrite app_nil_r.
  - rewrite (collect_conversation_lines (e :: es) (rc :: rcs));
      [reflexivity | now constructor].
Qed.
End ContextFacts.

(** X28.  [get_relevant_context] on a manager filled by any calls of
    [add_conversation], [add_code_context] and [update_project_state]
    returns, joined by blank lines: a block ["File: <path>\n<content>"]
    for each path whose last written content, lowered, contains one of
    the words of the lowered query, in the order in which the paths
    were first written; and, when there is a conversation to show, one
    block listing ["<role>: <content>"] for the entries [max_entries]
    selects: the last [max_entries] entries when it is positive, the
    entries after the first [- max_entries] when it is negative, and
    every entry when it is [0], the same text as for a [max_entries]
    equal to the number of entries. *)
Theorem relevant_context_spec (py_hash : string -> Z)
    (py_lower : string -> string) (py_split : string -> list string)
    (cs : list store_call) (query : string) (max_entries : Z) :
  let v := Context.view_of cs in
  let blocks :=
    map (fun pc => "File: " ++ fst pc ++ Context.nl ++ snd pc)%string
        (filter (fun pc =>
                   existsb (fun keyword =>
                              Engine.contains keyword (py_lower (snd pc)))
                           (py_split (py_lower query))) (Context.files v)) in
  let recent := Context.slice_last max_entries (Context.convs v) in
  (exists st,
     run_store_calls py_hash cs Memory.empty = Some st
     /\ Context.get_relevant_context py_lower py_split query max_entries st
        = Some (String.concat (Context.nl ++ Context.nl)%string
                  (blocks
                   ++ match recent with
                      | [] => []
                      | _ :: _ =>
                          [("Recent conversations:" ++ Context.nl
                            ++ String.concat Context.nl
                                 (map (fun rc => fst rc ++ ": " ++ snd rc)
                                      recent))%string]
                      end))
     /\ Context.get_relevant_context py_lower py_split query 0 st
        = Context.get_relevant_context py_lower py_split query
            (Z.of_nat (List.length (Context.convs v))) st)
  /\ (exists older, Context.convs v = older ++ recent)
  /\ List.length recent
     = (if (0 <? max_entries)%Z
        then Nat.min (Z.to_nat max_entries) (List.length (Context.convs v))
        else List.length (Context.convs v) - Z.to_nat (- max_entries)).
Proof.
  intros v blocks recent.
  split; [|split].
  - destruct (holds_run py_hash cs Memory.empty (Context.mkView [] [])
                        holds_empty) as (st & Hrun & Hholds).
    exists st. split; [exact Hrun|]. split.
    + rewrite (relevant_context_of_view py_lower py_split query max_entries
                 st v Hholds).
      subst blocks recent. destruct (Context.slice_last _ _); reflexivity.
    + rewrite !(relevant_context_of_view py_lower py_split query _ st v
                  Hholds).
      replace (Context.slice_last (Z.of_nat (List.length (Context.convs v)))
                                  (Context.convs v))
        with (Context.slice_last 0 (Context.convs v)); [reflexivity|].
      unfold Context.slice_last.
      destruct (0 <? Z.of_nat (List.length (Context.convs v)))%Z.
      * rewrite Nat2Z.id, Nat.sub_diag. reflexivity.
      * replace (Z.to_nat (- Z.of_nat (List.length (Context.convs v))))
          with 0%nat by lia.
        reflexivity.
  - subst recent. unfold Context.slice_last.
    destruct (0 <? max_entries)%Z; eexists; symmetry; apply firstn_skipn.
  - subst recent. unfold Context.slice_last.
    destruct (0 <? max_entries)%Z eqn:E; rewrite length_skipn; [|reflexivity].
    apply Z.ltb_lt in E. lia.
Qed.

(** ** Learnings and the project summary *)

Section SummaryFacts.
Import Summary.

Lemma seen_add_cons k k' ks :
  seen_add (k' :: ks) k
  = if String.eqb k k' then k' :: ks else k' :: seen_add ks k.
Proof.
  unfold seen_add. cbn [existsb].
  destruct (String.eqb k k'); [reflexivity|]. cbn [orb].
  destruct (existsb (String.eqb k) ks); reflexivity.
Qed.

Lemma pydict_set_keys k v : forall d ks,
  map fst d = map PyStr ks ->
  map fst (Memory.pydict_set k v d) = map PyStr (seen_add ks k).
Proof.
  induction d as [|[k0 v0] d IH]; intros [|k' ks] H; try discriminate.
  - reflexivity.
  - cbn [map fst] in H. injection H as -> H.
    rewrite seen_add_cons. cbn [Memory.pydict_set].
    destruct (String.eqb k k').
    + cbn [map fst]. now rewrite H.
    + cbn [map fst]. now rewrite (IH ks H).
Qed.

Lemma pydict_set_Forall (P : pyval -> Prop) k v : forall d,
  Forall (fun kv => P (snd kv)) d -> P v ->
  Forall (fun kv => P (snd kv)) (Memory.pydict_set k v d).
Proof.
  induction 1 as [|[k0 v0] d H0 Hd IH]; intros Hv.
  - repeat constructor. exact Hv.
  - cbn [Memory.pydict_set].
    destruct k0; try (constructor; [exact H0 | now apply IH]).
    destruct (String.eqb k s); constructor; auto.
Qed.

Lemma pydict_find_Forall (P : pyval -> Prop) k : forall d v,
  Forall (fun kv => P (snd kv)) d -> pydict_find k d = Some v -> P v.
Proof.
  induction 1 as [|[k0 v0] d H0 Hd IH]; [discriminate|].
  cbn [pydict_find]. destruct k0; auto.
  destruct (String.eqb k s); auto. now intros [= <-].
Qed.

Lemma seen_add_In acc x y : In y (seen_add acc x) <-> In y acc \/ y = x.
Proof.
  unfold seen_add. destruct (existsb (String.eqb x) acc) eqn:E.
  - apply existsb_exists in E. destruct E as (z & Hz & Heq).
    apply String.eqb_eq in Heq. subst z. split; [tauto|].
    intros [H| ->]; assumption.
  - rewrite in_app_iff. simpl. intuition (subst; auto).
Qed.

Lemma seen_add_NoDup acc x : NoDup acc -> NoDup (seen_add acc x).
Proof.
  intros Hnd. unfold seen_add. destruct (existsb (String.eqb x) acc) eqn:E;
    [exact Hnd|].
  apply NoDup_app; [exact Hnd | repeat constructor; tauto|].
  intros y Hy [<-|[]].
  assert (existsb (String.eqb x) acc = true); [|congruence].
  apply existsb_exists. exists x. split; [exact Hy | apply String.eqb_refl].
Qed.

Lemma fold_seen_add l : forall acc,
  NoDup acc ->
  NoDup (fold_left seen_add l acc)
  /\ (forall y, In y (fold_left seen_add l acc) <-> In y acc \/ In y l)
  /\ List.length (fold_left seen_add l acc) <= List.length acc + List.length l.
Proof.
  induction l as [|x l IH]; intros acc Hnd.
  - simpl. split; [exact Hnd|]. split; [tauto | lia].
  - cbn [fold_left]. destruct (IH (seen_add acc x) (seen_add_NoDup acc x Hnd))
      as (H1 & H2 & H3).
    split; [exact H1|]. split.
    + intros y. rewrite H2, seen_add_In. simpl. intuition (subst; auto).
    + cbn [List.length]. etransitivity; [exact H3|].
      unfold seen_add. destruct (existsb _ acc); rewrite ?length_app; simpl; lia.
Qed.

Variable py_hash : string -> Z.

Lemma holds_call c st n paths scenarios :
  holds st n paths scenarios ->
  exists st',
    run_memory_call py_hash c st = Some st'
    /\ holds st'
         (conversations_added [c] + n)
         (fold_left seen_add (paths_written [c]) paths)
         (fold_left seen_add (scenarios_learned [c]) scenarios).
Proof.
  intros ((l & Hl & Hlen) & (dc & Hdc & Hkeys) & (dp & Hdp)
          & (dl & Hdl & Hlk & Hlv)).
  destruct c as [[now role content md|now path content language|now k value]
                |now scenario solution success];
    cbn [run_memory_call run_store_call conversations_added paths_written
         scenarios_learned flat_map filter app fold_left List.length].
  - unfold Memory.add_conversation. rewrite Hl. eexists. split; [reflexivity|].
    unfold holds. cbn [Memory.conversation_history Memory.code_context
                       Memory.project_state Memory.learning_memory].
    split; [|eauto 10]. eexists. split; [reflexivity|].
    rewrite length_app. simpl. lia.
  - unfold Memory.add_code_context. rewrite Hdc. eexists. split; [reflexivity|].
    unfold holds. cbn [Memory.conversation_history Memory.code_context
                       Memory.project_state Memory.learning_memory].
    split; [eauto|]. split; [|eauto 10].
    eexists. split; [reflexivity|]. now apply pydict_set_keys.
  - unfold Memory.update_project_state. rewrite Hdp.
    eexists. split; [reflexivity|].
    unfold holds. cbn [Memory.conversation_history Memory.code_context
                       Memory.project_state Memory.learning_memory].
    eauto 12.
  - unfold add_learning. rewrite Hdl.
    assert (Hfound : exists l0,
               match pydict_find scenario dl with
               | None => Some []
               | Some (PyList l1) => Some l1
               | Some _ => None
               end = Some l0).
    { destruct (pydict_find scenario dl) as [v|] eqn:E; [|eauto].
      destruct (pydict_find_Forall (fun v => exists l, v = PyList l)
                  scenario dl v Hlv E) as (l1 & ->). eauto. }
    destruct Hfound as (l0 & ->). eexists. split; [reflexivity|].
    unfold holds. cbn [Memory.conversation_history Memory.code_context
                       Memory.project_state Memory.learning_memory].
    split; [eauto|]. split; [eauto|]. split; [eauto|].
    eexists. split; [reflexivity|]. split; [now apply pydict_set_keys|].
    apply (pydict_set_Forall (fun v => exists l, v = PyList l));
      [exact Hlv | eauto].
Qed.

Lemma holds_calls cs : forall st n paths scenarios,
  holds st n paths scenarios ->
  exists st',
    run_memory_calls py_hash cs st = Some st'
    /\ holds st'
         (conversations_added cs + n)
         (fold_left seen_add (paths_written cs) paths)
         (fold_left seen_add (scenarios_learned cs) scenarios).
Proof.
  induction cs as [|c cs IH]; intros st n paths scenarios H;
    [exists st; now split|].
  destruct (holds_call c st n paths scenarios H) as (st1 & Hrun & H1).
  cbn [run_memory_calls]. rewrite Hrun.
  destruct (IH _ _ _ _ H1) as (st' & Hrun' & H').
  exists st'. split; [exact Hrun'|].
  change (c :: cs) with ([c] ++ cs).
  unfold paths_written, scenarios_learned, conversations_added in *.
  rewrite !flat_map_app, !fold_left_app, filter_app, length_app.
  replace (List.length (filter _ [c]) + List.length (filter _ cs) + n)
    with (List.length (filter (fun c0 => match c0 with
                                         | Stored (CallAddConversation _ _ _ _) =>
                                             true
                                         | _ => false
                                         end) cs)
          + (List.length (filter (fun c0 => match c0 with
                                            | Stored (CallAddConversation _ _ _ _) =>
                                                true
                                            | _ => false
                                            end) [c]) + n)) by lia.
  exact H'.
Qed.

Lemma holds_empty_store : holds Memory.empty 0 [] [].
Proof.
  unfold holds. cbn. split; [eauto|]. split; [eauto|]. split; [eauto|].
  eexists. split; [reflexivity|]. split; [reflexivity | constructor].
Qed.
End SummaryFacts.

(** X29.  After any calls of [add_conversation], [add_code_context],
    [update_project_state] and [add_learning] on a new manager, none
    of which raises, [get_project_summary] reports: as
    [total_conversations] the number of [add_conversation] calls; as
    [code_files] the paths given to [add_code_context], each once, in
    the order in which they were first written; and as
    [learning_experiences] the number of distinct scenarios given to
    [add_learning], which is at most, and can be less than, the number
    of learnings recorded. *)
Theorem project_summary_spec (py_hash : string -> Z)
    (cs : list Summary.memory_call) (now name : string) :
  exists st s,
    Summary.run_memory_calls py_hash cs Memory.empty = Some st
    /\ Summary.get_project_summary now name st = Some s
    /\ Summary.project_name s = name
    /\ Summary.last_updated s = now
    /\ Summary.project_state s = Memory.project_state st
    /\ Summary.total_conversations s = Summary.conversations_added cs
    /\ Summary.code_files s
       = map PyStr (Summary.first_seen (Summary.paths_written cs))
    /\ Summary.learning_experiences s
       = List.length (Summary.first_seen (Summary.scenarios_learned cs))
    /\ NoDup (Summary.first_seen (Summary.paths_written cs))
    /\ NoDup (Summary.first_seen (Summary.scenarios_learned cs))
    /\ (forall p, In p (Summary.first_seen (Summary.paths_written cs))
                  <-> In p (Summary.paths_written cs))
    /\ (forall x, In x (Summary.first_seen (Summary.scenarios_learned cs))
                  <-> In x (Summary.scenarios_learned cs))
    /\ Summary.learning_experiences s
       <= List.length (Summary.scenarios_learned cs).
Proof.
  destruct (holds_calls py_hash cs Memory.empty 0 [] [] holds_empty_store)
    as (st & Hrun & (l & Hl & Hlen) & (dc & Hdc & Hkeys) & (dp & Hdp)
        & (dl & Hdl & Hlk & Hlv)).
  fold (Summary.first_seen (Summary.paths_written cs)) in Hkeys.
  fold (Summary.first_seen (Summary.scenarios_learned cs)) in Hlk.
  destruct (fold_seen_add (Summary.paths_written cs) [] (NoDup_nil _))
    as (Hp1 & Hp2 & _).
  destruct (fold_seen_add (Summary.scenarios_learned cs) [] (NoDup_nil _))
    as (Hs1 & Hs2 & Hs3).
  fold (Summary.first_seen (Summary.paths_written cs)) in Hp1, Hp2.
  fold (Summary.first_seen (Summary.scenarios_learned cs)) in Hs1, Hs2, Hs3.
  assert (Hcount : List.length dl
                   = List.length (Summary.first_seen
                                    (Summary.scenarios_learned cs))).
  { rewrite <- (length_map fst dl), Hlk. apply length_map. }
  exists st. eexists. split; [exact Hrun|].
  unfold Summary.get_project_summary. rewrite Hl, Hdc, Hdl.
  cbn [Summary.py_len]. split; [reflexivity|].
  cbn [Summary.project_name Summary.last_updated Summary.project_state
       Summary.total_conversations Summary.code_files
       Summary.learning_experiences].
  split; [reflexivity|]. split; [reflexivity|]. split; [reflexivity|].
  split; [lia|]. split; [exact Hkeys|]. split; [exact Hcount|].
  split; [exact Hp1|]. split; [exact Hs1|].
  split; [intros p; rewrite Hp2; simpl; tauto|].
  split; [intros x; rewrite Hs2; simpl; tauto|].
  rewrite Hcount. simpl in Hs3. exact Hs3.
Qed.
